(** * Tiered PII field encryption: a shallow embedding of the Lambda engine

    The repository ships two implementations of the same Lambda:

    - the package [pii_encryption_lambda] ([lambda_function.py] and
      [database_operations.py]), embedded in [Module Pkg];
    - the single-file handler [lambda_function_generated.py], embedded in
      [Module Generated].

    Python code is embedded in a state-and-exception monad.  The state holds
    the committed database tables, the per-handler [lru_cache] slots, the
    schedule of database faults and the trace of calls made to external
    collaborators (KMS, Secrets Manager, Fernet, PostgreSQL).  The external
    collaborators themselves are the fields of a [services] record.

    Conventions of the embedding:

    - a Python [str] is a [string] of ASCII characters, [bytes] a list of
      bytes; [lower] and [strip] are the ASCII versions of the methods;
    - a [dict] is an association list in insertion order; dict literals
      with fixed keys that are only read back by key are records;
    - [try: ... except Exception as e: log; raise] is the identity and is
      left out, as is logging: only handlers that change the outcome appear;
    - each collaborator gives one answer per request (a function of the
      request), and nothing is assumed about the answers unless stated;
    - [connection.close()] and the construction of the boto3 clients do not
      raise;
    - every database request consumes one entry of the fault schedule, so
      that a statement about all states covers every way the database may
      refuse a connection, a statement or a commit. *)

From Stdlib Require Import String Ascii List ZArith Bool Lia DecimalString.
From Stdlib Require Strings.Byte.
Import ListNotations.
Local Open Scope string_scope.
Local Open Scope list_scope.

Set Implicit Arguments.

(** ** Python values *)

Definition bytes := list Byte.byte.

#[warnings="-register-all"]
Inductive pyval : Type :=
| VNone
| VBool (b : bool)
| VInt (z : Z)
| VStr (s : string)
| VObj (repr : string)
| VList (l : list pyval)
| VDict (d : list (string * pyval)).

(** A [dict] keeps insertion order, as Python's does: an association list
    whose keys are written at most once. *)
Definition dict := list (string * pyval).

Section Alist.
Variable V : Type.

Fixpoint dict_get (d : list (string * V)) (k : string) : option V :=
  match d with
  | [] => None
  | (k', v) :: rest => if String.eqb k' k then Some v else dict_get rest k
  end.

(** [k in d] *)
Definition dict_mem (d : list (string * V)) (k : string) : bool :=
  match dict_get d k with Some _ => true | None => false end.

(** [d.get(k, default)] *)
Definition dict_get_or (d : list (string * V)) (k : string) (default : V) : V :=
  match dict_get d k with Some v => v | None => default end.

(** [d[k] = v]: overwrite in place, or append a new key *)
Fixpoint dict_set (d : list (string * V)) (k : string) (v : V) : list (string * V) :=
  match d with
  | [] => [(k, v)]
  | (k', v') :: rest =>
      if String.eqb k' k then (k', v) :: rest else (k', v') :: dict_set rest k v
  end.

(** [d.pop(k, None)] *)
Fixpoint dict_pop (d : list (string * V)) (k : string) : list (string * V) :=
  match d with
  | [] => []
  | (k', v') :: rest =>
      if String.eqb k' k then rest else (k', v') :: dict_pop rest k
  end.

Definition dict_keys (d : list (string * V)) : list string := map fst d.
End Alist.

Definition is_none (v : pyval) : bool :=
  match v with VNone => true | _ => false end.

(** [v is None or v == ''] *)
Definition is_none_or_empty (v : pyval) : bool :=
  match v with
  | VNone => true
  | VStr s => String.eqb s ""
  | _ => false
  end.

(** Truthiness, as used by [if not x]. *)
Definition py_truthy (v : pyval) : bool :=
  match v with
  | VNone => false
  | VBool b => b
  | VInt z => negb (Z.eqb z 0)
  | VStr s => negb (String.eqb s "")
  | VObj _ => true
  | VList l => match l with [] => false | _ => true end
  | VDict d => match d with [] => false | _ => true end
  end.

(** [v == n] for an integer literal [n]; Python has [True == 1]. *)
Definition py_eq_int (v : pyval) (n : Z) : bool :=
  match v with
  | VInt z => Z.eqb z n
  | VBool b => Z.eqb (if b then 1 else 0) n
  | _ => false
  end.

(** [v == s] for a string literal [s]. *)
Definition py_eq_str (v : pyval) (s : string) : bool :=
  match v with
  | VStr t => String.eqb t s
  | _ => false
  end.

Definition decimal (z : Z) : string := NilZero.string_of_int (Z.to_int z).

(** ** Strings *)

Definition lower_ascii (c : ascii) : ascii :=
  let n := nat_of_ascii c in
  if (65 <=? n)%nat && (n <=? 90)%nat then ascii_of_nat (n + 32) else c.

Fixpoint lower (s : string) : string :=
  match s with
  | EmptyString => EmptyString
  | String c rest => String (lower_ascii c) (lower rest)
  end.

(** The ASCII characters [str.strip()] removes. *)
Definition is_space (c : ascii) : bool :=
  let n := nat_of_ascii c in
  ((9 <=? n)%nat && (n <=? 13)%nat) || ((28 <=? n)%nat && (n <=? 32)%nat).

Fixpoint lstrip (s : string) : string :=
  match s with
  | EmptyString => EmptyString
  | String c rest => if is_space c then lstrip rest else s
  end.

Fixpoint rstrip (s : string) : string :=
  match s with
  | EmptyString => EmptyString
  | String c rest =>
      match rstrip rest with
      | EmptyString => if is_space c then EmptyString else String c EmptyString
      | r => String c r
      end
  end.

Definition strip (s : string) : string := rstrip (lstrip s).

Definition endswith (s suffix : string) : bool :=
  let n := String.length s in
  let m := String.length suffix in
  (m <=? n)%nat && String.eqb (substring (n - m) m s) suffix.

(** [s.replace(old, new)] for a non-empty [old]: every occurrence, left to
    right, without overlap.  [skip] counts the characters of a matched
    occurrence still to be dropped. *)
Fixpoint replace_from (old new : string) (skip : nat) (s : string) : string :=
  match s with
  | EmptyString => EmptyString
  | String c rest =>
      match skip with
      | S k => replace_from old new k rest
      | O =>
          if prefix old s
          then new ++ replace_from old new (String.length old - 1) rest
          else String c (replace_from old new 0 rest)
      end
  end.

Definition replace (s old new : string) : string := replace_from old new 0 s.

(** ** Exceptions and results *)

Record exn : Type := mkExn { exn_type : string; exn_msg : string }.

Inductive result (A : Type) : Type :=
| Ok (a : A)
| Err (e : exn).
Arguments Ok {A} a.
Arguments Err {A} e.

Definition ValueError (msg : string) : exn := mkExn "ValueError" msg.
Definition TypeError (msg : string) : exn := mkExn "TypeError" msg.
Definition AttributeError (msg : string) : exn := mkExn "AttributeError" msg.
Definition KeyError (key : string) : exn := mkExn "KeyError" ("'" ++ key ++ "'").
Definition ProgrammingError (msg : string) : exn := mkExn "ProgrammingError" msg.
Definition IntegrityError (msg : string) : exn := mkExn "IntegrityError" msg.

(** [v[k]] on a value expected to be a dict *)
Definition py_getitem (v : pyval) (k : string) : result pyval :=
  match v with
  | VDict d =>
      match dict_get d k with
      | Some x => Ok x
      | None => Err (KeyError k)
      end
  | _ => Err (TypeError "object is not subscriptable")
  end.

(** ** External collaborators

    Every field is the answer the collaborator gives to one request.  The
    laws a theorem needs (the envelope service decrypts what it encrypted,
    and so on) are stated where they are used. *)

Record services : Type := mkServices {
  (** KMS: [encrypt(KeyId, Plaintext)['CiphertextBlob']],
      [decrypt(CiphertextBlob)['Plaintext']], [describe_key(KeyId)] *)
  kms_encrypt : string -> bytes -> result bytes;
  kms_decrypt : bytes -> result bytes;
  kms_describe_key : string -> result unit;
  (** Secrets Manager: [json.loads(get_secret_value(SecretId)['SecretString'])] *)
  get_secret_value : string -> result pyval;
  (** [cryptography.fernet]: key validation by [Fernet(key)], then
      [encrypt] and [decrypt] under a validated key *)
  fernet_key_ok : bytes -> bool;
  fernet_encrypt : bytes -> bytes -> bytes;
  fernet_decrypt : bytes -> bytes -> result bytes;
  (** [base64.b64encode(b).decode('utf-8')] and [base64.b64decode(s)] *)
  b64encode : bytes -> string;
  b64decode : string -> result bytes;
  (** [s.encode('utf-8')] and [b.decode('utf-8')] *)
  utf8_encode : string -> result bytes;
  utf8_decode : bytes -> result string;
  (** [str(v)] of a list or a dict *)
  py_repr : pyval -> string;
  (** PostgreSQL column defaults: the n-th generated UUID and timestamp *)
  gen_uuid : nat -> string;
  gen_timestamp : nat -> string;
  (** [information_schema.columns] of the three tables *)
  users_columns : list string;
  metadata_columns : list string;
  audit_columns : list string
}.

(** ** Database tables *)

Record user_row : Type := mkUser {
  u_id : string;
  u_cols : dict;              (* the columns given a value; all others are NULL *)
  u_created_at : string;
  u_updated_at : string
}.

Record meta_row : Type := mkMeta {
  m_user_id : string;
  m_field_name : string;
  m_pii_level : pyval;
  m_app_key_version : pyval;
  m_kms_key_alias : pyval;
  m_encryption_algorithm : pyval
}.

Record audit_row : Type := mkAudit {
  a_user_id : pyval;
  a_field_name : string;
  a_pii_level : Z;
  a_operation : string;
  a_accessed_by : string;
  a_ip_address : pyval;
  a_success : bool;
  a_error_message : pyval;
  a_accessed_at : string
}.

Record tables : Type := mkTables {
  users : list user_row;
  encryption_metadata : list meta_row;
  encryption_audit : list audit_row
}.

(** ** Calls to the collaborators, in the order they are made *)

Inductive statement : Type :=
| InsertUser (columns : list string) (values : list pyval)
| InsertMetadata (user_id field_name : string)
| InsertAudit (field_name operation : string)
| SelectUser (user_id : pyval)
| SelectMetadata (user_id : pyval)
| DeleteUser (user_id : pyval)
| SelectUsersPage
| CountUsers
| SelectAudit
| SelectColumns (table : string).

Inductive call : Type :=
| KmsEncrypt (key_id : string) (plaintext : bytes)
| KmsDecrypt (blob : bytes)
| KmsDescribeKey (key_id : string)
| GetSecretValue (secret_id : string)
| FernetEncrypt (key data : bytes)
| FernetDecrypt (key token : bytes)
| DbConnect
| DbExecute (q : statement)
| DbCommit
| DbRollback
| DbClose.

(** ** Process state *)

Record state : Type := mkState {
  database : tables;                 (* committed rows *)
  ticks : nat;                       (* column defaults generated so far *)
  faults : list (option exn);        (* what the next database requests answer *)
  app_keys_cache : option pyval;     (* lru_cache of get_app_keys *)
  db_credentials_cache : option pyval; (* lru_cache of get_db_credentials *)
  trace : list call
}.

Definition set_database (t : tables) (s : state) : state :=
  mkState t (ticks s) (faults s) (app_keys_cache s) (db_credentials_cache s) (trace s).
Definition set_ticks (n : nat) (s : state) : state :=
  mkState (database s) n (faults s) (app_keys_cache s) (db_credentials_cache s) (trace s).
Definition set_faults (f : list (option exn)) (s : state) : state :=
  mkState (database s) (ticks s) f (app_keys_cache s) (db_credentials_cache s) (trace s).
Definition set_app_keys_cache (c : option pyval) (s : state) : state :=
  mkState (database s) (ticks s) (faults s) c (db_credentials_cache s) (trace s).
Definition set_db_credentials_cache (c : option pyval) (s : state) : state :=
  mkState (database s) (ticks s) (faults s) (app_keys_cache s) c (trace s).
Definition set_trace (t : list call) (s : state) : state :=
  mkState (database s) (ticks s) (faults s) (app_keys_cache s) (db_credentials_cache s) t.

(** ** The monad of Python code: state is kept when an exception is raised *)

Definition M (A : Type) : Type := state -> result A * state.

Definition ret {A} (a : A) : M A := fun s => (Ok a, s).

Definition raise {A} (e : exn) : M A := fun s => (Err e, s).

Definition bind {A B} (m : M A) (k : A -> M B) : M B :=
  fun s =>
    match m s with
    | (Ok a, s1) => k a s1
    | (Err e, s1) => (Err e, s1)
    end.

Declare Scope py_scope.
Delimit Scope py_scope with py.
Notation "x <- m ;; k" := (bind m (fun x => k))
  (at level 100, m at next level, right associativity) : py_scope.
Notation "m ;;; k" := (bind m (fun _ => k))
  (at level 100, right associativity) : py_scope.
Local Open Scope py_scope.

(** [try: m  except Exception as e: h e] *)
Definition try_except {A} (m : M A) (h : exn -> M A) : M A :=
  fun s =>
    match m s with
    | (Ok a, s1) => (Ok a, s1)
    | (Err e, s1) => h e s1
    end.

(** [try: m  finally: f]; an exception of [f] replaces the outcome of [m] *)
Definition try_finally {A} (m : M A) (f : M unit) : M A :=
  fun s =>
    match m s with
    | (r, s1) =>
        match f s1 with
        | (Ok _, s2) => (r, s2)
        | (Err e, s2) => (Err e, s2)
        end
    end.

Definition lift {A} (r : result A) : M A := fun s => (r, s).

Definition emit (c : call) : M unit :=
  fun s => (Ok tt, set_trace (trace s ++ [c]) s).

(** [for x in xs: body x], stopping at the first exception *)
Fixpoint for_each {A} (xs : list A) (body : A -> M unit) : M unit :=
  match xs with
  | [] => ret tt
  | x :: rest => body x ;;; for_each rest body
  end.

(** A loop that threads the local variables [acc] through its body *)
Fixpoint for_fold {A B} (xs : list A) (acc : B) (body : B -> A -> M B) : M B :=
  match xs with
  | [] => ret acc
  | x :: rest => acc' <- body acc x ;; for_fold rest acc' body
  end.

(** ** Vocabulary for statements about runs *)

(** Every run of [m] takes a state to an [R]-related one, whatever it
    returns or raises. *)
Definition stable (R : state -> state -> Prop) {A} (m : M A) : Prop :=
  forall s r s1, m s = (r, s1) -> R s s1.

(** From [Q]-related states, [m] returns or raises the same thing and ends
    in [Q]-related states. *)
Definition respects (Q : state -> state -> Prop) {A} (m : M A) : Prop :=
  forall s s', Q s s' ->
    fst (m s) = fst (m s') /\ Q (snd (m s)) (snd (m s')).

Definition is_commit (c : call) : bool :=
  match c with DbCommit => true | _ => false end.

(** Nothing was committed: the tables are as before and the calls made,
    which extend the trace, contain no [commit]. *)
Definition uncommitted (s s1 : state) : Prop :=
  database s1 = database s
  /\ exists calls, trace s1 = trace s ++ calls /\ filter is_commit calls = [].

(** Nothing was committed and the key cache is as before. *)
Definition quiet (s s1 : state) : Prop :=
  uncommitted s s1 /\ app_keys_cache s1 = app_keys_cache s.

(** The key cache, the users and their metadata are as before. *)
Definition same_engine (s s1 : state) : Prop :=
  app_keys_cache s1 = app_keys_cache s
  /\ users (database s1) = users (database s)
  /\ encryption_metadata (database s1) = encryption_metadata (database s).

(** Two states of a handler that hold the same cached keys *)
Definition same_keys (s s' : state) : Prop :=
  app_keys_cache s = app_keys_cache s'.

(** Every metadata row belongs to a stored user (the foreign key). *)
Definition metadata_references_users (t : tables) : Prop :=
  forall m, In m (encryption_metadata t) -> In (m_user_id m) (map u_id (users t)).

(** The metadata rows of one field of one user *)
Definition metadata_rows_for (user_id field_name : string) (t : tables)
    : list meta_row :=
  filter (fun m => String.eqb (m_user_id m) user_id
                   && String.eqb (m_field_name m) field_name)
         (encryption_metadata t).

(** ** JSON bodies

    A response body is kept as the value handed to [json.dumps].  Objects
    such as [datetime] and [UUID] are not serialisable unless the call passes
    [default=str]. *)

Fixpoint json_serializable (v : pyval) : bool :=
  match v with
  | VObj _ => false
  | VList l => forallb json_serializable l
  | VDict d => forallb (fun kv : string * pyval => let (_, x) := kv in json_serializable x) d
  | _ => true
  end.

Fixpoint stringify_objects (v : pyval) : pyval :=
  match v with
  | VObj r => VStr r
  | VList l => VList (map stringify_objects l)
  | VDict d => VDict (map (fun kv : string * pyval => let (k, x) := kv in (k, stringify_objects x)) d)
  | _ => v
  end.

Definition json_dumps (default_str : bool) (v : pyval) : result pyval :=
  if default_str then Ok (stringify_objects v)
  else if json_serializable v then Ok v
  else Err (TypeError "Object is not JSON serializable").

Record response : Type := mkResponse { statusCode : Z; body : pyval }.

(** ** PostgreSQL through psycopg2

    A connection works on its own copy of the tables; [commit] publishes the
    copy, [rollback] and [close] drop it.  Every request first consumes one
    entry of the fault schedule, which stands for whatever makes the server
    or the network refuse it. *)

Definition connection := tables.

Definition has_string (x : string) (l : list string) : bool :=
  existsb (String.eqb x) l.

Fixpoint has_duplicate (l : list string) : bool :=
  match l with
  | [] => false
  | x :: rest => has_string x rest || has_duplicate rest
  end.

Section Database.
Variable svc : services.

Definition py_str (v : pyval) : string :=
  match v with
  | VNone => "None"
  | VBool true => "True"
  | VBool false => "False"
  | VInt z => decimal z
  | VStr s => s
  | VObj r => r
  | _ => py_repr svc v
  end.

Definition db_request (c : call) : M unit :=
  emit c ;;;
  (fun s =>
     match faults s with
     | [] => (Ok tt, s)
     | None :: rest => (Ok tt, set_faults rest s)
     | Some e :: rest => (Err e, set_faults rest s)
     end).

Definition psycopg2_connect : M connection :=
  db_request DbConnect ;;;
  (fun s => (Ok (database s), s)).

Definition commit (conn : connection) : M unit :=
  db_request DbCommit ;;;
  (fun s => (Ok tt, set_database conn s)).

Definition rollback (conn : connection) : M unit := db_request DbRollback.

Definition close (conn : connection) : M unit := emit DbClose.

(** [WHERE id = %s] *)
Definition id_matches (user_id : pyval) (u : user_row) : bool :=
  String.eqb (u_id u) (py_str user_id).

(** [INSERT INTO users (columns) VALUES (values) RETURNING ...]: the new
    row is handed back for the [RETURNING] columns. *)
Definition execute_insert_user (conn : connection)
    (columns : list string) (values : list pyval) : M (connection * user_row) :=
  db_request (DbExecute (InsertUser columns values)) ;;;
  (fun s =>
     let id := gen_uuid svc (ticks s) in
     let now := gen_timestamp svc (ticks s) in
     if negb (forallb (fun c => has_string c (users_columns svc)) columns)
     then (Err (ProgrammingError "column of relation users does not exist"), s)
     else if has_duplicate columns
     then (Err (ProgrammingError "column specified more than once"), s)
     else if existsb (fun u => String.eqb (u_id u) id) (users conn)
     then (Err (IntegrityError "duplicate key value violates users_pkey"), s)
     else
       let row := mkUser id (combine columns values) now now in
       (Ok (mkTables (users conn ++ [row]) (encryption_metadata conn)
                     (encryption_audit conn), row),
        set_ticks (S (ticks s)) s)).

(** [INSERT INTO encryption_metadata (...)]; [user_id] references [users] *)
Definition execute_insert_metadata (conn : connection) (row : meta_row)
    : M connection :=
  db_request (DbExecute (InsertMetadata (m_user_id row) (m_field_name row))) ;;;
  if existsb (fun u => String.eqb (u_id u) (m_user_id row)) (users conn)
  then ret (mkTables (users conn) (encryption_metadata conn ++ [row])
                     (encryption_audit conn))
  else raise (IntegrityError "user_id is not present in table users").

(** [INSERT INTO encryption_audit (...)] *)
Definition execute_insert_audit (conn : connection)
    (user_id : pyval) (field_name : string) (pii_level : Z)
    (operation accessed_by : string) (ip_address : pyval)
    (success : bool) (error_message : pyval) : M connection :=
  db_request (DbExecute (InsertAudit field_name operation)) ;;;
  (fun s =>
     let row := mkAudit user_id field_name pii_level operation accessed_by
                        ip_address success error_message
                        (gen_timestamp svc (ticks s)) in
     (Ok (mkTables (users conn) (encryption_metadata conn)
                   (encryption_audit conn ++ [row])),
      set_ticks (S (ticks s)) s)).

(** The value of one column of a [users] row *)
Definition user_column (u : user_row) (c : string) : pyval :=
  if String.eqb c "id" then VObj (u_id u)
  else if String.eqb c "created_at" then VObj (u_created_at u)
  else if String.eqb c "updated_at" then VObj (u_updated_at u)
  else dict_get_or (u_cols u) c VNone.

Definition user_dict (columns : list string) (u : user_row) : dict :=
  map (fun c => (c, user_column u c)) columns.

(** [SELECT columns FROM users WHERE id = %s] followed by [fetchone()];
    [None] as the column list is [SELECT *]. *)
Definition execute_select_user (conn : connection)
    (columns : option (list string)) (user_id : pyval) : M (option dict) :=
  db_request (DbExecute (SelectUser user_id)) ;;;
  let selected :=
    match columns with Some cs => cs | None => users_columns svc end in
  if negb (forallb (fun c => has_string c (users_columns svc)) selected)
  then raise (ProgrammingError "column of relation users does not exist")
  else ret (option_map (user_dict selected)
                       (find (id_matches user_id) (users conn))).

(** [SELECT ... FROM encryption_metadata WHERE user_id = %s], [fetchall()] *)
Definition execute_select_metadata (conn : connection) (user_id : pyval)
    : M (list meta_row) :=
  db_request (DbExecute (SelectMetadata user_id)) ;;;
  ret (filter (fun m => String.eqb (m_user_id m) (py_str user_id))
              (encryption_metadata conn)).

(** [DELETE FROM users WHERE id = %s]; the metadata rows of the user go
    with it (ON DELETE CASCADE).  Returns [cursor.rowcount]. *)
Definition execute_delete_user (conn : connection) (user_id : pyval)
    : M (connection * nat) :=
  db_request (DbExecute (DeleteUser user_id)) ;;;
  let gone := filter (id_matches user_id) (users conn) in
  ret (mkTables
         (filter (fun u => negb (id_matches user_id u)) (users conn))
         (filter (fun m => negb (has_string (m_user_id m) (map u_id gone)))
                 (encryption_metadata conn))
         (encryption_audit conn),
       List.length gone).

Definition as_count (v : pyval) : result nat :=
  match v with
  | VInt z => if (0 <=? z)%Z then Ok (Z.to_nat z)
              else Err (mkExn "DataError" "LIMIT and OFFSET must not be negative")
  | _ => Err (mkExn "DataError" "invalid input syntax for type bigint")
  end.

(** [SELECT columns FROM users ORDER BY created_at DESC LIMIT %s OFFSET %s] *)
Definition execute_select_users_page (conn : connection)
    (columns : list string) (limit offset : pyval) : M (list dict) :=
  db_request (DbExecute SelectUsersPage) ;;;
  n <- lift (as_count limit) ;;
  k <- lift (as_count offset) ;;
  ret (map (user_dict columns) (firstn n (skipn k (rev (users conn))))).

(** [SELECT COUNT] of all rows of [users], as [total] *)
Definition execute_count_users (conn : connection) : M pyval :=
  db_request (DbExecute CountUsers) ;;;
  ret (VInt (Z.of_nat (List.length (users conn)))).

Definition audit_dict (n : nat) (a : audit_row) : dict :=
  [("id", VInt (Z.of_nat n)); ("user_id", a_user_id a);
   ("field_name", VStr (a_field_name a)); ("pii_level", VInt (a_pii_level a));
   ("operation", VStr (a_operation a)); ("accessed_by", VStr (a_accessed_by a));
   ("ip_address", a_ip_address a); ("success", VBool (a_success a));
   ("error_message", a_error_message a); ("accessed_at", VObj (a_accessed_at a))].

Fixpoint number_from {A} (n : nat) (l : list A) : list (nat * A) :=
  match l with
  | [] => []
  | x :: rest => (n, x) :: number_from (S n) rest
  end.

(** [SELECT * FROM encryption_audit [WHERE user_id = %s]
     ORDER BY accessed_at DESC LIMIT %s] *)
Definition execute_select_audit (conn : connection)
    (user_id : option pyval) (limit : pyval) : M (list dict) :=
  db_request (DbExecute SelectAudit) ;;;
  n <- lift (as_count limit) ;;
  let keep (na : nat * audit_row) :=
    match user_id with
    | Some uid => String.eqb (py_str (a_user_id (snd na))) (py_str uid)
    | None => true
    end in
  ret (map (fun na => audit_dict (fst na) (snd na))
           (firstn n (filter keep (rev (number_from 1 (encryption_audit conn)))))).

(** [SELECT column_name FROM information_schema.columns WHERE table_name = t] *)
Definition execute_select_columns (conn : connection) (table : string)
    : M (list string) :=
  db_request (DbExecute (SelectColumns table)) ;;;
  ret (if String.eqb table "users" then users_columns svc
       else if String.eqb table "encryption_metadata" then metadata_columns svc
       else if String.eqb table "encryption_audit" then audit_columns svc
       else []).
End Database.

(** * The package [pii_encryption_lambda] *)

Module Pkg.
Section WithServices.
Variable svc : services.

(** ** [PIIClassifier] *)

Definition PII_LEVEL_MAPPING : list (Z * list string) :=
  [ (1%Z, ["email"; "first_name"; "last_name"; "phone"; "phone_number";
           "name"; "username"; "display_name"]);
    (2%Z, ["address"; "street_address"; "city"; "state"; "zip_code";
           "postal_code"; "date_of_birth"; "dob"; "birth_date"; "ip_address";
           "location"; "country"; "region"; "timezone"]);
    (3%Z, ["ssn"; "social_security_number"; "bank_account"; "account_number";
           "credit_card"; "credit_card_number"; "medical_record";
           "health_record"; "passport_number"; "driver_license"; "tax_id";
           "national_id"]) ].

Fixpoint lookup_level (mapping : list (Z * list string)) (field_lower : string)
    : option Z :=
  match mapping with
  | [] => None
  | (level, fields) :: rest =>
      if has_string field_lower fields then Some level
      else lookup_level rest field_lower
  end.

Definition classify_pii_level (field_name : string) : Z :=
  let field_lower := strip (lower field_name) in
  match lookup_level PII_LEVEL_MAPPING field_lower with
  | Some level => level
  | None => 1%Z      (* unknown fields default to level 1 *)
  end.

Record requirements : Type := mkRequirements {
  level : Z;
  field_name : string;
  requires_kms : bool;
  requires_app_encryption : bool;
  storage_suffix : string
}.

Definition get_encryption_requirements (field_name : string) : requirements :=
  let level := classify_pii_level field_name in
  mkRequirements level field_name (2 <=? level)%Z (level =? 3)%Z
                 (if (1 <? level)%Z then "_encrypted" else "").

(** ** [EncryptionHandler] *)

Definition level2_kms_alias : string := "alias/pii-level2".
Definition level3_kms_alias : string := "alias/pii-level3".
Definition app_keys_secret : string := "pii-encryption-keys".
Definition db_credentials_secret : string := "pii-database-credentials".

(** [EncryptionHandler()]: the [lru_cache] entries are keyed by [self], so
    a new handler starts with none. *)
Definition EncryptionHandler : M unit :=
  fun s => (Ok tt, set_db_credentials_cache None (set_app_keys_cache None s)).

Definition get_app_keys : M pyval :=
  fun s =>
    match app_keys_cache s with
    | Some keys => (Ok keys, s)
    | None =>
        (emit (GetSecretValue app_keys_secret) ;;;
         secret_data <- lift (get_secret_value svc app_keys_secret) ;;
         keys <- lift (py_getitem secret_data "app_encryption_keys") ;;
         (fun s1 => (Ok keys, set_app_keys_cache (Some keys) s1))) s
    end.

Definition get_db_credentials : M pyval :=
  fun s =>
    match db_credentials_cache s with
    | Some credentials => (Ok credentials, s)
    | None =>
        (emit (GetSecretValue db_credentials_secret) ;;;
         credentials <- lift (get_secret_value svc db_credentials_secret) ;;
         (fun s1 => (Ok credentials,
                     set_db_credentials_cache (Some credentials) s1))) s
    end.

Definition get_db_connection : M connection :=
  creds <- get_db_credentials ;;
  _ <- lift (py_getitem creds "host") ;;
  _ <- lift (py_getitem creds "port") ;;
  _ <- lift (py_getitem creds "database") ;;
  _ <- lift (py_getitem creds "username") ;;
  _ <- lift (py_getitem creds "password") ;;
  psycopg2_connect.

(** [v.encode('utf-8')] *)
Definition str_encode (v : pyval) : M bytes :=
  match v with
  | VStr s => lift (utf8_encode svc s)
  | _ => raise (AttributeError "object has no attribute 'encode'")
  end.

(** [Fernet(key)]: the cipher object is its validated key *)
Definition Fernet (key : bytes) : M bytes :=
  if fernet_key_ok svc key then ret key
  else raise (ValueError "Fernet key must be 32 url-safe base64-encoded bytes.").

Definition cipher_encrypt (cipher data : bytes) : M bytes :=
  emit (FernetEncrypt cipher data) ;;;
  ret (fernet_encrypt svc cipher data).

Definition cipher_decrypt (cipher token : bytes) : M bytes :=
  emit (FernetDecrypt cipher token) ;;;
  lift (fernet_decrypt svc cipher token).

Definition kms_encrypt_call (key_id : string) (plaintext : bytes) : M bytes :=
  emit (KmsEncrypt key_id plaintext) ;;;
  lift (kms_encrypt svc key_id plaintext).

Definition kms_decrypt_call (blob : bytes) : M bytes :=
  emit (KmsDecrypt blob) ;;;
  lift (kms_decrypt svc blob).

(** [base64.b64decode(v)] *)
Definition b64decode_value (v : pyval) : M bytes :=
  match v with
  | VStr s => lift (b64decode svc s)
  | _ => raise (TypeError "argument should be a bytes-like object or ASCII string")
  end.

Definition app_key_name (version : pyval) : string :=
  "level3_app_key_v" ++ py_str svc version.

Definition get_current_app_cipher : M bytes :=
  keys <- get_app_keys ;;
  current_version <- lift (py_getitem keys "current_version") ;;
  key <- lift (py_getitem keys (app_key_name current_version)) ;;
  key_bytes <- str_encode key ;;
  Fernet key_bytes.

Definition get_app_cipher_for_version (version : pyval) : M bytes :=
  keys <- get_app_keys ;;
  key <- lift (py_getitem keys (app_key_name version)) ;;
  key_bytes <- str_encode key ;;
  Fernet key_bytes.

Definition encrypt_field (field_name : string) (value : pyval) : M pyval :=
  if is_none_or_empty value then
    ret (VDict [("value", VNone); ("encrypted", VBool false);
                ("level", VInt 1); ("field_name", VStr field_name)])
  else
    let requirements := get_encryption_requirements field_name in
    let level := level requirements in
    if (level =? 1)%Z then
      (* Level 1: pass-through *)
      ret (VDict [("value", value); ("encrypted", VBool false);
                  ("level", VInt 1); ("field_name", VStr field_name);
                  ("method", VStr "rds_only")])
    else if (level =? 2)%Z then
      (* Level 2: KMS encryption only *)
      plaintext <- str_encode value ;;
      blob <- kms_encrypt_call level2_kms_alias plaintext ;;
      let encrypted_value := b64encode svc blob in
      ret (VDict [("value", VStr encrypted_value); ("encrypted", VBool true);
                  ("level", VInt 2); ("field_name", VStr field_name);
                  ("method", VStr "kms_only");
                  ("kms_key", VStr level2_kms_alias)])
    else if (level =? 3)%Z then
      (* Level 3: application-layer encryption, then KMS *)
      cipher <- get_current_app_cipher ;;
      plaintext <- str_encode value ;;
      app_encrypted <- cipher_encrypt cipher plaintext ;;
      blob <- kms_encrypt_call level3_kms_alias app_encrypted ;;
      let final_encrypted_value := b64encode svc blob in
      keys <- get_app_keys ;;
      current_version <- lift (py_getitem keys "current_version") ;;
      ret (VDict [("value", VStr final_encrypted_value);
                  ("encrypted", VBool true);
                  ("level", VInt 3); ("field_name", VStr field_name);
                  ("method", VStr "double_encryption");
                  ("app_key_version", current_version);
                  ("kms_key", VStr level3_kms_alias)])
    else ret VNone.

(** [metadata and 'level' in metadata] *)
Definition metadata_level (metadata : option dict) : option pyval :=
  match metadata with
  | Some ((_ :: _) as md) => dict_get md "level"
  | _ => None
  end.

(** [metadata.get('app_key_version', 1) if metadata else 1] *)
Definition metadata_key_version (metadata : option dict) : pyval :=
  match metadata with
  | Some ((_ :: _) as md) => dict_get_or md "app_key_version" (VInt 1)
  | _ => VInt 1
  end.

Definition decrypt_field (field_name : string) (encrypted_value : pyval)
    (metadata : option dict) : M pyval :=
  if is_none_or_empty encrypted_value then ret encrypted_value
  else
    let requirements := get_encryption_requirements field_name in
    let level :=
      match metadata_level metadata with
      | Some l => l                       (* override from metadata *)
      | None => VInt (level requirements)
      end in
    if py_eq_int level 1 then
      ret encrypted_value
    else if py_eq_int level 2 then
      ciphertext <- b64decode_value encrypted_value ;;
      plaintext <- kms_decrypt_call ciphertext ;;
      text <- lift (utf8_decode svc plaintext) ;;
      ret (VStr text)
    else if py_eq_int level 3 then
      (* KMS decryption, then application-layer decryption *)
      ciphertext <- b64decode_value encrypted_value ;;
      plaintext <- kms_decrypt_call ciphertext ;;
      let app_key_version := metadata_key_version metadata in
      cipher <- get_app_cipher_for_version app_key_version ;;
      decrypted <- cipher_decrypt cipher plaintext ;;
      text <- lift (utf8_decode svc decrypted) ;;
      ret (VStr text)
    else ret VNone.

(** [log_audit]: [conn] is bound only when the connection was opened, and
    only then does the [finally] clause close it. *)
Definition log_audit (user_id : pyval) (field_name operation : string)
    (success : bool) (error ip_address : pyval) : M unit :=
  fun s =>
    match get_db_connection s with
    | (Err _, s1) => (Ok tt, s1)          (* logged, not raised *)
    | (Ok conn, s1) =>
        try_finally
          (try_except
             (conn1 <- execute_insert_audit svc conn user_id field_name
                         (classify_pii_level field_name) operation
                         "lambda-encryption-service" ip_address success error ;;
              commit conn1)
             (fun _ => ret tt))        (* logged, not raised *)
          (close conn) s1
    end.

(** ** [DatabaseManager] *)

(** The argument of [store_encrypted_user]:
    [{'fields': {...}, 'metadata': {field: {...}}}] *)
Record encrypted_data : Type := mkEncrypted {
  ed_fields : dict;
  ed_metadata : list (string * dict)
}.

Definition get_connection : M connection := get_db_connection.

Definition field_mapping : list (string * string) :=
  [ (* Level 1 fields (stored as-is) *)
    ("email", "email"); ("first_name", "first_name");
    ("last_name", "last_name"); ("phone", "phone");
    (* Level 2 fields (stored with _encrypted suffix) *)
    ("address_encrypted", "address_encrypted");
    ("dob_encrypted", "dob_encrypted");
    ("date_of_birth_encrypted", "dob_encrypted");
    (* Level 3 fields (stored with _encrypted suffix) *)
    ("ssn_encrypted", "ssn_encrypted");
    ("bank_account_encrypted", "bank_account_encrypted");
    ("credit_card_encrypted", "credit_card_encrypted") ].

(** The loop filling [insert_fields] and [insert_values], as pairs *)
Fixpoint insert_columns (user_fields : dict) : list (string * pyval) :=
  match user_fields with
  | [] => []
  | (field_name, value) :: rest =>
      match dict_get field_mapping field_name with
      | Some db_column =>
          if is_none value then insert_columns rest
          else (db_column, value) :: insert_columns rest
      | None => insert_columns rest
      end
  end.

(** The row [_insert_metadata] writes; [encryption_algorithm] is not among
    the inserted columns. *)
Definition metadata_row (user_id field_name : string) (metadata : dict)
    : meta_row :=
  mkMeta user_id field_name
         (dict_get_or metadata "level" VNone)
         (dict_get_or metadata "app_key_version" VNone)
         (dict_get_or metadata "kms_key" VNone)
         VNone.

(** The rows the loop over [metadata.items()] writes for a new user *)
Definition metadata_rows_of (user_id : string) (metadata : list (string * dict))
    : list meta_row :=
  map (fun entry => metadata_row user_id (fst entry) (snd entry)) metadata.

Definition _insert_metadata (cursor : connection) (user_id field_name : string)
    (metadata : dict) : M connection :=
  execute_insert_metadata cursor (metadata_row user_id field_name metadata).

(** The statements of [store_encrypted_user] between opening the
    connection and returning *)
Definition store_encrypted_user_body (conn : connection)
    (encrypted_data : encrypted_data) : M string :=
  let user_fields := ed_fields encrypted_data in
  let metadata := ed_metadata encrypted_data in
  let inserts := insert_columns user_fields in
  match inserts with
  | [] => raise (ValueError "No valid fields to insert")
  | _ :: _ =>
      inserted <- execute_insert_user svc conn (map fst inserts) (map snd inserts) ;;
      let (conn1, returned) := inserted in
      let user_id := u_id returned in
      conn2 <- for_fold metadata conn1
                 (fun cursor entry =>
                    _insert_metadata cursor user_id (fst entry) (snd entry)) ;;
      commit conn2 ;;;
      ret user_id
  end.

Definition store_encrypted_user (encrypted_data : encrypted_data) : M string :=
  fun s =>
    match get_connection s with
    | (Err e, s1) => (Err e, s1)      (* conn is None: nothing to undo or close *)
    | (Ok conn, s1) =>
        try_finally
          (try_except (store_encrypted_user_body conn encrypted_data)
                      (fun e => rollback conn ;;; raise e))
          (close conn) s1
    end.

Definition system_fields : list string := ["id"; "created_at"; "updated_at"].

Definition metadata_entry (row : meta_row) : dict :=
  [("level", m_pii_level row);
   ("app_key_version", m_app_key_version row);
   ("kms_key_alias", m_kms_key_alias row)].

Definition retrieve_encrypted_user (user_id : pyval)
    : M (dict * list (string * dict)) :=
  fun s =>
    match get_connection s with
    | (Err e, s1) => (Err e, s1)
    | (Ok conn, s1) =>
        try_finally
          (user_data <- execute_select_user svc conn None user_id ;;
           match user_data with
           | Some ((_ :: _) as row) =>
               let user_dict := fold_left (@dict_pop pyval) system_fields row in
               metadata_rows <- execute_select_metadata svc conn user_id ;;
               let metadata :=
                 fold_left (fun md row =>
                              dict_set md (m_field_name row) (metadata_entry row))
                           metadata_rows [] in
               ret (user_dict, metadata)
           | _ =>
               raise (ValueError ("User with ID " ++ py_str svc user_id
                                  ++ " not found"))
           end)
          (close conn) s1
    end.

Definition delete_user (user_id : pyval) : M bool :=
  fun s =>
    match get_connection s with
    | (Err e, s1) => (Err e, s1)
    | (Ok conn, s1) =>
        try_finally
          (try_except
             (deleted <- execute_delete_user svc conn user_id ;;
              let (conn1, rowcount) := deleted in
              match rowcount with
              | O => raise (ValueError ("User " ++ py_str svc user_id
                                        ++ " not found"))
              | S _ => commit conn1 ;;; ret true
              end)
             (fun e => rollback conn ;;; raise e))
          (close conn) s1
    end.

Definition list_users (limit offset : pyval) : M dict :=
  fun s =>
    match get_connection s with
    | (Err e, s1) => (Err e, s1)
    | (Ok conn, s1) =>
        try_finally
          (users <- execute_select_users_page conn
                      ["id"; "email"; "first_name"; "last_name";
                       "created_at"; "updated_at"] limit offset ;;
           total <- execute_count_users conn ;;
           ret [("users", VList (map VDict users)); ("total", total);
                ("limit", limit); ("offset", offset)])
          (close conn) s1
    end.

Definition get_audit_trail (user_id limit : pyval) : M dict :=
  fun s =>
    match get_connection s with
    | (Err e, s1) => (Err e, s1)
    | (Ok conn, s1) =>
        try_finally
          (audit_records <- execute_select_audit svc conn
                              (if py_truthy user_id then Some user_id else None)
                              limit ;;
           ret [("audit_records", VList (map VDict audit_records));
                ("total", VInt (Z.of_nat (List.length audit_records)));
                ("user_id", user_id); ("limit", limit)])
          (close conn) s1
    end.

Definition required_user_columns : list string :=
  ["id"; "email"; "first_name"; "last_name"; "address_encrypted";
   "dob_encrypted"; "ssn_encrypted"; "bank_account_encrypted";
   "created_at"; "updated_at"].

Definition required_metadata_columns : list string :=
  ["id"; "user_id"; "field_name"; "pii_level"; "app_key_version";
   "kms_key_alias"; "encrypted_at"].

Definition required_audit_columns : list string :=
  ["id"; "user_id"; "field_name"; "pii_level"; "operation"; "accessed_by";
   "success"; "accessed_at"].

Definition all_in (required present : list string) : pyval :=
  VBool (forallb (fun col => has_string col present) required).

Definition with_error (validation_results : dict) (e : exn) : M dict :=
  ret (dict_set validation_results "error" (VStr (exn_msg e))).

(** [validate_database_schema] returns what it has collected so far, plus
    an ['error'] entry, when a query fails. *)
Definition validate_database_schema : M dict :=
  fun s =>
    match get_connection s with
    | (Err e, s1) => with_error [] e s1
    | (Ok conn, s1) =>
        try_finally
          (try_except
             (user_columns <- execute_select_columns svc conn "users" ;;
              let r1 := [("users_table", all_in required_user_columns user_columns)] in
              try_except
                (metadata_columns <-
                   execute_select_columns svc conn "encryption_metadata" ;;
                 let r2 := dict_set r1 "metadata_table"
                             (all_in required_metadata_columns metadata_columns) in
                 try_except
                   (audit_columns <-
                      execute_select_columns svc conn "encryption_audit" ;;
                    let r3 := dict_set r2 "audit_table"
                                (all_in required_audit_columns audit_columns) in
                    ret (dict_set r3 "overall"
                           (VBool (forallb (fun kv : string * pyval =>
                                              py_truthy (snd kv)) r3))))
                   (with_error r2))
                (with_error r1))
             (with_error []))
          (close conn) s1
    end.

(** ** The operations of [lambda_function.py] *)

(** [v.items()] *)
Definition py_items (v : pyval) : M dict :=
  match v with
  | VDict d => ret d
  | _ => raise (AttributeError "object has no attribute 'items'")
  end.

(** [v.get(k)] *)
Definition py_get (v : pyval) (k : string) : M pyval :=
  match v with
  | VDict d => ret (dict_get_or d k VNone)
  | _ => raise (AttributeError "object has no attribute 'get'")
  end.

(** [v.get(k, default)] *)
Definition py_get_or (v : pyval) (k : string) (default : pyval) : M pyval :=
  match v with
  | VDict d => ret (dict_get_or d k default)
  | _ => raise (AttributeError "object has no attribute 'get'")
  end.

Definition json_response (code : Z) (default_str : bool) (payload : dict)
    : M response :=
  text <- lift (json_dumps default_str (VDict payload)) ;;
  ret (mkResponse code text).

Definition empty_result : encrypted_data := mkEncrypted [] [].

(** One iteration of the loop that encrypts [data.items()] *)
Definition encrypt_entry (encrypted_result : encrypted_data)
    (entry : string * pyval) : M encrypted_data :=
  let (field_name, value) := entry in
  if is_none value then ret encrypted_result
  else
    result <- encrypt_field field_name (VStr (py_str svc value)) ;;
    result_level <- lift (py_getitem result "level") ;;
    if py_eq_int result_level 1 then
      result_value <- lift (py_getitem result "value") ;;
      ret (mkEncrypted (dict_set (ed_fields encrypted_result) field_name result_value)
                       (ed_metadata encrypted_result))
    else
      result_value <- lift (py_getitem result "value") ;;
      result_method <- lift (py_getitem result "method") ;;
      app_key_version <- py_get result "app_key_version" ;;
      kms_key <- py_get result "kms_key" ;;
      ret (mkEncrypted
             (dict_set (ed_fields encrypted_result)
                       (field_name ++ "_encrypted") result_value)
             (dict_set (ed_metadata encrypted_result) field_name
                       [("level", result_level); ("method", result_method);
                        ("app_key_version", app_key_version);
                        ("kms_key", kms_key)])).

(** The metadata entry [encrypt_entry] keeps for a level 2 or 3 result *)
Definition field_metadata (result : dict) : dict :=
  [("level", dict_get_or result "level" VNone);
   ("method", dict_get_or result "method" VNone);
   ("app_key_version", dict_get_or result "app_key_version" VNone);
   ("kms_key", dict_get_or result "kms_key" VNone)].

(** The level [encrypt_entry] records for an input field: level 1 for an
    empty value, the classified level otherwise *)
Definition recorded_level (field_name : string) (value : pyval) : Z :=
  if String.eqb (py_str svc value) "" then 1%Z else classify_pii_level field_name.

(** [field_name] is an input field with a value whose recorded level is at
    least 2. *)
Definition wants_metadata (items : dict) (field_name : string) : Prop :=
  exists value,
    In (field_name, value) items
    /\ is_none value = false
    /\ (2 <= recorded_level field_name value)%Z.

(** A metadata entry whose recorded level is 2 or 3 *)
Definition records_level_2_or_3 (entry : string * dict) : Prop :=
  dict_get (snd entry) "level" = Some (VInt 2)
  \/ dict_get (snd entry) "level" = Some (VInt 3).

Definition encrypted_data_value (r : encrypted_data) : pyval :=
  VDict [("fields", VDict (ed_fields r));
         ("metadata", VDict (map (fun kv : string * dict =>
                                    (fst kv, VDict (snd kv))) (ed_metadata r)))].

Definition handle_encrypt_operation (event : dict) : M response :=
  let data := dict_get_or event "data" (VDict []) in
  if negb (py_truthy data) then
    raise (ValueError "Missing 'data' in encrypt operation")
  else
    items <- py_items data ;;
    encrypted_result <- for_fold items empty_result encrypt_entry ;;
    json_response 200 false
      [("encrypted_data", encrypted_data_value encrypted_result);
       ("success", VBool true);
       ("processed_fields", VInt (Z.of_nat (List.length items)))].

(** A metadata entry of the event as [Optional[Dict]]; an entry that is
    not a dict counts as absent. *)
Definition as_metadata (v : pyval) : option dict :=
  match v with
  | VDict d => Some d
  | _ => None
  end.

(** One iteration of the loop of [handle_decrypt_operation] *)
Definition decrypt_entry (metadata : pyval) (decrypted_result : dict)
    (entry : string * pyval) : M dict :=
  let (field_name, value) := entry in
  if is_none value then ret decrypted_result
  else if endswith field_name "_encrypted" then
    let original_field := replace field_name "_encrypted" "" in
    field_metadata <- py_get_or metadata original_field (VDict []) ;;
    decrypted_value <- decrypt_field original_field value
                         (as_metadata field_metadata) ;;
    ret (dict_set decrypted_result original_field decrypted_value)
  else ret (dict_set decrypted_result field_name value).

Definition handle_decrypt_operation (event : dict) : M response :=
  let encrypted_data := dict_get_or event "encrypted_data" (VDict []) in
  let metadata := dict_get_or event "metadata" (VDict []) in
  if negb (py_truthy encrypted_data) then
    raise (ValueError "Missing 'encrypted_data' in decrypt operation")
  else
    items <- py_items encrypted_data ;;
    decrypted_result <- for_fold items [] (decrypt_entry metadata) ;;
    json_response 200 false
      [("decrypted_data", VDict decrypted_result);
       ("success", VBool true);
       ("processed_fields", VInt (Z.of_nat (List.length items)))].

(** [try: probe; status[k] = 'healthy'  except e: status[k] = f'error: {e}'] *)
Definition probe {A} (status : dict) (k : string) (m : M A) : M dict :=
  try_except (m ;;; ret (dict_set status k (VStr "healthy")))
             (fun e => ret (dict_set status k (VStr ("error: " ++ exn_msg e)))).

(** The [timestamp] of the body, [datetime.utcnow().isoformat()], is taken
    from the same clock as the column defaults. *)
Definition handle_health_check : M response :=
  let health_status : dict :=
    [("lambda", VStr "healthy"); ("kms", VStr "unknown");
     ("secrets_manager", VStr "unknown"); ("database", VStr "unknown");
     ("database_schema", VStr "unknown")] in
  h1 <- probe health_status "kms"
          (emit (KmsDescribeKey "alias/pii-level2") ;;;
           lift (kms_describe_key svc "alias/pii-level2")) ;;
  h2 <- probe h1 "secrets_manager" get_app_keys ;;
  h3 <- probe h2 "database" (conn <- get_db_connection ;; close conn) ;;
  h4 <- try_except
          (schema_validation <- validate_database_schema ;;
           if py_truthy (dict_get_or schema_validation "overall" (VBool false))
           then ret (dict_set h3 "database_schema" (VStr "healthy"))
           else ret (dict_set h3 "database_schema"
                       (VStr ("validation failed: "
                              ++ py_str svc (VDict schema_validation)))))
          (fun e => ret (dict_set h3 "database_schema"
                           (VStr ("error: " ++ exn_msg e)))) ;;
  (fun s =>
     json_response 200 false
       [("health", VDict h4);
        ("timestamp", VStr (gen_timestamp svc (ticks s)));
        ("success", VBool true)] s).

(** The part of [handle_create_user_operation] after the row is stored:
    one audit entry per input field, then the response *)
Definition create_user_finish (user_id : string) (items : dict) : M response :=
  for_each (dict_keys items)
    (fun field_name =>
       try_except
         (log_audit (VStr user_id) field_name "encrypt" true VNone VNone)
         (fun _ => ret tt)) ;;;
  json_response 200 false
    [("user_id", VStr user_id);
     ("success", VBool true);
     ("processed_fields", VInt (Z.of_nat (List.length items)));
     ("message", VStr "User created and encrypted successfully")].

Definition handle_create_user_operation (event : dict) : M response :=
  let data := dict_get_or event "data" (VDict []) in
  if negb (py_truthy data) then
    raise (ValueError "Missing 'data' in create_user operation")
  else
    items <- py_items data ;;
    (* Encrypt all fields *)
    encrypted_result <- for_fold items empty_result encrypt_entry ;;
    (* Store in database *)
    user_id <- store_encrypted_user encrypted_result ;;
    (* Log audit trail for each field *)
    create_user_finish user_id items.

(** One iteration of the loop of [handle_get_user_operation] *)
Definition get_user_entry (user_id : pyval) (metadata : list (string * dict))
    (decrypted_result : dict) (entry : string * pyval) : M dict :=
  let (field_name, value) := entry in
  if is_none value then ret decrypted_result
  else if endswith field_name "_encrypted" then
    let original_field := replace field_name "_encrypted" "" in
    let field_metadata := dict_get_or metadata original_field [] in
    decrypted_value <- decrypt_field original_field value (Some field_metadata) ;;
    let decrypted_result := dict_set decrypted_result original_field decrypted_value in
    try_except (log_audit user_id original_field "decrypt" true VNone VNone)
               (fun _ => ret tt) ;;;
    ret decrypted_result
  else ret (dict_set decrypted_result field_name value).

Definition handle_get_user_operation (event : dict) : M response :=
  let user_id := dict_get_or event "user_id" VNone in
  if negb (py_truthy user_id) then
    raise (ValueError "Missing 'user_id' in get_user operation")
  else
    retrieved <- retrieve_encrypted_user user_id ;;
    let (encrypted_data, metadata) := retrieved in
    decrypted_result <- for_fold encrypted_data [] (get_user_entry user_id metadata) ;;
    json_response 200 false
      [("user_id", user_id);
       ("data", VDict decrypted_result);
       ("success", VBool true);
       ("processed_fields", VInt (Z.of_nat (List.length encrypted_data)))].

Definition py_int (v : pyval) : M Z :=
  match v with
  | VInt z => ret z
  | VBool b => ret (if b then 1%Z else 0%Z)
  | _ => raise (TypeError "unsupported operand type(s)")
  end.

Definition handle_list_users_operation (event : dict) : M response :=
  let limit := dict_get_or event "limit" (VInt 100) in
  let offset := dict_get_or event "offset" (VInt 0) in
  result <- list_users limit offset ;;
  let users := match dict_get_or result "users" VNone with
               | VList l => l | _ => [] end in
  off <- py_int (dict_get_or result "offset" VNone) ;;
  total <- py_int (dict_get_or result "total" VNone) ;;
  json_response 200 false
    [("users", VList users);
     ("pagination",
      VDict [("total", dict_get_or result "total" VNone);
             ("limit", dict_get_or result "limit" VNone);
             ("offset", dict_get_or result "offset" VNone);
             ("has_more",
              VBool (off + Z.of_nat (List.length users) <? total)%Z)]);
     ("success", VBool true)].

Definition handle_delete_user_operation (event : dict) : M response :=
  let user_id := dict_get_or event "user_id" VNone in
  if negb (py_truthy user_id) then
    raise (ValueError "Missing 'user_id' in delete_user operation")
  else
    success <- delete_user user_id ;;
    json_response 200 false
      [("user_id", user_id);
       ("deleted", VBool success);
       ("success", VBool true);
       ("message",
        VStr "User deleted successfully (crypto-shredding completed)")].

Definition handle_audit_trail_operation (event : dict) : M response :=
  let user_id := dict_get_or event "user_id" VNone in
  let limit := dict_get_or event "limit" (VInt 100) in
  result <- get_audit_trail user_id limit ;;
  json_response 200 false
    [("audit_records", dict_get_or result "audit_records" VNone);
     ("total", dict_get_or result "total" VNone);
     ("user_id", dict_get_or result "user_id" VNone);
     ("limit", dict_get_or result "limit" VNone);
     ("success", VBool true)].

Definition known_operations : list string :=
  ["create_user"; "get_user"; "encrypt"; "decrypt"; "health";
   "list_users"; "delete_user"; "audit_trail"].

(** The body of the [try] block of [lambda_handler] *)
Definition dispatch (event : dict) : M response :=
  EncryptionHandler ;;;
  let operation := dict_get_or event "operation" VNone in
  if negb (py_truthy operation) then
    raise (ValueError "Missing 'operation' in event")
  else if py_eq_str operation "create_user" then
    handle_create_user_operation event
  else if py_eq_str operation "get_user" then
    handle_get_user_operation event
  else if py_eq_str operation "encrypt" then
    handle_encrypt_operation event
  else if py_eq_str operation "decrypt" then
    handle_decrypt_operation event
  else if py_eq_str operation "health" then
    handle_health_check
  else if py_eq_str operation "list_users" then
    handle_list_users_operation event
  else if py_eq_str operation "delete_user" then
    handle_delete_user_operation event
  else if py_eq_str operation "audit_trail" then
    handle_audit_trail_operation event
  else
    raise (ValueError ("Unknown operation: " ++ py_str svc operation)).

(** The [except Exception as e] clause of [lambda_handler] *)
Definition error_response (e : exn) : response :=
  mkResponse 500
    (VDict [("error", VStr (exn_msg e));
            ("type", VStr (exn_type e));
            ("success", VBool false)]).

Definition lambda_handler (event : dict) (s : state) : response * state :=
  match dispatch event s with
  | (Ok r, s1) => (r, s1)
  | (Err e, s1) => (error_response e, s1)
  end.
End WithServices.
End Pkg.

(** * The single-file handler [lambda_function_generated.py] *)

Module Generated.
Section WithServices.
Variable svc : services.

(** ** [PIIClassifier] *)

Definition PII_LEVEL_MAPPING : list (Z * list string) :=
  [ (1%Z, ["email"; "first_name"; "last_name"; "phone"; "phone_number";
           "name"; "username"; "display_name"]);
    (2%Z, ["address"; "street_address"; "city"; "state"; "zip_code";
           "postal_code"; "date_of_birth"; "dob"; "birth_date"; "ip_address";
           "location"; "country"; "region"; "timezone"]);
    (3%Z, ["ssn"; "social_security_number"; "social_security"; "tax_id";
           "bank_account"; "account_number"; "routing_number";
           "credit_card"; "card_number"; "cvv"; "credit_card_number";
           "passport_number"; "drivers_license"; "national_id"]) ].

Definition classify_pii_level (field_name : string) : Z :=
  let field_lower := strip (lower field_name) in
  match Pkg.lookup_level PII_LEVEL_MAPPING field_lower with
  | Some level => level
  | None => 1%Z
  end.

(** ** [EncryptionHandler] *)

Definition FIELD_MAPPING : list (string * string) :=
  [ ("email", "email"); ("first_name", "first_name");
    ("last_name", "last_name"); ("phone", "phone");
    ("address", "address_encrypted");
    ("date_of_birth", "date_of_birth_encrypted");
    ("ip_address", "ip_address_encrypted");
    ("ssn", "ssn_encrypted");
    ("bank_account", "bank_account_encrypted");
    ("credit_card", "credit_card_encrypted") ].

Definition level2_kms_alias : string := "alias/pii-level2".
Definition level3_kms_alias : string := "alias/pii-level3".
Definition db_credentials_secret : string := "pii-database-credentials".

Definition EncryptionHandler : M unit :=
  fun s => (Ok tt, set_db_credentials_cache None (set_app_keys_cache None s)).

Definition get_db_credentials : M pyval :=
  fun s =>
    match db_credentials_cache s with
    | Some credentials => (Ok credentials, s)
    | None =>
        (emit (GetSecretValue db_credentials_secret) ;;;
         credentials <- lift (get_secret_value svc db_credentials_secret) ;;
         (fun s1 => (Ok credentials,
                     set_db_credentials_cache (Some credentials) s1))) s
    end.

Definition get_db_connection : M connection :=
  creds <- get_db_credentials ;;
  _ <- lift (py_getitem creds "host") ;;
  _ <- lift (py_getitem creds "port") ;;
  _ <- lift (py_getitem creds "database") ;;
  _ <- lift (py_getitem creds "username") ;;
  _ <- lift (py_getitem creds "password") ;;
  psycopg2_connect.

Definition encrypt_field (field_name : string) (value : pyval) : M pyval :=
  let db_field := VStr (dict_get_or FIELD_MAPPING field_name field_name) in
  if is_none_or_empty value then
    ret (VDict [("db_field", db_field); ("value", VNone);
                ("encrypted", VBool false); ("level", VInt 1);
                ("field_name", VStr field_name)])
  else
    let level := classify_pii_level field_name in
    if (level =? 1)%Z then
      ret (VDict [("db_field", db_field); ("value", value);
                  ("encrypted", VBool false); ("level", VInt 1);
                  ("field_name", VStr field_name);
                  ("method", VStr "rds_only")])
    else if (level =? 2)%Z then
      plaintext <- Pkg.str_encode svc value ;;
      blob <- Pkg.kms_encrypt_call svc level2_kms_alias plaintext ;;
      let encrypted_value := b64encode svc blob in
      ret (VDict [("db_field", db_field); ("value", VStr encrypted_value);
                  ("encrypted", VBool true); ("level", VInt 2);
                  ("field_name", VStr field_name);
                  ("method", VStr "kms_level2");
                  ("kms_key", VStr level2_kms_alias)])
    else if (level =? 3)%Z then
      plaintext <- Pkg.str_encode svc value ;;
      blob <- Pkg.kms_encrypt_call svc level3_kms_alias plaintext ;;
      let encrypted_value := b64encode svc blob in
      ret (VDict [("db_field", db_field); ("value", VStr encrypted_value);
                  ("encrypted", VBool true); ("level", VInt 3);
                  ("field_name", VStr field_name);
                  ("method", VStr "kms_level3");
                  ("kms_key", VStr level3_kms_alias)])
    else ret VNone.

(** [level] is [None] when the caller passes no level. *)
Definition decrypt_field (field_name : string) (encrypted_value : pyval)
    (level : pyval) : M pyval :=
  if is_none_or_empty encrypted_value then ret encrypted_value
  else
    let level :=
      if is_none level then VInt (classify_pii_level field_name) else level in
    if py_eq_int level 1 then ret encrypted_value
    else if py_eq_int level 2 || py_eq_int level 3 then
      ciphertext <- Pkg.b64decode_value svc encrypted_value ;;
      plaintext <- Pkg.kms_decrypt_call svc ciphertext ;;
      text <- lift (utf8_decode svc plaintext) ;;
      ret (VStr text)
    else ret VNone.

(** ** [DatabaseOperations] *)

Definition schema_users_columns : list string :=
  ["id"; "email"; "first_name"; "last_name"; "phone"; "address_encrypted";
   "date_of_birth_encrypted"; "ip_address_encrypted"; "ssn_encrypted";
   "bank_account_encrypted"; "credit_card_encrypted"; "created_at";
   "updated_at"].

Definition schema_metadata_columns : list string :=
  ["id"; "user_id"; "field_name"; "pii_level"; "app_key_version";
   "kms_key_alias"; "encryption_algorithm"; "encrypted_at"].

(** One entry of [metadata_records] *)
Record metadata_record : Type := mkRecord {
  field_name : string;
  pii_level : pyval;
  kms_key_alias : pyval;
  encryption_algorithm : pyval
}.

(** One iteration of the loop over [user_data.items()]; the locals are
    [insert_data] and [metadata_records]. *)
Definition create_user_entry (acc : dict * list metadata_record)
    (entry : string * pyval) : M (dict * list metadata_record) :=
  let (insert_data, metadata_records) := acc in
  let (input_field, value) := entry in
  if dict_mem FIELD_MAPPING input_field then
    encryption_result <-
      encrypt_field input_field
        (if is_none value then VNone else VStr (py_str svc value)) ;;
    db_field <- lift (py_getitem encryption_result "db_field") ;;
    result_value <- lift (py_getitem encryption_result "value") ;;
    result_level <- lift (py_getitem encryption_result "level") ;;
    kms_key <- Pkg.py_get encryption_result "kms_key" ;;
    method <- Pkg.py_get_or encryption_result "method" (VStr "none") ;;
    ret (dict_set insert_data (py_str svc db_field) result_value,
         metadata_records
           ++ [mkRecord input_field result_level kms_key method])
  else ret acc.        (* unknown field: logged and skipped *)

Definition insert_metadata_record (user_id : string) (cursor : connection)
    (metadata : metadata_record) : M connection :=
  execute_insert_metadata cursor
    (mkMeta user_id (field_name metadata) (pii_level metadata) VNone
            (kms_key_alias metadata) (encryption_algorithm metadata)).

Definition create_user_body (conn : connection) (user_data : dict) : M dict :=
  acc <- for_fold user_data ([], []) create_user_entry ;;
  let (insert_data, metadata_records) := acc in
  let available_fields :=
    filter (fun field => has_string field schema_users_columns)
           (dict_keys insert_data) in
  match available_fields with
  | [] => raise (ValueError "No valid fields for user creation")
  | _ :: _ =>
      let filtered_data :=
        filter (fun kv : string * pyval => has_string (fst kv) available_fields)
               insert_data in
      inserted <- execute_insert_user svc conn available_fields
                    (map (fun field => dict_get_or filtered_data field VNone)
                         available_fields) ;;
      let (conn1, returned) := inserted in
      let user_id := u_id returned in
      conn2 <- for_fold metadata_records conn1 (insert_metadata_record user_id) ;;
      commit conn2 ;;;
      ret [("user_id", VStr user_id);
           ("created_at", VStr (u_created_at returned));
           ("fields_processed", VList (map VStr (dict_keys user_data)))]
  end.

Definition create_user (user_data : dict) : M dict :=
  fun s =>
    match get_db_connection s with
    | (Err e, s1) => (Err e, s1)
    | (Ok conn, s1) =>
        try_finally
          (try_except (create_user_body conn user_data)
                      (fun e => rollback conn ;;; raise e))
          (close conn) s1
    end.

Definition reverse_mapping : list (string * string) :=
  [ ("email", "email"); ("first_name", "first_name");
    ("last_name", "last_name"); ("phone", "phone");
    ("address_encrypted", "address");
    ("date_of_birth_encrypted", "date_of_birth");
    ("ip_address_encrypted", "ip_address");
    ("ssn_encrypted", "ssn");
    ("bank_account_encrypted", "bank_account");
    ("credit_card_encrypted", "credit_card") ].

Definition DECRYPTION_FAILED : pyval := VStr "[DECRYPTION_FAILED]".

(** The response key of a column: [reverse_mapping.get(db_field, db_field)] *)
Definition input_field_of (db_field : string) : string :=
  dict_get_or reverse_mapping db_field db_field.

Definition is_system_column (db_field : string) : bool :=
  has_string db_field ["id"; "created_at"; "updated_at"].

(** The response keys the loop of [get_user] writes for [user_data] *)
Definition written_fields (user_data : dict) : list string :=
  map (fun kv : string * pyval => input_field_of (fst kv))
      (filter (fun kv : string * pyval => negb (is_system_column (fst kv))) user_data).

(** [level > 1] *)
Definition py_gt_one (level : pyval) : M bool :=
  match level with
  | VInt z => ret (1 <? z)%Z
  | VBool _ => ret false
  | _ => raise (TypeError "'>' not supported between instances")
  end.

(** One iteration of the loop over [user_data.items()] in [get_user] *)
Definition get_user_entry (metadata_map : dict) (result : dict)
    (entry : string * pyval) : M dict :=
  let (db_field, value) := entry in
  if has_string db_field ["id"; "created_at"; "updated_at"] then ret result
  else
    let input_field := dict_get_or reverse_mapping db_field db_field in
    if negb (is_none value) && dict_mem metadata_map input_field then
      let level := dict_get_or metadata_map input_field VNone in
      above <- py_gt_one level ;;
      if above : bool then
        try_except
          (decrypted <- decrypt_field input_field value level ;;
           ret (dict_set result input_field decrypted))
          (fun _ => ret (dict_set result input_field DECRYPTION_FAILED))
      else ret (dict_set result input_field value)
    else ret (dict_set result input_field value).

(** How [out], the value the response gives for the column [db_field],
    relates to the stored [value]: the sentinel when decryption raises, the
    plaintext when it returns, the stored value when nothing is decrypted. *)
Definition shown_as (metadata_map : dict) (db_field : string)
    (value out : pyval) : Prop :=
  let input_field := input_field_of db_field in
  (forall z s e,
      value <> VNone ->
      dict_get metadata_map input_field = Some (VInt z) -> (1 < z)%Z ->
      fst (decrypt_field input_field value (VInt z) s) = Err e ->
      out = DECRYPTION_FAILED)
  /\ (forall z s plain,
         value <> VNone ->
         dict_get metadata_map input_field = Some (VInt z) -> (1 < z)%Z ->
         fst (decrypt_field input_field value (VInt z) s) = Ok plain ->
         out = plain)
  /\ (value = VNone
      \/ dict_get metadata_map input_field = None
      \/ (exists z, dict_get metadata_map input_field = Some (VInt z) /\ (z <= 1)%Z) ->
      out = value).

Definition get_user_body (conn : connection) (user_id : pyval)
    : M (option dict) :=
  let select_fields :=
    filter (fun col => negb (String.eqb col "updated_at")) schema_users_columns in
  user_data <- execute_select_user svc conn (Some select_fields) user_id ;;
  match user_data with
  | Some ((_ :: _) as user_data) =>
      metadata_rows <- execute_select_metadata svc conn user_id ;;
      let metadata_map :=
        fold_left (fun md row => dict_set md (m_field_name row) (m_pii_level row))
                  metadata_rows [] in
      let result : dict :=
        [("user_id", VStr (py_str svc (dict_get_or user_data "id" VNone)));
         ("created_at",
          match dict_get_or user_data "created_at" VNone with
          | VObj t => VStr t
          | _ => VNone
          end)] in
      final <- for_fold user_data result (get_user_entry metadata_map) ;;
      ret (Some final)
  | _ => ret None
  end.

Definition get_user (user_id : pyval) : M (option dict) :=
  fun s =>
    match get_db_connection s with
    | (Err e, s1) => (Err e, s1)
    | (Ok conn, s1) => try_finally (get_user_body conn user_id) (close conn) s1
    end.

Definition list_users (limit offset : pyval) : M dict :=
  fun s =>
    match get_db_connection s with
    | (Err e, s1) => (Err e, s1)
    | (Ok conn, s1) =>
        try_finally
          (users <- execute_select_users_page conn
                      ["id"; "email"; "first_name"; "last_name"; "created_at"]
                      limit offset ;;
           total <- execute_count_users conn ;;
           let users_list :=
             map (fun user : dict =>
                    VDict [("user_id", VStr (py_str svc (dict_get_or user "id" VNone)));
                           ("email", dict_get_or user "email" VNone);
                           ("first_name", dict_get_or user "first_name" VNone);
                           ("last_name", dict_get_or user "last_name" VNone);
                           ("created_at",
                            match dict_get_or user "created_at" VNone with
                            | VObj t => VStr t
                            | _ => VNone
                            end)])
                 users in
           ret [("users", VList users_list); ("total", total);
                ("limit", limit); ("offset", offset)])
          (close conn) s1
    end.

Definition get_audit_trail (user_id limit : pyval) : M dict :=
  fun s =>
    match get_db_connection s with
    | (Err e, s1) => (Err e, s1)
    | (Ok conn, s1) =>
        try_finally
          (audit_logs <- execute_select_audit svc conn
                           (if py_truthy user_id then Some user_id else None)
                           limit ;;
           let formatted_logs :=
             map (fun log : dict =>
                    let log_user := dict_get_or log "user_id" VNone in
                    VDict [("audit_id", VStr (py_str svc (dict_get_or log "id" VNone)));
                           ("user_id",
                            if py_truthy log_user then VStr (py_str svc log_user)
                            else VNone);
                           ("operation", dict_get_or log "operation" VNone);
                           ("accessed_by", dict_get_or log "accessed_by" VNone);
                           ("success", dict_get_or log "success" VNone);
                           ("error_message", dict_get_or log "error_message" VNone);
                           ("timestamp",
                            match dict_get_or log "accessed_at" VNone with
                            | VObj t => VStr t
                            | _ => VNone
                            end)])
                 audit_logs in
           ret [("audit_logs", VList formatted_logs);
                ("user_id", user_id); ("limit", limit)])
          (close conn) s1
    end.

(** ** [lambda_handler] *)

Definition handle_health : M response :=
  let health_status : dict :=
    [("lambda", VStr "healthy"); ("kms", VStr "unknown");
     ("secrets_manager", VStr "unknown"); ("database", VStr "unknown")] in
  h1 <- Pkg.probe health_status "kms"
          (emit (KmsDescribeKey "alias/pii-level2") ;;;
           lift (kms_describe_key svc "alias/pii-level2")) ;;
  h2 <- Pkg.probe h1 "secrets_manager" get_db_credentials ;;
  h3 <- Pkg.probe h2 "database" (conn <- get_db_connection ;; close conn) ;;
  (fun s =>
     Pkg.json_response 200 false
       [("health", VDict h3);
        ("timestamp", VStr (gen_timestamp svc (ticks s)));
        ("success", VBool true);
        ("schema_info",
         VDict [("users_columns", VList (map VStr schema_users_columns));
                ("metadata_columns", VList (map VStr schema_metadata_columns));
                ("field_mapping",
                 VDict (map (fun kv : string * string => (fst kv, VStr (snd kv)))
                            FIELD_MAPPING))])] s).

Definition supported_operations : list string :=
  ["health"; "create_user"; "get_user"; "list_users"; "audit_trail"].

(** The body of the [try] block of [lambda_handler] *)
Definition dispatch (event : dict) : M response :=
  EncryptionHandler ;;;
  let operation := dict_get_or event "operation" VNone in
  if negb (py_truthy operation) then
    raise (ValueError "Missing 'operation' in event")
  else if py_eq_str operation "health" then handle_health
  else if py_eq_str operation "create_user" then
    let user_data := dict_get_or event "data" (VDict []) in
    if negb (py_truthy user_data) then
      raise (ValueError "Missing 'data' for create_user operation")
    else
      items <- Pkg.py_items user_data ;;
      result <- create_user items ;;
      Pkg.json_response 200 false
        [("operation", VStr "create_user"); ("result", VDict result);
         ("success", VBool true)]
  else if py_eq_str operation "get_user" then
    let user_id := dict_get_or event "user_id" VNone in
    if negb (py_truthy user_id) then
      raise (ValueError "Missing 'user_id' for get_user operation")
    else
      result <- get_user (VStr (py_str svc user_id)) ;;
      match result with
      | None =>
          Pkg.json_response 404 false
            [("error", VStr "User not found"); ("user_id", user_id);
             ("success", VBool false)]
      | Some result =>
          Pkg.json_response 200 true
            [("operation", VStr "get_user"); ("result", VDict result);
             ("success", VBool true)]
      end
  else if py_eq_str operation "list_users" then
    let limit := dict_get_or event "limit" (VInt 10) in
    let offset := dict_get_or event "offset" (VInt 0) in
    result <- list_users limit offset ;;
    Pkg.json_response 200 true
      [("operation", VStr "list_users"); ("result", VDict result);
       ("success", VBool true)]
  else if py_eq_str operation "audit_trail" then
    let user_id := dict_get_or event "user_id" VNone in
    let limit := dict_get_or event "limit" (VInt 100) in
    result <- get_audit_trail user_id limit ;;
    Pkg.json_response 200 true
      [("operation", VStr "audit_trail"); ("result", VDict result);
       ("success", VBool true)]
  else
    ret (mkResponse 400
           (VDict [("error", VStr ("Unknown operation: " ++ py_str svc operation));
                   ("supported_operations", VList (map VStr supported_operations));
                   ("success", VBool false)])).

Definition lambda_handler (event : dict) (s : state) : response * state :=
  match dispatch event s with
  | (Ok r, s1) => (r, s1)
  | (Err e, s1) => (Pkg.error_response e, s1)
  end.
End WithServices.
End Generated.

(** * A concrete environment

    A small instance of [services], used to run the embedding on concrete
    inputs.  The codecs are byte-for-byte, the envelope service prefixes a
    marker byte, and the local cipher prefixes a marker byte and its key. *)

Module Demo.
Import Byte.

Definition marker_kms : byte := x4b.
Definition marker_fernet : byte := x46.

Definition InvalidCiphertext : exn :=
  mkExn "InvalidCiphertextException" "An error occurred when calling Decrypt".
Definition InvalidToken : exn := mkExn "InvalidToken" "".

Fixpoint strip_prefix (p l : bytes) : option bytes :=
  match p, l with
  | [], _ => Some l
  | x :: p', y :: l' => if Byte.eqb x y then strip_prefix p' l' else None
  | _ :: _, [] => None
  end.

Definition demo_kms_encrypt (key_id : string) (plaintext : bytes) : result bytes :=
  Ok (marker_kms :: plaintext).

Definition demo_kms_decrypt (blob : bytes) : result bytes :=
  match blob with
  | m :: rest => if Byte.eqb m marker_kms then Ok rest else Err InvalidCiphertext
  | [] => Err InvalidCiphertext
  end.

Definition demo_fernet_encrypt (key data : bytes) : bytes :=
  marker_fernet :: key ++ data.

Definition demo_fernet_decrypt (key token : bytes) : result bytes :=
  match token with
  | m :: rest =>
      if Byte.eqb m marker_fernet then
        match strip_prefix key rest with
        | Some data => Ok data
        | None => Err InvalidToken
        end
      else Err InvalidToken
  | [] => Err InvalidToken
  end.

Definition demo_secrets (secret_id : string) : result pyval :=
  if String.eqb secret_id "pii-encryption-keys" then
    Ok (VDict [("app_encryption_keys",
                VDict [("current_version", VInt 2);
                       ("level3_app_key_v1", VStr "key-one");
                       ("level3_app_key_v2", VStr "key-two")])])
  else if String.eqb secret_id "pii-database-credentials" then
    Ok (VDict [("host", VStr "db.internal"); ("port", VInt 5432);
               ("database", VStr "pii"); ("username", VStr "app");
               ("password", VStr "secret")])
  else Err (mkExn "ResourceNotFoundException" "Secrets Manager can't find the specified secret.").

Definition demo_users_columns : list string :=
  ["id"; "email"; "first_name"; "last_name"; "phone"; "address_encrypted";
   "dob_encrypted"; "date_of_birth_encrypted"; "ip_address_encrypted";
   "ssn_encrypted"; "bank_account_encrypted"; "credit_card_encrypted";
   "created_at"; "updated_at"].

Definition env : services :=
  {| kms_encrypt := demo_kms_encrypt;
     kms_decrypt := demo_kms_decrypt;
     kms_describe_key := fun _ => Ok tt;
     get_secret_value := demo_secrets;
     fernet_key_ok := fun key => negb (Nat.eqb (List.length key) 0);
     fernet_encrypt := demo_fernet_encrypt;
     fernet_decrypt := demo_fernet_decrypt;
     b64encode := string_of_list_byte;
     b64decode := fun s => Ok (list_byte_of_string s);
     utf8_encode := fun s => Ok (list_byte_of_string s);
     utf8_decode := fun b => Ok (string_of_list_byte b);
     py_repr := fun _ => "<object>";
     gen_uuid := fun n => ("user-" ++ decimal (Z.of_nat n))%string;
     gen_timestamp := fun n => ("t" ++ decimal (Z.of_nat n))%string;
     users_columns := demo_users_columns;
     metadata_columns :=
       ["id"; "user_id"; "field_name"; "pii_level"; "app_key_version";
        "kms_key_alias"; "encryption_algorithm"; "encrypted_at"];
     audit_columns :=
       ["id"; "user_id"; "field_name"; "pii_level"; "operation";
        "accessed_by"; "ip_address"; "success"; "error_message";
        "accessed_at"] |}.

Definition empty_tables : tables := mkTables [] [] [].

(** A cold start with an empty database and no scheduled fault *)
Definition start : state := mkState empty_tables 0 [] None None [].

Definition ssn : string := "123-45-6789".

Definition create_items : dict :=
  [("email", VStr "a@b.com"); ("ssn", VStr ssn); ("city", VStr "Paris")].

Definition create_event : dict :=
  [("operation", VStr "create_user"); ("data", VDict create_items)].

Definition after_create : state :=
  snd (Pkg.handle_create_user_operation env create_event start).

Definition create_response : response :=
  mkResponse 200
    (VDict [("user_id", VStr "user-0"); ("success", VBool true);
            ("processed_fields", VInt 3);
            ("message", VStr "User created and encrypted successfully")]).

(** A database in which the stored [ssn] ciphertext is not a ciphertext of
    the envelope service *)
Definition corrupt_tables : tables :=
  mkTables
    [mkUser "user-0"
            [("email", VStr "a@b.com"); ("ssn_encrypted", VStr "garbage")]
            "t0" "t0"]
    [mkMeta "user-0" "ssn" (VInt 3) (VInt 2) (VStr "alias/pii-level3") VNone]
    [].

Definition corrupt : state := mkState corrupt_tables 1 [] None None [].

(** The columns and the metadata map the generated [get_user] works on for
    that user *)
Definition corrupt_user_data : dict :=
  [("id", VObj "user-0"); ("email", VStr "a@b.com");
   ("ssn_encrypted", VStr "garbage"); ("created_at", VObj "t0")].

Definition corrupt_metadata_map : dict := [("ssn", VInt 3)].

Definition get_event : dict :=
  [("operation", VStr "get_user"); ("user_id", VStr "user-0")].

(** The state after the package engine encrypted [ssn] on a cold start *)
Definition after_ssn : state :=
  snd (Pkg.encrypt_field env "ssn" (VStr ssn) start).

(** What the package engine returns for it *)
Definition ssn_result : dict :=
  [("value", VStr "KFkey-two123-45-6789"); ("encrypted", VBool true);
   ("level", VInt 3); ("field_name", VStr "ssn");
   ("method", VStr "double_encryption"); ("app_key_version", VInt 2);
   ("kms_key", VStr "alias/pii-level3")].
End Demo.

(** * The backend's Lambda client ([lambda_client.py])

    [_invoke_lambda] calls the Lambda up to [retry_attempts] times.  What
    one pass through the body of its [try] ends with is the answer of the
    environment to that invocation. *)

Module Backend.

Inductive attempt_outcome : Type :=
| Returned (result : pyval)                 (* the parsed response payload *)
| ClientError (code message : string)       (* botocore's ClientError *)
| OtherError (message : string).            (* any other exception, as str(e) *)

Record client : Type := mkClient {
  invocations : nat;      (* calls of lambda_client.invoke made so far *)
  slept : list Z          (* the arguments of asyncio.sleep, in order *)
}.

Definition Exception (msg : string) : exn := mkExn "Exception" msg.

(** [range(n)] *)
Definition range (n : Z) : list Z := map Z.of_nat (seq 0 (Z.to_nat n)).

Section WithLambda.
Variable invoke : nat -> attempt_outcome.   (* the n-th invocation's outcome *)
Variable retry_attempts : Z.                (* settings.lambda_retry_attempts *)

Definition invoked (c : client) : client :=
  mkClient (S (invocations c)) (slept c).

Definition sleep (seconds : Z) (c : client) : client :=
  mkClient (invocations c) (slept c ++ [seconds]).

(** The [for attempt in ...] loop; falling off its end returns [None]. *)
Fixpoint invoke_loop (attempts : list Z) (c : client) : result pyval * client :=
  match attempts with
  | [] => (Ok VNone, c)
  | attempt :: rest =>
      match invoke (invocations c) with
      | Returned result => (Ok result, invoked c)
      | ClientError _ error_message =>
          if (attempt =? retry_attempts - 1)%Z then
            (Err (Exception ("Lambda invocation failed after "
                             ++ decimal retry_attempts ++ " attempts: "
                             ++ error_message)),
             invoked c)
          else invoke_loop rest (sleep (2 ^ attempt) (invoked c))
      | OtherError message =>
          if (attempt =? retry_attempts - 1)%Z then
            (Err (Exception ("Lambda invocation failed: " ++ message)), invoked c)
          else invoke_loop rest (sleep (2 ^ attempt) (invoked c))
      end
  end.

Definition _invoke_lambda (c : client) : result pyval * client :=
  invoke_loop (range retry_attempts) c.

Definition failed (o : attempt_outcome) : bool :=
  match o with Returned _ => false | _ => true end.
End WithLambda.

(** The waits before attempts [1 .. k]: 1, 2, 4, ... seconds *)
Definition backoff (k : nat) : list Z := map (fun j => (2 ^ Z.of_nat j)%Z) (seq 0 k).
End Backend.

(** * The secrets printed by [generate-keys.py] *)

Module Infrastructure.

(** [app_keys_json] of [main()] *)
Definition app_keys_json (fernet_key : string) : dict :=
  [("app_encryption_keys",
    VDict [("level3_app_key_v1", VStr fernet_key);
           ("current_version", VInt 1)])].

(** [db_credentials_json] of [main()] *)
Definition db_credentials_json (db_password : string) : dict :=
  [("username", VStr "postgres"); ("password", VStr db_password);
   ("engine", VStr "postgres"); ("host", VStr "[RDS-ENDPOINT]");
   ("port", VInt 5432); ("dbname", VStr "pii_db")].
End Infrastructure.

(** * Further vocabulary for statements about runs *)

Definition is_db_call (c : call) : bool :=
  match c with
  | DbConnect | DbExecute _ | DbCommit | DbRollback | DbClose => true
  | _ => false
  end.

(** The database was not asked anything: the tables and the fault schedule
    are as before and the calls made contain no database request. *)
Definition offline (s s1 : state) : Prop :=
  database s1 = database s
  /\ faults s1 = faults s
  /\ exists calls, trace s1 = trace s ++ calls /\ filter is_db_call calls = [].

(** The committed tables are as before. *)
Definition same_database (s s1 : state) : Prop := database s1 = database s.

(** The users and their metadata are as before; audit rows may differ. *)
Definition same_records (s s1 : state) : Prop :=
  users (database s1) = users (database s)
  /\ encryption_metadata (database s1) = encryption_metadata (database s).

(** The audit table has only grown, at its end. *)
Definition audit_extended (s s1 : state) : Prop :=
  exists rows,
    encryption_audit (database s1) = encryption_audit (database s) ++ rows.

(** Whenever [m] returns, what it returns satisfies [P]. *)
Definition returns {A} (P : A -> Prop) (m : M A) : Prop :=
  forall s a s1, m s = (Ok a, s1) -> P a.

(** The two shapes of an answer: status 200 with [success = True], or an
    error status with [success = False] and a message under ['error'] *)
Definition success_envelope (r : response) : Prop :=
  statusCode r = 200%Z /\ py_getitem (body r) "success" = Ok (VBool true).

Definition error_envelope (code : Z) (r : response) : Prop :=
  statusCode r = code
  /\ py_getitem (body r) "success" = Ok (VBool false)
  /\ exists message, py_getitem (body r) "error" = Ok (VStr message).

(** * Runs on the concrete environment *)

Module Scenario.
Definition listed : result dict * state :=
  Pkg.list_users Demo.env (VInt 10) (VInt 0) Demo.after_create.
Definition listed_users : dict :=
  match fst listed with Ok r => r | Err _ => [] end.
Definition retrieved : result (dict * list (string * dict)) * state :=
  Pkg.retrieve_encrypted_user Demo.env (VStr "user-0") Demo.after_create.
Definition retrieved_user : dict * list (string * dict) :=
  match fst retrieved with Ok r => r | Err _ => ([], []) end.
Definition generated_ssn : dict :=
  match fst (Generated.encrypt_field Demo.env "ssn" (VStr Demo.ssn) Demo.start) with
  | Ok (VDict d) => d
  | _ => []
  end.
(** The demo environment with the two secrets laid out as
    [generate-keys.py] prints them *)
Definition printed_secrets (secret_id : string) : result pyval :=
  if String.eqb secret_id "pii-encryption-keys" then
    Ok (VDict (Infrastructure.app_keys_json "key-one"))
  else if String.eqb secret_id "pii-database-credentials" then
    Ok (VDict (Infrastructure.db_credentials_json "secret"))
  else get_secret_value Demo.env secret_id.

Definition env_with_printed_secrets : services :=
  {| kms_encrypt := kms_encrypt Demo.env;
     kms_decrypt := kms_decrypt Demo.env;
     kms_describe_key := kms_describe_key Demo.env;
     get_secret_value := printed_secrets;
     fernet_key_ok := fernet_key_ok Demo.env;
     fernet_encrypt := fernet_encrypt Demo.env;
     fernet_decrypt := fernet_decrypt Demo.env;
     b64encode := b64encode Demo.env;
     b64decode := b64decode Demo.env;
     utf8_encode := utf8_encode Demo.env;
     utf8_decode := utf8_decode Demo.env;
     py_repr := py_repr Demo.env;
     gen_uuid := gen_uuid Demo.env;
     gen_timestamp := gen_timestamp Demo.env;
     users_columns := users_columns Demo.env;
     metadata_columns := metadata_columns Demo.env;
     audit_columns := audit_columns Demo.env |}.

Definition encrypted_ssn_entry : Pkg.encrypted_data :=
  match fst (Pkg.encrypt_entry Demo.env Pkg.empty_result ("ssn", VStr Demo.ssn)
               Demo.start) with
  | Ok er => er
  | Err _ => Pkg.empty_result
  end.

(** Two failures, then an answer *)
Definition flaky_lambda (n : nat) : Backend.attempt_outcome :=
  match n with
  | 0 => Backend.ClientError "TooManyRequestsException" "Rate exceeded"
  | 1 => Backend.OtherError "Connection reset by peer"
  | _ => Backend.Returned (VDict [("statusCode", VInt 200)])
  end.

(** A level-2 value, encrypted *)
Definition encrypted_address : result pyval * state :=
  Pkg.encrypt_field Demo.env "address" (VStr "1 Main St") Demo.start.
Definition address_entry : pyval :=
  match fst encrypted_address with Ok r => r | Err _ => VNone end.

(** Both spellings of the date of birth, encrypted *)
Definition two_dates : Pkg.encrypted_data :=
  Pkg.mkEncrypted
    [("email", VStr "ada@example.org");
     ("dob_encrypted", VStr "b64-one");
     ("date_of_birth_encrypted", VStr "b64-two")]
    [("dob", [("level", VInt 2)]); ("date_of_birth", [("level", VInt 2)])].
End Scenario.

(** * Properties *)

Unset Implicit Arguments.

(** ** Runs of monadic code *)

Lemma bind_ok_inv {A B} (m : M A) (k : A -> M B) s b s2 :
  bind m k s = (Ok b, s2) ->
  exists a s1, m s = (Ok a, s1) /\ k a s1 = (Ok b, s2).
Proof.
  unfold bind. destruct (m s) as [[a|e] s1]; intros H.
  - exists a, s1. split; [reflexivity | exact H].
  - discriminate H.
Qed.

Lemma bind_err_inv {A B} (m : M A) (k : A -> M B) s e s2 :
  bind m k s = (Err e, s2) ->
  m s = (Err e, s2) \/ exists a s1, m s = (Ok a, s1) /\ k a s1 = (Err e, s2).
Proof.
  unfold bind. destruct (m s) as [[a|e'] s1]; intros H.
  - right. exists a, s1. split; [reflexivity | exact H].
  - left. inversion H. reflexivity.
Qed.

Lemma bind_run {A B} (m : M A) (k : A -> M B) s a s1 :
  m s = (Ok a, s1) -> bind m k s = k a s1.
Proof. intros H. unfold bind. rewrite H. reflexivity. Qed.

Lemma lift_ok_inv {A} (r : result A) s a s1 :
  lift r s = (Ok a, s1) -> r = Ok a /\ s1 = s.
Proof. unfold lift. intros H. inversion H. split; reflexivity. Qed.

Lemma string_eqb_empty_false s : s <> "" -> String.eqb s "" = false.
Proof. intros H. apply String.eqb_neq. exact H. Qed.

(** ** What the theorems ask of the collaborators *)

Record lawful (svc : services) : Prop := mkLawful {
  (** the envelope service decrypts what it encrypted *)
  kms_inverse : forall key_id p c,
      kms_encrypt svc key_id p = Ok c -> kms_decrypt svc c = Ok p;
  (** a [CiphertextBlob] is never empty *)
  kms_blob_nonempty : forall key_id p c,
      kms_encrypt svc key_id p = Ok c -> c <> [];
  (** base64 is invertible, and only the empty input encodes to [""] *)
  b64_inverse : forall b, b64decode svc (b64encode svc b) = Ok b;
  b64_nonempty : forall b, b64encode svc b = "" -> b = [];
  (** UTF-8 decoding inverts encoding *)
  utf8_inverse : forall s b, utf8_encode svc s = Ok b -> utf8_decode svc b = Ok s;
  (** the local cipher decrypts what it encrypted under the same key *)
  fernet_inverse : forall key p,
      fernet_key_ok svc key = true ->
      fernet_decrypt svc key (fernet_encrypt svc key p) = Ok p
}.

Lemma strip_prefix_app (p l : bytes) : Demo.strip_prefix p (p ++ l) = Some l.
Proof.
  induction p as [|x p IH]; simpl.
  - reflexivity.
  - rewrite (Byte.byte_dec_lb eq_refl). exact IH.
Qed.

Lemma string_of_list_byte_empty (b : bytes) : string_of_list_byte b = "" -> b = [].
Proof. destruct b; simpl; [reflexivity | discriminate]. Qed.

Lemma demo_lawful : lawful Demo.env.
Proof.
  constructor; simpl.
  - intros key_id p c H. inversion H. reflexivity.
  - intros key_id p c H. inversion H. discriminate.
  - intros b. rewrite list_byte_of_string_of_list_byte. reflexivity.
  - exact string_of_list_byte_empty.
  - intros s b H. inversion H. rewrite string_of_list_byte_of_string. reflexivity.
  - intros key p _. unfold Demo.demo_fernet_decrypt, Demo.demo_fernet_encrypt.
    simpl. rewrite strip_prefix_app. reflexivity.
Qed.

(** ** The empty-value short circuit *)

(** C5. For every field name, whatever its classified level, [encrypt_field]
    applied to [None] or to the empty string returns
    [{value: None, encrypted: False, level: 1, field_name: name}] and leaves
    the state, hence the trace of calls to the collaborators, untouched. *)
Theorem encrypt_field_empty_short_circuit :
  forall (svc : services) (name : string) (s : state),
    let short := VDict [("value", VNone); ("encrypted", VBool false);
                        ("level", VInt 1); ("field_name", VStr name)] in
    Pkg.encrypt_field svc name VNone s = (Ok short, s)
    /\ Pkg.encrypt_field svc name (VStr "") s = (Ok short, s)
    /\ py_getitem short "value" = Ok VNone
    /\ py_getitem short "encrypted" = Ok (VBool false)
    /\ py_getitem short "level" = Ok (VInt 1).
Proof.
  intros svc name s short.
  repeat split; reflexivity.
Qed.

(** ** The key cache *)

Lemma get_app_keys_cached svc s keys :
  app_keys_cache s = Some keys -> Pkg.get_app_keys svc s = (Ok keys, s).
Proof. intros H. unfold Pkg.get_app_keys. rewrite H. reflexivity. Qed.

(** A successful [get_app_keys] leaves the keys in the cache, and fetches
    the secret only when the cache was empty. *)
Lemma get_app_keys_ok svc s keys s1 :
  Pkg.get_app_keys svc s = (Ok keys, s1) ->
  app_keys_cache s1 = Some keys
  /\ database s1 = database s
  /\ faults s1 = faults s
  /\ exists pre, trace s1 = trace s ++ pre
       /\ (pre = [] \/ pre = [GetSecretValue Pkg.app_keys_secret]).
Proof.
  unfold Pkg.get_app_keys.
  destruct (app_keys_cache s) as [cached|] eqn:Hc.
  - intros H. inversion H; subst. repeat split; try assumption.
    exists []. rewrite app_nil_r. split; [reflexivity | left; reflexivity].
  - unfold bind, emit, lift. simpl.
    destruct (get_secret_value svc Pkg.app_keys_secret) as [secret|e]; [|discriminate].
    destruct (py_getitem secret "app_encryption_keys") as [k|e]; [|discriminate].
    intros H. inversion H; subst. simpl. repeat split.
    exists [GetSecretValue Pkg.app_keys_secret].
    split; [reflexivity | right; reflexivity].
Qed.

Lemma str_encode_ok svc v b s s1 :
  Pkg.str_encode svc v s = (Ok b, s1) ->
  exists text, v = VStr text /\ utf8_encode svc text = Ok b /\ s1 = s.
Proof.
  destruct v; simpl; try discriminate.
  intros H. apply lift_ok_inv in H. destruct H as [H1 H2].
  eexists. repeat split; eassumption.
Qed.

Lemma Fernet_ok svc key cipher s s1 :
  Pkg.Fernet svc key s = (Ok cipher, s1) ->
  cipher = key /\ fernet_key_ok svc key = true /\ s1 = s.
Proof.
  unfold Pkg.Fernet. destruct (fernet_key_ok svc key); [|discriminate].
  intros H. inversion H. repeat split.
Qed.

(** The cipher for a key version: the cached keys hold a string under
    [level3_app_key_v<version>], and its bytes are a valid Fernet key. *)
Lemma get_app_cipher_for_version_ok svc version s cipher s1 :
  Pkg.get_app_cipher_for_version svc version s = (Ok cipher, s1) ->
  exists keys key_text,
    Pkg.get_app_keys svc s = (Ok keys, s1)
    /\ py_getitem keys (Pkg.app_key_name svc version) = Ok (VStr key_text)
    /\ utf8_encode svc key_text = Ok cipher
    /\ fernet_key_ok svc cipher = true.
Proof.
  unfold Pkg.get_app_cipher_for_version. intros H.
  apply bind_ok_inv in H. destruct H as (keys & sa & Hk & H).
  apply bind_ok_inv in H. destruct H as (key & sb & Hkey & H).
  apply lift_ok_inv in Hkey. destruct Hkey as [Hkey ->].
  apply bind_ok_inv in H. destruct H as (kb & sc & Henc & H).
  apply str_encode_ok in Henc. destruct Henc as (text & -> & Henc & ->).
  apply Fernet_ok in H. destruct H as (-> & Hok & ->).
  exists keys, text. repeat split; assumption.
Qed.

Lemma get_app_cipher_for_version_run svc version s keys key_text cipher :
  app_keys_cache s = Some keys ->
  py_getitem keys (Pkg.app_key_name svc version) = Ok (VStr key_text) ->
  utf8_encode svc key_text = Ok cipher ->
  fernet_key_ok svc cipher = true ->
  Pkg.get_app_cipher_for_version svc version s = (Ok cipher, s).
Proof.
  intros Hc Hkey Henc Hok. unfold Pkg.get_app_cipher_for_version.
  erewrite bind_run by (apply get_app_keys_cached; exact Hc).
  unfold bind, lift. rewrite Hkey. simpl. unfold lift. rewrite Henc.
  unfold Pkg.Fernet. rewrite Hok. reflexivity.
Qed.

Lemma get_current_app_cipher_ok svc s cipher s1 :
  Pkg.get_current_app_cipher svc s = (Ok cipher, s1) ->
  exists keys version key_text,
    Pkg.get_app_keys svc s = (Ok keys, s1)
    /\ py_getitem keys "current_version" = Ok version
    /\ py_getitem keys (Pkg.app_key_name svc version) = Ok (VStr key_text)
    /\ utf8_encode svc key_text = Ok cipher
    /\ fernet_key_ok svc cipher = true.
Proof.
  unfold Pkg.get_current_app_cipher. intros H.
  apply bind_ok_inv in H. destruct H as (keys & sa & Hk & H).
  apply bind_ok_inv in H. destruct H as (version & sb & Hv & H).
  apply lift_ok_inv in Hv. destruct Hv as [Hv ->].
  apply bind_ok_inv in H. destruct H as (key & sc & Hkey & H).
  apply lift_ok_inv in Hkey. destruct Hkey as [Hkey ->].
  apply bind_ok_inv in H. destruct H as (kb & sd & Henc & H).
  apply str_encode_ok in Henc. destruct Henc as (text & -> & Henc & ->).
  apply Fernet_ok in H. destruct H as (-> & Hok & ->).
  exists keys, version, text. repeat split; assumption.
Qed.

(** ** What a successful [encrypt_field] did *)

Lemma classify_level name l :
  Pkg.classify_pii_level name = l ->
  Pkg.level (Pkg.get_encryption_requirements name) = l.
Proof. intros H. simpl. exact H. Qed.

Lemma kms_encrypt_call_ok svc key_id p blob s s1 :
  Pkg.kms_encrypt_call svc key_id p s = (Ok blob, s1) ->
  kms_encrypt svc key_id p = Ok blob
  /\ s1 = set_trace (trace s ++ [KmsEncrypt key_id p]) s.
Proof.
  unfold Pkg.kms_encrypt_call, bind, emit, lift. simpl.
  destruct (kms_encrypt svc key_id p); intros H; inversion H.
  split; reflexivity.
Qed.

Lemma kms_decrypt_call_ok svc blob p s s1 :
  Pkg.kms_decrypt_call svc blob s = (Ok p, s1) ->
  kms_decrypt svc blob = Ok p
  /\ s1 = set_trace (trace s ++ [KmsDecrypt blob]) s.
Proof.
  unfold Pkg.kms_decrypt_call, bind, emit, lift. simpl.
  destruct (kms_decrypt svc blob); intros H; inversion H.
  split; reflexivity.
Qed.

Lemma cipher_decrypt_ok svc cipher token data s s1 :
  Pkg.cipher_decrypt svc cipher token s = (Ok data, s1) ->
  fernet_decrypt svc cipher token = Ok data
  /\ s1 = set_trace (trace s ++ [FernetDecrypt cipher token]) s.
Proof.
  unfold Pkg.cipher_decrypt, bind, emit, lift. simpl.
  destruct (fernet_decrypt svc cipher token); intros H; inversion H.
  split; reflexivity.
Qed.

(** Level 2: the value is base64 of the envelope of the UTF-8 bytes. *)
Lemma encrypt_field_level2_ok svc name v s r s1 :
  Pkg.classify_pii_level name = 2%Z ->
  v <> "" ->
  Pkg.encrypt_field svc name (VStr v) s = (Ok r, s1) ->
  exists pt blob,
    utf8_encode svc v = Ok pt
    /\ kms_encrypt svc Pkg.level2_kms_alias pt = Ok blob
    /\ r = VDict [("value", VStr (b64encode svc blob)); ("encrypted", VBool true);
                  ("level", VInt 2); ("field_name", VStr name);
                  ("method", VStr "kms_only");
                  ("kms_key", VStr Pkg.level2_kms_alias)]
    /\ s1 = set_trace (trace s ++ [KmsEncrypt Pkg.level2_kms_alias pt]) s.
Proof.
  intros Hl Hv. unfold Pkg.encrypt_field.
  change (is_none_or_empty (VStr v)) with (String.eqb v "").
  rewrite (string_eqb_empty_false _ Hv), (classify_level _ _ Hl). simpl.
  intros H.
  apply bind_ok_inv in H. destruct H as (pt & sa & Henc & H).
  apply lift_ok_inv in Henc. destruct Henc as [Henc ->].
  apply bind_ok_inv in H. destruct H as (blob & sb & Hk & H).
  apply kms_encrypt_call_ok in Hk. destruct Hk as [Hk ->].
  inversion H; subst.
  exists pt, blob. repeat split; assumption.
Qed.

(** Level 3: the local cipher runs first, under the key of the current
    version; the envelope service encrypts its output; the version read
    from the same cached keys is returned with the value. *)
Lemma encrypt_field_level3_ok svc name v s r s1 :
  Pkg.classify_pii_level name = 3%Z ->
  v <> "" ->
  Pkg.encrypt_field svc name (VStr v) s = (Ok r, s1) ->
  exists keys version key_text key pt blob pre,
    app_keys_cache s1 = Some keys
    /\ py_getitem keys "current_version" = Ok version
    /\ py_getitem keys (Pkg.app_key_name svc version) = Ok (VStr key_text)
    /\ utf8_encode svc key_text = Ok key
    /\ fernet_key_ok svc key = true
    /\ utf8_encode svc v = Ok pt
    /\ kms_encrypt svc Pkg.level3_kms_alias (fernet_encrypt svc key pt) = Ok blob
    /\ r = VDict [("value", VStr (b64encode svc blob)); ("encrypted", VBool true);
                  ("level", VInt 3); ("field_name", VStr name);
                  ("method", VStr "double_encryption");
                  ("app_key_version", version);
                  ("kms_key", VStr Pkg.level3_kms_alias)]
    /\ trace s1 = trace s ++ pre
         ++ [FernetEncrypt key pt;
             KmsEncrypt Pkg.level3_kms_alias (fernet_encrypt svc key pt)]
    /\ (pre = [] \/ pre = [GetSecretValue Pkg.app_keys_secret])
    /\ database s1 = database s
    /\ faults s1 = faults s.
Proof.
  intros Hl Hv. unfold Pkg.encrypt_field.
  change (is_none_or_empty (VStr v)) with (String.eqb v "").
  rewrite (string_eqb_empty_false _ Hv), (classify_level _ _ Hl). simpl.
  intros H.
  apply bind_ok_inv in H. destruct H as (cipher & sa & Hc & H).
  apply get_current_app_cipher_ok in Hc.
  destruct Hc as (keys & version & key_text & Hkeys & Hver & Hkey & Henc & Hok).
  apply get_app_keys_ok in Hkeys.
  destruct Hkeys as (Hcache & Hdb & Hf & pre & Htr & Hpre).
  apply bind_ok_inv in H. destruct H as (pt & sb & Hpt & H).
  apply lift_ok_inv in Hpt. destruct Hpt as [Hpt ->].
  apply bind_ok_inv in H. destruct H as (tok & sc & Htok & H).
  unfold Pkg.cipher_encrypt, bind, emit, ret in Htok. simpl in Htok.
  inversion Htok; subst tok sc; clear Htok.
  apply bind_ok_inv in H. destruct H as (blob & sd & Hk & H).
  apply kms_encrypt_call_ok in Hk. destruct Hk as [Hk ->].
  apply bind_ok_inv in H. destruct H as (keys' & se & Hk2 & H).
  rewrite get_app_keys_cached with (keys := keys) in Hk2 by (simpl; exact Hcache).
  inversion Hk2; subst keys' se; clear Hk2.
  apply bind_ok_inv in H. destruct H as (version' & sf & Hv2 & H).
  apply lift_ok_inv in Hv2. destruct Hv2 as [Hv2 ->].
  rewrite Hver in Hv2. inversion Hv2; subst version'.
  inversion H; subst r s1. simpl.
  exists keys, version, key_text, cipher, pt, blob, pre.
  repeat split; try assumption.
  rewrite Htr. rewrite <- !app_assoc. reflexivity.
Qed.

(** ** Decryption inverts encryption *)

Lemma b64encode_blob_nonempty svc (LAW : lawful svc) key_id p blob :
  kms_encrypt svc key_id p = Ok blob ->
  String.eqb (b64encode svc blob) "" = false.
Proof.
  intros H. apply String.eqb_neq. intros E.
  apply (b64_nonempty svc LAW) in E.
  exact (kms_blob_nonempty svc LAW _ _ _ H E).
Qed.

(** C1. For a field classified at level 2 or 3 and a non-empty plaintext
    [v], whenever [encrypt_field] succeeds, [decrypt_field] applied to the
    returned value and to the metadata entry built from the returned dict
    gives back [v].  Decryption may run in any state of the same handler
    (any state holding the same cached keys).  The collaborators are taken
    to be [lawful]: envelope service, local cipher, base64 and UTF-8 are
    invertible, and a ciphertext blob is not empty. *)
Theorem encrypt_decrypt_round_trip :
  forall (svc : services) (LAW : lawful svc)
         (name v : string) (s s1 : state) (r : pyval),
    (Pkg.classify_pii_level name = 2 \/ Pkg.classify_pii_level name = 3)%Z ->
    v <> "" ->
    Pkg.encrypt_field svc name (VStr v) s = (Ok r, s1) ->
    exists d c,
      r = VDict d
      /\ dict_get d "value" = Some c
      /\ forall s', app_keys_cache s' = app_keys_cache s1 ->
           fst (Pkg.decrypt_field svc name c (Some (Pkg.field_metadata d)) s')
           = Ok (VStr v).
Proof.
  intros svc LAW name v s s1 r [Hl|Hl] Hv H.
  - apply encrypt_field_level2_ok in H; try assumption.
    destruct H as (pt & blob & Hpt & Hk & -> & ->).
    eexists. eexists. split; [reflexivity|]. split; [reflexivity|].
    intros s' _. unfold Pkg.decrypt_field.
    change (is_none_or_empty (VStr (b64encode svc blob)))
      with (String.eqb (b64encode svc blob) "").
    rewrite (b64encode_blob_nonempty svc LAW _ _ _ Hk). simpl.
    unfold bind, lift. rewrite (b64_inverse svc LAW).
    unfold Pkg.kms_decrypt_call, bind, emit, lift. simpl.
    rewrite (kms_inverse svc LAW _ _ _ Hk), (utf8_inverse svc LAW _ _ Hpt).
    reflexivity.
  - apply encrypt_field_level3_ok in H; try assumption.
    destruct H as (keys & version & key_text & key & pt & blob & pre
                   & Hcache & Hver & Hkey & Henc & Hok & Hpt & Hk & -> & _).
    eexists. eexists. split; [reflexivity|]. split; [reflexivity|].
    intros s' Hs'. unfold Pkg.decrypt_field.
    change (is_none_or_empty (VStr (b64encode svc blob)))
      with (String.eqb (b64encode svc blob) "").
    rewrite (b64encode_blob_nonempty svc LAW _ _ _ Hk). simpl.
    unfold bind at 1. unfold lift at 1. rewrite (b64_inverse svc LAW).
    unfold bind at 1.
    unfold Pkg.kms_decrypt_call, bind at 1, emit, lift. simpl.
    rewrite (kms_inverse svc LAW _ _ _ Hk).
    erewrite bind_run.
    2:{ apply get_app_cipher_for_version_run with (keys := keys) (key_text := key_text);
        try eassumption. simpl. rewrite Hs'. exact Hcache. }
    unfold Pkg.cipher_decrypt, bind, emit, lift. simpl.
    rewrite (fernet_inverse svc LAW _ _ Hok), (utf8_inverse svc LAW _ _ Hpt).
    reflexivity.
Qed.

Lemma encrypt_decrypt_round_trip_witness :
  exists d c,
    VDict Demo.ssn_result = VDict d
    /\ dict_get d "value" = Some c
    /\ forall s', app_keys_cache s' = app_keys_cache Demo.after_ssn ->
         fst (Pkg.decrypt_field Demo.env "ssn" c (Some (Pkg.field_metadata d)) s')
         = Ok (VStr Demo.ssn).
Proof.
  apply (encrypt_decrypt_round_trip Demo.env demo_lawful "ssn" Demo.ssn
           Demo.start Demo.after_ssn (VDict Demo.ssn_result)).
  - right. reflexivity.
  - discriminate.
  - reflexivity.
Defined.

(** ** Level 3: local cipher inside, envelope outside *)

Lemma decrypt_field_level3_ok svc name c md version p s s1 :
  c <> "" ->
  dict_get md "level" = Some (VInt 3) ->
  dict_get md "app_key_version" = Some version ->
  Pkg.decrypt_field svc name (VStr c) (Some md) s = (Ok p, s1) ->
  exists blob token keys key_text key data text pre,
    b64decode svc c = Ok blob
    /\ kms_decrypt svc blob = Ok token
    /\ app_keys_cache s1 = Some keys
    /\ py_getitem keys (Pkg.app_key_name svc version) = Ok (VStr key_text)
    /\ utf8_encode svc key_text = Ok key
    /\ fernet_decrypt svc key token = Ok data
    /\ utf8_decode svc data = Ok text
    /\ p = VStr text
    /\ trace s1 = trace s ++ [KmsDecrypt blob] ++ pre ++ [FernetDecrypt key token]
    /\ (pre = [] \/ pre = [GetSecretValue Pkg.app_keys_secret]).
Proof.
  intros Hc Hl Hv. unfold Pkg.decrypt_field.
  change (is_none_or_empty (VStr c)) with (String.eqb c "").
  rewrite (string_eqb_empty_false _ Hc).
  assert (Hml : Pkg.metadata_level (Some md) = Some (VInt 3)).
  { destruct md; [discriminate|]. exact Hl. }
  assert (Hmv : Pkg.metadata_key_version (Some md) = version).
  { destruct md; [discriminate|]. unfold Pkg.metadata_key_version, dict_get_or.
    rewrite Hv. reflexivity. }
  rewrite Hml, Hmv. simpl. intros H.
  apply bind_ok_inv in H. destruct H as (blob & sa & Hb & H).
  apply lift_ok_inv in Hb. destruct Hb as [Hb ->].
  apply bind_ok_inv in H. destruct H as (token & sb & Hk & H).
  apply kms_decrypt_call_ok in Hk. destruct Hk as [Hk ->].
  apply bind_ok_inv in H. destruct H as (cipher & sc & Hci & H).
  apply get_app_cipher_for_version_ok in Hci.
  destruct Hci as (keys & key_text & Hkeys & Hkey & Henc & Hok).
  apply get_app_keys_ok in Hkeys.
  destruct Hkeys as (Hcache & _ & _ & pre & Htr & Hpre).
  apply bind_ok_inv in H. destruct H as (data & sd & Hd & H).
  apply cipher_decrypt_ok in Hd. destruct Hd as [Hd ->].
  apply bind_ok_inv in H. destruct H as (text & se & Ht & H).
  apply lift_ok_inv in Ht. destruct Ht as [Ht ->].
  inversion H; subst p s1. simpl.
  exists blob, token, keys, key_text, cipher, data, text, pre.
  repeat split; try assumption.
  rewrite Htr. simpl. rewrite <- !app_assoc. reflexivity.
Qed.

(** C2 (package engine).  For a field classified at level 3 and a non-empty
    value [v]: a successful [encrypt_field] has applied the local cipher to
    the UTF-8 bytes of [v] under the key of the current version, then the
    envelope service (alias [alias/pii-level3]) to the output of the local
    cipher, in that order, and returns base64 of the envelope ciphertext
    together with the key version it used; a successful [decrypt_field] on
    metadata recording level 3 and a key version has base64-decoded the
    ciphertext, envelope-decrypted it, then decrypted the result with the
    local key stored under the recorded version, in that order. *)
Theorem level3_local_inside_envelope_outside :
  forall (svc : services) (name v : string) (s : state),
    Pkg.classify_pii_level name = 3%Z ->
    v <> "" ->
    (forall r s1,
        Pkg.encrypt_field svc name (VStr v) s = (Ok r, s1) ->
        exists keys version key_text key pt blob pre,
          app_keys_cache s1 = Some keys
          /\ py_getitem keys "current_version" = Ok version
          /\ py_getitem keys (Pkg.app_key_name svc version) = Ok (VStr key_text)
          /\ utf8_encode svc key_text = Ok key
          /\ utf8_encode svc v = Ok pt
          /\ kms_encrypt svc Pkg.level3_kms_alias (fernet_encrypt svc key pt)
             = Ok blob
          /\ r = VDict [("value", VStr (b64encode svc blob));
                        ("encrypted", VBool true);
                        ("level", VInt 3); ("field_name", VStr name);
                        ("method", VStr "double_encryption");
                        ("app_key_version", version);
                        ("kms_key", VStr Pkg.level3_kms_alias)]
          /\ trace s1 = trace s ++ pre
               ++ [FernetEncrypt key pt;
                   KmsEncrypt Pkg.level3_kms_alias (fernet_encrypt svc key pt)]
          /\ (pre = [] \/ pre = [GetSecretValue Pkg.app_keys_secret]))
    /\
    (forall c md version p s' s2,
        c <> "" ->
        dict_get md "level" = Some (VInt 3) ->
        dict_get md "app_key_version" = Some version ->
        Pkg.decrypt_field svc name (VStr c) (Some md) s' = (Ok p, s2) ->
        exists blob token keys key_text key data text pre,
          b64decode svc c = Ok blob
          /\ kms_decrypt svc blob = Ok token
          /\ app_keys_cache s2 = Some keys
          /\ py_getitem keys (Pkg.app_key_name svc version) = Ok (VStr key_text)
          /\ utf8_encode svc key_text = Ok key
          /\ fernet_decrypt svc key token = Ok data
          /\ utf8_decode svc data = Ok text
          /\ p = VStr text
          /\ trace s2 = trace s' ++ [KmsDecrypt blob] ++ pre
               ++ [FernetDecrypt key token]
          /\ (pre = [] \/ pre = [GetSecretValue Pkg.app_keys_secret])).
Proof.
  intros svc name v s Hl Hv. split.
  - intros r s1 H.
    destruct (encrypt_field_level3_ok svc name v s r s1 Hl Hv H)
      as (keys & version & key_text & key & pt & blob & pre
          & H1 & H2 & H3 & H4 & _ & H5 & H6 & H7 & H8 & H9 & _).
    exists keys, version, key_text, key, pt, blob, pre.
    repeat split; assumption.
  - intros c md version p s' s2 Hc Hml Hmv H.
    exact (decrypt_field_level3_ok svc name c md version p s' s2 Hc Hml Hmv H).
Qed.

Lemma level3_local_inside_envelope_outside_witness :
  exists key pt pre,
    trace Demo.after_ssn
    = trace Demo.start ++ pre
        ++ [FernetEncrypt key pt;
            KmsEncrypt Pkg.level3_kms_alias (fernet_encrypt Demo.env key pt)].
Proof.
  destruct (level3_local_inside_envelope_outside Demo.env "ssn" Demo.ssn Demo.start)
    as [Henc _].
  - reflexivity.
  - discriminate.
  - destruct (Henc (VDict Demo.ssn_result) Demo.after_ssn eq_refl)
      as (keys & version & key_text & key & pt & blob & pre
          & _ & _ & _ & _ & _ & _ & _ & Htrace & _).
    exists key, pt, pre. exact Htrace.
Defined.

(** The generated handler classifies [ssn] at level 3 as well, but its
    [encrypt_field] hands the UTF-8 bytes of the value straight to the
    envelope service: the only call is one [KmsEncrypt] on the plaintext,
    there is no local cipher, and the result carries no key version. *)
Lemma generated_level3_is_envelope_only :
  Generated.classify_pii_level "ssn" = 3%Z
  /\ exists d s1,
       Generated.encrypt_field Demo.env "ssn" (VStr Demo.ssn) Demo.start
       = (Ok (VDict d), s1)
       /\ dict_get d "method" = Some (VStr "kms_level3")
       /\ dict_get d "app_key_version" = None
       /\ dict_get d "value"
          = Some (VStr (b64encode Demo.env (Demo.marker_kms :: list_byte_of_string Demo.ssn)))
       /\ trace s1 = [KmsEncrypt "alias/pii-level3" (list_byte_of_string Demo.ssn)].
Proof.
  split; [reflexivity|].
  eexists. eexists. split; [cbv; reflexivity|].
  repeat split; reflexivity.
Qed.

(** ** A missing key version *)



(** On the demo environment a value encrypted under key version 1 and read
    back without metadata is decrypted, although the current version is 2. *)
Example decrypt_without_metadata_uses_v1 :
  fst (Pkg.decrypt_field Demo.env "ssn" (VStr "KFkey-one123-45-6789") None Demo.start)
  = Ok (VStr "123-45-6789")
  /\ fst (Pkg.decrypt_field Demo.env "ssn" (VStr "KFkey-two123-45-6789") None Demo.start)
     = Err Demo.InvalidToken.
Proof. split; reflexivity. Qed.

(** ** Composing facts about runs *)

Section StableRuns.
Variable R : state -> state -> Prop.
Hypothesis R_refl : forall s, R s s.
Hypothesis R_trans : forall a b c, R a b -> R b c -> R a c.

Lemma stable_ret {A} (a : A) : stable R (ret a).
Proof. intros s r s1 H. inversion H. apply R_refl. Qed.

Lemma stable_raise {A} (e : exn) : stable R (@raise A e).
Proof. intros s r s1 H. inversion H. apply R_refl. Qed.

Lemma stable_lift {A} (x : result A) : stable R (lift x).
Proof. intros s r s1 H. inversion H. apply R_refl. Qed.

Lemma stable_bind {A B} (m : M A) (k : A -> M B) :
  stable R m -> (forall a, stable R (k a)) -> stable R (bind m k).
Proof.
  intros Hm Hk s r s2. unfold bind.
  destruct (m s) as [[a|e] s1] eqn:E; intros H.
  - eapply R_trans; [exact (Hm _ _ _ E) | exact (Hk _ _ _ _ H)].
  - inversion H; subst. exact (Hm _ _ _ E).
Qed.

Lemma stable_try_except {A} (m : M A) (h : exn -> M A) :
  stable R m -> (forall e, stable R (h e)) -> stable R (try_except m h).
Proof.
  intros Hm Hh s r s2. unfold try_except.
  destruct (m s) as [[a|e] s1] eqn:E; intros H.
  - inversion H; subst. exact (Hm _ _ _ E).
  - eapply R_trans; [exact (Hm _ _ _ E) | exact (Hh _ _ _ _ H)].
Qed.

Lemma stable_try_finally {A} (m : M A) (f : M unit) :
  stable R m -> stable R f -> stable R (try_finally m f).
Proof.
  intros Hm Hf s r s2. unfold try_finally.
  destruct (m s) as [r1 s1] eqn:E.
  destruct (f s1) as [[u|e] s1'] eqn:F; intros H; inversion H; subst;
    (eapply R_trans; [exact (Hm _ _ _ E) | exact (Hf _ _ _ F)]).
Qed.

Lemma stable_for_each {A} (xs : list A) (body : A -> M unit) :
  (forall x, stable R (body x)) -> stable R (for_each xs body).
Proof.
  intros Hb. induction xs as [|x xs IH]; simpl.
  - apply stable_ret.
  - apply stable_bind; [apply Hb | intros _; exact IH].
Qed.

Lemma stable_for_fold {A B} (xs : list A) (body : B -> A -> M B) :
  (forall acc x, stable R (body acc x)) ->
  forall acc, stable R (for_fold xs acc body).
Proof.
  intros Hb. induction xs as [|x xs IH]; intros acc; simpl.
  - apply stable_ret.
  - apply stable_bind; [apply Hb | intros acc'; apply IH].
Qed.
End StableRuns.

Lemma uncommitted_refl s : uncommitted s s.
Proof.
  split; [reflexivity|]. exists []. rewrite app_nil_r. split; reflexivity.
Qed.

Lemma uncommitted_trans a b c :
  uncommitted a b -> uncommitted b c -> uncommitted a c.
Proof.
  intros (D1 & x & Hx & Fx) (D2 & y & Hy & Fy). split.
  - rewrite D2. exact D1.
  - exists (x ++ y). split.
    + rewrite Hy, Hx, app_assoc. reflexivity.
    + rewrite filter_app, Fx, Fy. reflexivity.
Qed.

Lemma quiet_refl s : quiet s s.
Proof. split; [apply uncommitted_refl | reflexivity]. Qed.

Lemma quiet_trans a b c : quiet a b -> quiet b c -> quiet a c.
Proof.
  intros (U1 & K1) (U2 & K2). split.
  - exact (uncommitted_trans _ _ _ U1 U2).
  - rewrite K2. exact K1.
Qed.

Lemma quiet_uncommitted {A} (m : M A) : stable quiet m -> stable uncommitted m.
Proof. intros H s r s1 E. exact (proj1 (H _ _ _ E)). Qed.

Lemma same_engine_refl s : same_engine s s.
Proof. repeat split. Qed.

Lemma same_engine_trans a b c :
  same_engine a b -> same_engine b c -> same_engine a c.
Proof.
  intros (H1 & H2 & H3) (K1 & K2 & K3). repeat split; congruence.
Qed.

(** ** The database requests other than [commit] commit nothing *)

Lemma quiet_same_fields s s1 :
  database s1 = database s ->
  app_keys_cache s1 = app_keys_cache s ->
  trace s1 = trace s ->
  quiet s s1.
Proof.
  intros Hd Hk Ht. split; [split|]; try assumption.
  exists []. rewrite app_nil_r. split; [exact Ht | reflexivity].
Qed.

Lemma quiet_emit c : is_commit c = false -> stable quiet (emit c).
Proof.
  intros Hc s r s1 H. unfold emit in H. inversion H; subst. simpl.
  split; [split|]; simpl; try reflexivity.
  exists [c]. split; [reflexivity|]. simpl. rewrite Hc. reflexivity.
Qed.

Lemma quiet_db_request c : is_commit c = false -> stable quiet (db_request c).
Proof.
  intros Hc. unfold db_request.
  apply stable_bind; [exact quiet_trans | |].
  - apply quiet_emit. exact Hc.
  - intros _ s r s1 H. destruct (faults s) as [|[e|] rest];
      inversion H; subst; apply quiet_same_fields; reflexivity.
Qed.

Ltac quiet_steps :=
  repeat first
    [ exact quiet_refl | exact quiet_trans
    | apply stable_ret | apply stable_raise | apply stable_lift
    | apply quiet_db_request; reflexivity
    | apply quiet_emit; reflexivity
    | apply stable_bind; [exact quiet_trans | | intros ?]
    | apply stable_try_except; [exact quiet_trans | | intros ?]
    | apply stable_try_finally; [exact quiet_trans | | ] ].

Lemma quiet_connect : stable quiet psycopg2_connect.
Proof.
  unfold psycopg2_connect. quiet_steps.
  intros s r s1 H. inversion H. apply quiet_refl.
Qed.

Lemma quiet_rollback conn : stable quiet (rollback conn).
Proof. unfold rollback. quiet_steps. Qed.

Lemma quiet_close conn : stable quiet (close conn).
Proof. unfold close. quiet_steps. Qed.

Lemma quiet_insert_user svc conn columns values :
  stable quiet (execute_insert_user svc conn columns values).
Proof.
  unfold execute_insert_user. quiet_steps.
  intros s r s1 H.
  destruct (negb (forallb _ columns)); [inversion H; apply quiet_refl|].
  destruct (has_duplicate columns); [inversion H; apply quiet_refl|].
  destruct (existsb _ (users conn)); inversion H; subst;
    apply quiet_same_fields; reflexivity.
Qed.

Lemma quiet_insert_metadata conn row :
  stable quiet (execute_insert_metadata conn row).
Proof.
  unfold execute_insert_metadata. quiet_steps.
  destruct (existsb _ (users conn)); quiet_steps.
Qed.

Lemma quiet_insert_audit svc conn uid f l op by_ ip ok err :
  stable quiet (execute_insert_audit svc conn uid f l op by_ ip ok err).
Proof.
  unfold execute_insert_audit. quiet_steps.
  intros s r s1 H. inversion H; subst.
  apply quiet_same_fields; reflexivity.
Qed.

Lemma quiet_get_db_credentials svc : stable quiet (Pkg.get_db_credentials svc).
Proof.
  intros s r s1. unfold Pkg.get_db_credentials.
  destruct (db_credentials_cache s).
  - intros H. inversion H. apply quiet_refl.
  - unfold bind, emit, lift. simpl.
    destruct (get_secret_value svc Pkg.db_credentials_secret);
      intros H; inversion H; subst; (split; [split|]; simpl; try reflexivity);
      exists [GetSecretValue Pkg.db_credentials_secret]; split; reflexivity.
Qed.

Lemma quiet_get_db_connection svc : stable quiet (Pkg.get_db_connection svc).
Proof.
  unfold Pkg.get_db_connection.
  apply stable_bind; [exact quiet_trans | |].
  { apply quiet_get_db_credentials. }
  intros creds. quiet_steps.
  intros s r s1 H. inversion H. apply quiet_refl.
Qed.

(** An opened connection starts from the committed tables. *)
Lemma get_db_connection_ok svc s conn s1 :
  Pkg.get_db_connection svc s = (Ok conn, s1) -> conn = database s.
Proof.
  intros H. unfold Pkg.get_db_connection in H.
  apply bind_ok_inv in H. destruct H as (creds & sa & Hc & H).
  apply quiet_get_db_credentials in Hc. destruct Hc as ((Hdb & _) & _).
  repeat (apply bind_ok_inv in H; destruct H as (? & ? & Hl & H);
          apply lift_ok_inv in Hl; destruct Hl as [_ ->]).
  unfold psycopg2_connect in H.
  apply bind_ok_inv in H. destruct H as (u & sb & Hr & H).
  apply quiet_db_request in Hr; [|reflexivity]. destruct Hr as ((Hdb2 & _) & _).
  inversion H; subst. rewrite Hdb2. exact Hdb.
Qed.

(** ** [commit] *)

Lemma commit_ok conn s u s1 :
  commit conn s = (Ok u, s1) ->
  database s1 = conn
  /\ trace s1 = trace s ++ [DbCommit]
  /\ app_keys_cache s1 = app_keys_cache s.
Proof.
  unfold commit, db_request, bind, emit. simpl.
  destruct (faults s) as [|[e|] rest]; intros H; inversion H; subst; simpl;
    repeat split.
Qed.

Lemma commit_err conn s e s1 :
  commit conn s = (Err e, s1) ->
  database s1 = database s
  /\ app_keys_cache s1 = app_keys_cache s
  /\ trace s1 = trace s ++ [DbCommit].
Proof.
  unfold commit, db_request, bind, emit. simpl.
  destruct (faults s) as [|[e'|] rest]; intros H; inversion H; subst; simpl;
    repeat split.
Qed.

(** ** [store_encrypted_user] *)

Lemma existsb_id_false id (l : list user_row) :
  existsb (fun u => String.eqb (u_id u) id) l = false ->
  ~ In id (map u_id l).
Proof.
  induction l as [|u l IH]; simpl; intros H.
  - intros [].
  - apply orb_false_iff in H. destruct H as [H1 H2].
    intros [E|E].
    + rewrite E, String.eqb_refl in H1. discriminate.
    + exact (IH H2 E).
Qed.

Lemma execute_insert_user_ok svc conn columns values s conn1 row s1 :
  execute_insert_user svc conn columns values s = (Ok (conn1, row), s1) ->
  conn1 = mkTables (users conn ++ [row]) (encryption_metadata conn)
                   (encryption_audit conn)
  /\ u_cols row = combine columns values
  /\ ~ In (u_id row) (map u_id (users conn)).
Proof.
  unfold execute_insert_user. intros H.
  apply bind_ok_inv in H. destruct H as (u & sa & _ & H).
  destruct (negb (forallb _ columns)); [discriminate|].
  destruct (has_duplicate columns); [discriminate|].
  destruct (existsb _ (users conn)) eqn:E; [discriminate|].
  inversion H; subst. repeat split.
  apply existsb_id_false. exact E.
Qed.

Lemma combine_fst_snd {A B} (l : list (A * B)) :
  combine (map fst l) (map snd l) = l.
Proof.
  induction l as [|[a b] l IH]; simpl; [reflexivity | rewrite IH; reflexivity].
Qed.

Lemma insert_metadata_loop_ok user_id metadata :
  forall conn1 s conn2 s1,
    for_fold metadata conn1
      (fun cursor entry =>
         Pkg._insert_metadata cursor user_id (fst entry) (snd entry)) s
    = (Ok conn2, s1) ->
    conn2 = mkTables (users conn1)
                     (encryption_metadata conn1 ++ Pkg.metadata_rows_of user_id metadata)
                     (encryption_audit conn1).
Proof.
  induction metadata as [|entry metadata IH]; intros conn1 s conn2 s1 H; simpl in H.
  - inversion H; subst. simpl. rewrite app_nil_r. destruct conn2; reflexivity.
  - apply bind_ok_inv in H. destruct H as (c & sa & Hc & H).
    unfold Pkg._insert_metadata, execute_insert_metadata in Hc.
    apply bind_ok_inv in Hc. destruct Hc as (u & sb & _ & Hc).
    destruct (existsb _ (users conn1)); [|discriminate].
    inversion Hc; subst c sb; clear Hc.
    apply IH in H. subst conn2. simpl.
    rewrite <- app_assoc. reflexivity.
Qed.

Lemma quiet_insert_metadata_loop user_id metadata conn1 :
  stable quiet
    (for_fold metadata conn1
       (fun cursor entry =>
          Pkg._insert_metadata cursor user_id (fst entry) (snd entry))).
Proof.
  apply stable_for_fold; [exact quiet_refl | exact quiet_trans |].
  intros acc x. apply quiet_insert_metadata.
Qed.

(** What the body of [store_encrypted_user] does when it returns: the
    connection's copy, extended by one user row and one metadata row per
    metadata entry, has been committed by the single [commit]. *)
Lemma store_encrypted_user_body_ok svc conn ed s user_id s1 :
  Pkg.store_encrypted_user_body svc conn ed s = (Ok user_id, s1) ->
  exists row calls,
    u_id row = user_id
    /\ u_cols row = Pkg.insert_columns (Pkg.ed_fields ed)
    /\ ~ In user_id (map u_id (users conn))
    /\ database s1
       = mkTables (users conn ++ [row])
                  (encryption_metadata conn
                     ++ Pkg.metadata_rows_of user_id (Pkg.ed_metadata ed))
                  (encryption_audit conn)
    /\ trace s1 = trace s ++ calls ++ [DbCommit]
    /\ filter is_commit calls = []
    /\ app_keys_cache s1 = app_keys_cache s.
Proof.
  unfold Pkg.store_encrypted_user_body.
  destruct (Pkg.insert_columns (Pkg.ed_fields ed)) as [|kv inserts] eqn:Ecols;
    [discriminate|].
  intros H.
  apply bind_ok_inv in H. destruct H as ([conn1 row] & sa & Hi & H).
  pose proof (quiet_insert_user _ _ _ _ _ _ _ Hi) as ((Hd1 & c1 & Ht1 & Hf1) & Hk1).
  apply execute_insert_user_ok in Hi. destruct Hi as (-> & Hcols & Hfresh).
  apply bind_ok_inv in H. destruct H as (conn2 & sb & Hm & H).
  pose proof (quiet_insert_metadata_loop _ _ _ _ _ _ Hm)
    as ((Hd2 & c2 & Ht2 & Hf2) & Hk2).
  apply insert_metadata_loop_ok in Hm. subst conn2. simpl in *.
  apply bind_ok_inv in H. destruct H as (u & sc & Hc & H).
  apply commit_ok in Hc. destruct Hc as (Hdb & Htr & Hk3).
  inversion H; subst user_id s1; clear H.
  exists row, (c1 ++ c2). repeat split.
  - rewrite Hcols. exact (combine_fst_snd (kv :: inserts)).
  - exact Hfresh.
  - exact Hdb.
  - rewrite Htr, Ht2, Ht1, <- !app_assoc. reflexivity.
  - rewrite filter_app, Hf1, Hf2. reflexivity.
  - rewrite Hk3, Hk2, Hk1. reflexivity.
Qed.

Lemma store_encrypted_user_body_err svc conn ed s e s1 :
  Pkg.store_encrypted_user_body svc conn ed s = (Err e, s1) ->
  database s1 = database s
  /\ app_keys_cache s1 = app_keys_cache s
  /\ exists calls, trace s1 = trace s ++ calls.
Proof.
  unfold Pkg.store_encrypted_user_body.
  destruct (Pkg.insert_columns (Pkg.ed_fields ed)) as [|kv inserts].
  { intros H. inversion H. repeat split. exists []. rewrite app_nil_r. reflexivity. }
  intros H.
  apply bind_err_inv in H. destruct H as [H|([conn1 row] & sa & Hi & H)].
  { apply quiet_insert_user in H. destruct H as ((Hd & c & Ht & _) & Hk).
    repeat split; try assumption. exists c. exact Ht. }
  apply quiet_insert_user in Hi. destruct Hi as ((Hd1 & c1 & Ht1 & _) & Hk1).
  apply bind_err_inv in H. destruct H as [H|(conn2 & sb & Hm & H)].
  { apply quiet_insert_metadata_loop in H. destruct H as ((Hd & c & Ht & _) & Hk).
    repeat split; try congruence.
    exists (c1 ++ c). rewrite Ht, Ht1, app_assoc. reflexivity. }
  apply quiet_insert_metadata_loop in Hm. destruct Hm as ((Hd2 & c2 & Ht2 & _) & Hk2).
  apply bind_err_inv in H. destruct H as [H|(u & sc & _ & H)].
  - apply commit_err in H. destruct H as (Hd & Hk & Ht).
    repeat split; try congruence.
    exists (c1 ++ c2 ++ [DbCommit]).
    rewrite Ht, Ht2, Ht1, <- !app_assoc. reflexivity.
  - discriminate.
Qed.

Lemma close_run conn s : close conn s = (Ok tt, set_trace (trace s ++ [DbClose]) s).
Proof. reflexivity. Qed.

(** A successful [store_encrypted_user]: one new user row, one metadata row
    per metadata entry, published by exactly one [commit]. *)
Lemma store_encrypted_user_ok svc ed s user_id s1 :
  Pkg.store_encrypted_user svc ed s = (Ok user_id, s1) ->
  exists row before,
    u_id row = user_id
    /\ u_cols row = Pkg.insert_columns (Pkg.ed_fields ed)
    /\ ~ In user_id (map u_id (users (database s)))
    /\ database s1
       = mkTables (users (database s) ++ [row])
                  (encryption_metadata (database s)
                     ++ Pkg.metadata_rows_of user_id (Pkg.ed_metadata ed))
                  (encryption_audit (database s))
    /\ trace s1 = trace s ++ before ++ [DbCommit; DbClose]
    /\ filter is_commit before = []
    /\ app_keys_cache s1 = app_keys_cache s.
Proof.
  unfold Pkg.store_encrypted_user, Pkg.get_connection.
  destruct (Pkg.get_db_connection svc s) as [[conn|e] sa] eqn:Hc; [|discriminate].
  pose proof (get_db_connection_ok _ _ _ _ Hc) as ->.
  apply quiet_get_db_connection in Hc. destruct Hc as ((Hd0 & c0 & Ht0 & Hf0) & Hk0).
  unfold try_finally, try_except.
  destruct (Pkg.store_encrypted_user_body svc (database s) ed sa)
    as [[uid|e] sb] eqn:Hb.
  - rewrite close_run. intros H. inversion H; subst uid s1; clear H.
    apply store_encrypted_user_body_ok in Hb.
    destruct Hb as (row & calls & H1 & H2 & H3 & H4 & H5 & H6 & H7).
    exists row, (c0 ++ calls). simpl. repeat split; try assumption.
    + rewrite H5, Ht0, <- !app_assoc. reflexivity.
    + rewrite filter_app, Hf0, H6. reflexivity.
    + rewrite H7. exact Hk0.
  - destruct ((rollback (database s);;; raise e)%py sb) as [[u|e'] sc] eqn:Hr.
    + unfold bind, raise in Hr. destruct (rollback (database s) sb) as [[?|?] ?];
        discriminate.
    + rewrite close_run. discriminate.
Qed.

(** A failed [store_encrypted_user] commits nothing; unless the connection
    could not be opened, its last two calls are [rollback] and [close]. *)
Lemma store_encrypted_user_err svc ed s e s1 :
  Pkg.store_encrypted_user svc ed s = (Err e, s1) ->
  database s1 = database s
  /\ app_keys_cache s1 = app_keys_cache s
  /\ (Pkg.get_connection svc s = (Err e, s1)
      \/ exists calls, trace s1 = trace s ++ calls ++ [DbRollback; DbClose]).
Proof.
  unfold Pkg.store_encrypted_user, Pkg.get_connection.
  destruct (Pkg.get_db_connection svc s) as [[conn|e0] sa] eqn:Hc.
  2:{ intros H. inversion H; subst e0 sa.
      apply quiet_get_db_connection in Hc. destruct Hc as ((Hd & _) & Hk).
      repeat split; try assumption. left. reflexivity. }
  apply quiet_get_db_connection in Hc. destruct Hc as ((Hd0 & c0 & Ht0 & _) & Hk0).
  unfold try_finally, try_except.
  destruct (Pkg.store_encrypted_user_body svc conn ed sa) as [[uid|e1] sb] eqn:Hb.
  { rewrite close_run. discriminate. }
  apply store_encrypted_user_body_err in Hb. destruct Hb as (Hd1 & Hk1 & c1 & Ht1).
  destruct ((rollback conn;;; raise e1)%py sb) as [r sc] eqn:Hr.
  assert (Hq : database sc = database sb /\ app_keys_cache sc = app_keys_cache sb
               /\ trace sc = trace sb ++ [DbRollback]).
  { unfold rollback, db_request, bind, raise, emit in Hr. simpl in Hr.
    destruct (faults sb) as [|[e'|] rest]; inversion Hr; subst; simpl;
      repeat split. }
  destruct Hq as (Hd2 & Hk2 & Ht2).
  rewrite close_run. intros H.
  assert (Hs : s1 = set_trace (trace sc ++ [DbClose]) sc).
  { destruct r; inversion H; reflexivity. }
  subst s1. simpl. repeat split; try congruence.
  right. exists (c0 ++ c1).
  rewrite Ht2, Ht1, Ht0, <- !app_assoc. reflexivity.
Qed.


(** ** The column allowlist of [store_encrypted_user] *)

Lemma dict_get_in {V} (d : list (string * V)) k v :
  dict_get d k = Some v -> In (k, v) d.
Proof.
  induction d as [|[k' v'] d IH]; simpl; [discriminate|].
  destruct (String.eqb k' k) eqn:E.
  - intros H. inversion H; subst. apply String.eqb_eq in E. subst. left. reflexivity.
  - intros H. right. exact (IH H).
Qed.

Lemma insert_columns_cons f v fields :
  Pkg.insert_columns ((f, v) :: fields)
  = match dict_get Pkg.field_mapping f with
    | Some db_column =>
        if is_none v then Pkg.insert_columns fields
        else (db_column, v) :: Pkg.insert_columns fields
    | None => Pkg.insert_columns fields
    end.
Proof. reflexivity. Qed.

Lemma insert_columns_in fields column value :
  In (column, value) (Pkg.insert_columns fields) ->
  exists field,
    In (field, value) fields
    /\ dict_get Pkg.field_mapping field = Some column
    /\ value <> VNone.
Proof.
  induction fields as [|[f v] fields IH]; [intros []|].
  rewrite insert_columns_cons.
  assert (Hrest : In (column, value) (Pkg.insert_columns fields) ->
                  exists field,
                    In (field, value) ((f, v) :: fields)
                    /\ dict_get Pkg.field_mapping field = Some column
                    /\ value <> VNone).
  { intros H. destruct (IH H) as (f' & H1 & H2 & H3).
    exists f'. repeat split; try assumption. right. exact H1. }
  destruct (dict_get Pkg.field_mapping f) as [c|] eqn:E; [|exact Hrest].
  destruct (is_none v) eqn:N; [exact Hrest|].
  intros [H|H]; [|exact (Hrest H)].
  inversion H; subst. exists f. repeat split; try assumption.
  - left. reflexivity.
  - intros ->. discriminate N.
Qed.

Lemma insert_columns_filter fields :
  Pkg.insert_columns
    (filter (fun kv : string * pyval => dict_mem Pkg.field_mapping (fst kv)) fields)
  = Pkg.insert_columns fields.
Proof.
  induction fields as [|[f v] fields IH]; [reflexivity|].
  cbn [filter fst]. unfold dict_mem at 1.
  destruct (dict_get Pkg.field_mapping f) as [c|] eqn:E.
  - rewrite !insert_columns_cons, E, IH. reflexivity.
  - rewrite insert_columns_cons, E. exact IH.
Qed.

Lemma insert_columns_none fields :
  (forall field value,
      In (field, value) fields -> dict_get Pkg.field_mapping field = None) ->
  Pkg.insert_columns fields = [].
Proof.
  induction fields as [|[f v] fields IH]; intros H; [reflexivity|].
  rewrite insert_columns_cons, (H f v (or_introl eq_refl)).
  apply IH. intros f' v' Hin. apply (H f' v'). right. exact Hin.
Qed.

Lemma db_request_no_fault c s :
  faults s = [] ->
  db_request c s = (Ok tt, set_trace (trace s ++ [c]) s).
Proof.
  intros H. unfold db_request, bind, emit. simpl. rewrite H. reflexivity.
Qed.

Lemma get_db_connection_faults svc s conn s1 :
  Pkg.get_db_connection svc s = (Ok conn, s1) -> faults s = [] -> faults s1 = [].
Proof.
  intros H Hf. unfold Pkg.get_db_connection in H.
  apply bind_ok_inv in H. destruct H as (creds & sa & Hc & H).
  assert (Hfa : faults sa = []).
  { unfold Pkg.get_db_credentials in Hc. destruct (db_credentials_cache s).
    - inversion Hc; subst. exact Hf.
    - unfold bind, emit, lift in Hc. simpl in Hc.
      destruct (get_secret_value svc Pkg.db_credentials_secret);
        inversion Hc; subst. exact Hf. }
  repeat (apply bind_ok_inv in H; destruct H as (? & ? & Hl & H);
          apply lift_ok_inv in Hl; destruct Hl as [_ ->]).
  unfold psycopg2_connect in H. unfold bind in H.
  rewrite (db_request_no_fault _ _ Hfa) in H. inversion H; subst. exact Hfa.
Qed.

(** C10. [store_encrypted_user] writes a user row made only of columns of
    its static [field_mapping], each taken from an input field that is a key
    of the mapping and whose value is not [None]; the input fields that are
    not keys of the mapping have no influence at all on the run (they are
    dropped without an error); and when no input field is a key of the
    mapping the call raises and commits nothing: the error is
    [ValueError("No valid fields to insert")] whenever the connection opens
    and the database answers the rollback. *)
Theorem store_encrypted_user_allowlist :
  forall (svc : services) (ed : Pkg.encrypted_data) (s : state),
    Pkg.store_encrypted_user svc ed s
    = Pkg.store_encrypted_user svc
        (Pkg.mkEncrypted
           (filter (fun kv : string * pyval =>
                      dict_mem Pkg.field_mapping (fst kv)) (Pkg.ed_fields ed))
           (Pkg.ed_metadata ed)) s
    /\ (forall user_id s1,
           Pkg.store_encrypted_user svc ed s = (Ok user_id, s1) ->
           exists row,
             users (database s1) = users (database s) ++ [row]
             /\ u_id row = user_id
             /\ forall column value,
                 In (column, value) (u_cols row) ->
                 In column (map snd Pkg.field_mapping)
                 /\ value <> VNone
                 /\ exists field,
                     In (field, value) (Pkg.ed_fields ed)
                     /\ dict_get Pkg.field_mapping field = Some column)
    /\ ((forall field value,
            In (field, value) (Pkg.ed_fields ed) ->
            dict_get Pkg.field_mapping field = None) ->
        exists e s1,
          Pkg.store_encrypted_user svc ed s = (Err e, s1)
          /\ database s1 = database s
          /\ (forall conn sa,
                 Pkg.get_connection svc s = (Ok conn, sa) ->
                 faults s = [] ->
                 e = ValueError "No valid fields to insert")).
Proof.
  intros svc ed s. split; [|split].
  - unfold Pkg.store_encrypted_user, Pkg.store_encrypted_user_body. simpl.
    rewrite insert_columns_filter. reflexivity.
  - intros user_id s1 H. apply store_encrypted_user_ok in H.
    destruct H as (row & before & H1 & H2 & _ & H4 & _).
    exists row. rewrite H4. simpl. repeat split; try assumption.
    + rewrite H2 in H. apply insert_columns_in in H.
      destruct H as (f & _ & Hm & _).
      apply dict_get_in in Hm. apply (in_map snd) in Hm. exact Hm.
    + rewrite H2 in H. apply insert_columns_in in H.
      destruct H as (f & _ & _ & Hn). exact Hn.
    + rewrite H2 in H. apply insert_columns_in in H.
      destruct H as (f & Hin & Hm & _). exists f. split; assumption.
  - intros Hnone. apply insert_columns_none in Hnone.
    destruct (Pkg.store_encrypted_user svc ed s) as [[uid|e] s1] eqn:H.
    + exfalso. revert H.
      unfold Pkg.store_encrypted_user, Pkg.store_encrypted_user_body.
      rewrite Hnone.
      destruct (Pkg.get_connection svc s) as [[conn|e] sa]; [|discriminate].
      unfold try_finally, try_except, raise, bind, rollback.
      destruct (db_request DbRollback sa) as [[u|e] sb]; rewrite close_run;
        discriminate.
    + exists e, s1. split; [reflexivity|].
      pose proof (store_encrypted_user_err _ _ _ _ _ H) as (Hd & _ & _).
      split; [exact Hd|].
      intros conn sa Hc Hf. revert H.
      unfold Pkg.store_encrypted_user, Pkg.store_encrypted_user_body.
      rewrite Hnone, Hc.
      pose proof (get_db_connection_faults _ _ _ _ Hc Hf) as Hfa.
      unfold try_finally, try_except, raise, bind, rollback.
      rewrite (db_request_no_fault _ _ Hfa), close_run.
      intros H. inversion H. reflexivity.
Qed.

Lemma store_encrypted_user_allowlist_witness :
  exists e s1,
    Pkg.store_encrypted_user Demo.env
      (Pkg.mkEncrypted [("city_encrypted", VStr "S1Bhcmlz")] []) Demo.start
    = (Err e, s1)
    /\ database s1 = database Demo.start
    /\ (forall conn sa,
           Pkg.get_connection Demo.env Demo.start = (Ok conn, sa) ->
           faults Demo.start = [] ->
           e = ValueError "No valid fields to insert").
Proof.
  apply (store_encrypted_user_allowlist Demo.env
           (Pkg.mkEncrypted [("city_encrypted", VStr "S1Bhcmlz")] []) Demo.start).
  intros field value [H|[]]. inversion H. reflexivity.
Defined.

(** ** The dispatcher *)

(** C7 (as the package dispatcher behaves).  [lambda_handler] always returns
    an envelope.  Whatever exception the dispatch raises becomes the
    envelope with status 500 whose body carries the message and the type
    name of the exception and [success = False]; an operation tag that is
    not one of the known operations is such an exception, a [ValueError]
    with message ["Unknown operation: <tag>"], so it is answered with status
    500 as well (not with a 4xx status); so is a missing or empty tag, with
    message ["Missing 'operation' in event"]. *)
Theorem lambda_handler_converts_exceptions :
  forall (svc : services) (event : dict) (s : state),
    (forall e s1,
        Pkg.dispatch svc event s = (Err e, s1) ->
        Pkg.lambda_handler svc event s
        = (mkResponse 500 (VDict [("error", VStr (exn_msg e));
                                  ("type", VStr (exn_type e));
                                  ("success", VBool false)]), s1))
    /\ (let operation := dict_get_or event "operation" VNone in
        py_truthy operation = true ->
        forallb (fun known => negb (py_eq_str operation known))
                Pkg.known_operations = true ->
        fst (Pkg.lambda_handler svc event s)
        = mkResponse 500
            (VDict [("error", VStr ("Unknown operation: " ++ py_str svc operation));
                    ("type", VStr "ValueError");
                    ("success", VBool false)]))
    /\ (py_truthy (dict_get_or event "operation" VNone) = false ->
        fst (Pkg.lambda_handler svc event s)
        = mkResponse 500
            (VDict [("error", VStr "Missing 'operation' in event");
                    ("type", VStr "ValueError");
                    ("success", VBool false)])).
Proof.
  intros svc event s. split; [|split].
  - intros e s1 H. unfold Pkg.lambda_handler. rewrite H. reflexivity.
  - intros operation Htruthy Hunknown.
    unfold Pkg.known_operations in Hunknown. cbn [forallb] in Hunknown.
    repeat (apply andb_true_iff in Hunknown; destruct Hunknown as [?H Hunknown]).
    repeat match goal with
           | H : negb _ = true |- _ => apply negb_true_iff in H
           end.
    unfold Pkg.lambda_handler, Pkg.dispatch, bind, Pkg.EncryptionHandler.
    fold operation. rewrite Htruthy. cbn [negb].
    repeat match goal with
           | H : py_eq_str operation _ = false |- _ => rewrite H; clear H
           end.
    reflexivity.
  - intros Hfalsy.
    unfold Pkg.lambda_handler, Pkg.dispatch, bind, Pkg.EncryptionHandler.
    rewrite Hfalsy. reflexivity.
Qed.

Lemma lambda_handler_converts_exceptions_witness :
  fst (Pkg.lambda_handler Demo.env [("operation", VStr "invalid_operation")]
                          Demo.start)
  = mkResponse 500
      (VDict [("error", VStr ("Unknown operation: "
                              ++ py_str Demo.env (VStr "invalid_operation")));
              ("type", VStr "ValueError");
              ("success", VBool false)]).
Proof.
  apply (lambda_handler_converts_exceptions Demo.env
           [("operation", VStr "invalid_operation")] Demo.start).
  - reflexivity.
  - reflexivity.
Defined.

(** The repository's own test expects this: an unknown operation is
    answered with status 500, outside the 4xx range. *)
Lemma unknown_operation_is_a_server_error :
  let r := fst (Pkg.lambda_handler Demo.env
                  [("operation", VStr "invalid_operation")] Demo.start) in
  statusCode r = 500%Z
  /\ ~ (400 <= statusCode r < 500)%Z
  /\ py_getitem (body r) "type" = Ok (VStr "ValueError").
Proof.
  cbv zeta. split; [reflexivity|]. split; [|reflexivity].
  change (statusCode _) with 500%Z. lia.
Qed.

(** The generated handler answers an unknown operation with status 400. *)
Example generated_unknown_operation_is_a_client_error :
  statusCode (fst (Generated.lambda_handler Demo.env
                     [("operation", VStr "invalid_operation")] Demo.start))
  = 400%Z.
Proof. reflexivity. Qed.

(** ** Dicts *)

Lemma dict_set_keys {V} (d : list (string * V)) k v k' :
  In k' (dict_keys (dict_set d k v)) <-> k' = k \/ In k' (dict_keys d).
Proof.
  induction d as [|[k0 v0] d IH]; simpl.
  - split; [intros [H|[]]; left; symmetry; exact H | intros [H|[]]; left; symmetry; exact H].
  - destruct (String.eqb k0 k) eqn:E; simpl.
    + apply String.eqb_eq in E. subst k0. split.
      * intros [H|H]; [left; symmetry; exact H | right; right; exact H].
      * intros [H|[H|H]]; [left; symmetry; exact H | left; exact H | right; exact H].
    + rewrite IH. split.
      * intros [H|[H|H]]; [right; left; exact H | left; exact H | right; right; exact H].
      * intros [H|[H|H]]; [right; left; exact H | left; exact H | right; right; exact H].
Qed.

Lemma dict_set_NoDup {V} (d : list (string * V)) k v :
  NoDup (dict_keys d) -> NoDup (dict_keys (dict_set d k v)).
Proof.
  induction d as [|[k0 v0] d IH]; simpl; intros H.
  - constructor; [intros [] | constructor].
  - inversion H as [|? ? Hnot Hnd]; subst.
    destruct (String.eqb k0 k) eqn:E; simpl.
    + constructor; assumption.
    + constructor; [|exact (IH Hnd)].
      intros Hin. apply dict_set_keys in Hin. destruct Hin as [Hin|Hin].
      * subst k0. rewrite String.eqb_refl in E. discriminate.
      * exact (Hnot Hin).
Qed.

Lemma dict_set_Forall {V} (P : string * V -> Prop) (d : list (string * V)) k v :
  (forall k0, P (k0, v)) -> Forall P d -> Forall P (dict_set d k v).
Proof.
  intros Hv. induction d as [|[k0 v0] d IH]; simpl; intros H.
  - constructor; [apply Hv | constructor].
  - inversion H; subst. destruct (String.eqb k0 k).
    + constructor; [apply Hv | assumption].
    + constructor; [assumption | apply IH; assumption].
Qed.

(** ** The engine commits nothing *)

Lemma uncommitted_emit c : is_commit c = false -> stable uncommitted (emit c).
Proof. intros H. apply quiet_uncommitted, quiet_emit. exact H. Qed.

Lemma uncommitted_get_app_keys svc : stable uncommitted (Pkg.get_app_keys svc).
Proof.
  intros s r s1. unfold Pkg.get_app_keys.
  destruct (app_keys_cache s).
  - intros H. inversion H. apply uncommitted_refl.
  - unfold bind, emit, lift. simpl.
    destruct (get_secret_value svc Pkg.app_keys_secret) as [secret|e].
    + destruct (py_getitem secret "app_encryption_keys");
        intros H; inversion H; subst; (split; [reflexivity|]);
        exists [GetSecretValue Pkg.app_keys_secret]; split; reflexivity.
    + intros H; inversion H; subst; (split; [reflexivity|]);
        exists [GetSecretValue Pkg.app_keys_secret]; split; reflexivity.
Qed.

Ltac uncommitted_steps :=
  repeat first
    [ exact uncommitted_refl | exact uncommitted_trans
    | apply stable_ret | apply stable_raise | apply stable_lift
    | apply uncommitted_emit; reflexivity
    | apply uncommitted_get_app_keys
    | apply stable_bind; [exact uncommitted_trans | | intros ?]
    | apply stable_try_except; [exact uncommitted_trans | | intros ?]
    | apply stable_try_finally; [exact uncommitted_trans | | ] ].

Lemma uncommitted_str_encode svc v : stable uncommitted (Pkg.str_encode svc v).
Proof. destruct v; simpl; uncommitted_steps. Qed.

Lemma uncommitted_Fernet svc key : stable uncommitted (Pkg.Fernet svc key).
Proof. unfold Pkg.Fernet. destruct (fernet_key_ok svc key); uncommitted_steps. Qed.

Lemma uncommitted_encrypt_field svc name value :
  stable uncommitted (Pkg.encrypt_field svc name value).
Proof.
  unfold Pkg.encrypt_field.
  destruct (is_none_or_empty value); [uncommitted_steps|].
  cbv zeta.
  destruct (Pkg.level (Pkg.get_encryption_requirements name) =? 1)%Z;
    [uncommitted_steps|].
  destruct (Pkg.level (Pkg.get_encryption_requirements name) =? 2)%Z.
  { unfold Pkg.kms_encrypt_call. uncommitted_steps. apply uncommitted_str_encode. }
  destruct (Pkg.level (Pkg.get_encryption_requirements name) =? 3)%Z;
    [|uncommitted_steps].
  unfold Pkg.get_current_app_cipher, Pkg.cipher_encrypt, Pkg.kms_encrypt_call.
  uncommitted_steps;
    first [apply uncommitted_str_encode | apply uncommitted_Fernet].
Qed.

Lemma uncommitted_py_get v k : stable uncommitted (Pkg.py_get v k).
Proof. destruct v; simpl; uncommitted_steps. Qed.

Lemma uncommitted_encrypt_entry svc acc entry :
  stable uncommitted (Pkg.encrypt_entry svc acc entry).
Proof.
  unfold Pkg.encrypt_entry. destruct entry as [f v].
  destruct (is_none v); [uncommitted_steps|].
  apply stable_bind; [exact uncommitted_trans | apply uncommitted_encrypt_field |].
  intros result.
  apply stable_bind; [exact uncommitted_trans | apply stable_lift; exact uncommitted_refl |].
  intros l. destruct (py_eq_int l 1); uncommitted_steps; apply uncommitted_py_get.
Qed.

(** ** The levels [encrypt_field] returns *)

Lemma classify_range name :
  Pkg.classify_pii_level name = 1%Z
  \/ Pkg.classify_pii_level name = 2%Z
  \/ Pkg.classify_pii_level name = 3%Z.
Proof.
  unfold Pkg.classify_pii_level, Pkg.PII_LEVEL_MAPPING, Pkg.lookup_level.
  repeat match goal with
         | |- context [if ?b then _ else _] => destruct b
         end; auto.
Qed.

Lemma encrypt_field_returns svc name text s r s1 :
  Pkg.encrypt_field svc name (VStr text) s = (Ok r, s1) ->
  exists d value,
    r = VDict d
    /\ dict_get d "level"
       = Some (VInt (if String.eqb text "" then 1 else Pkg.classify_pii_level name))
    /\ dict_get d "value" = Some value
    /\ (String.eqb text "" = false ->
        exists method, dict_get d "method" = Some method).
Proof.
  destruct (String.eqb text "") eqn:E.
  - apply String.eqb_eq in E. subst text. intros H. inversion H; subst.
    eexists. eexists. repeat split. discriminate.
  - apply String.eqb_neq in E.
    destruct (classify_range name) as [Hl|[Hl|Hl]]; rewrite Hl.
    + unfold Pkg.encrypt_field.
      change (is_none_or_empty (VStr text)) with (String.eqb text "").
      rewrite (string_eqb_empty_false _ E), (classify_level _ _ Hl). simpl.
      intros H. inversion H; subst.
      eexists. eexists. repeat split. intros _. eexists. reflexivity.
    + intros H. apply encrypt_field_level2_ok in H; try assumption.
      destruct H as (pt & blob & _ & _ & -> & _).
      eexists. eexists. repeat split. intros _. eexists. reflexivity.
    + intros H. apply encrypt_field_level3_ok in H; try assumption.
      destruct H as (? & ? & ? & ? & ? & ? & ? & _ & _ & _ & _ & _ & _ & _ & -> & _).
      eexists. eexists. repeat split. intros _. eexists. reflexivity.
Qed.

(** ** Which fields get a metadata entry *)

Lemma py_get_ok v k x s s1 :
  Pkg.py_get v k s = (Ok x, s1) -> s1 = s.
Proof. destruct v; simpl; intros H; inversion H; reflexivity. Qed.

Lemma encrypt_entry_metadata svc acc f v s acc' s1 :
  Pkg.encrypt_entry svc acc (f, v) s = (Ok acc', s1) ->
  (is_none v = true /\ acc' = acc)
  \/ (is_none v = false /\ Pkg.recorded_level svc f v = 1%Z
      /\ Pkg.ed_metadata acc' = Pkg.ed_metadata acc)
  \/ (is_none v = false /\ (2 <= Pkg.recorded_level svc f v)%Z
      /\ exists md,
           Pkg.ed_metadata acc' = dict_set (Pkg.ed_metadata acc) f md
           /\ Pkg.records_level_2_or_3 (f, md)).
Proof.
  unfold Pkg.encrypt_entry. destruct (is_none v) eqn:N.
  { intros H. inversion H. left. split; reflexivity. }
  intros H. right.
  apply bind_ok_inv in H. destruct H as (result & sa & He & H).
  apply encrypt_field_returns in He.
  destruct He as (d & value & -> & Hlevel & Hvalue & Hmethod).
  apply bind_ok_inv in H. destruct H as (l & sb & Hl & H).
  apply lift_ok_inv in Hl. destruct Hl as [Hl ->].
  simpl in Hl. rewrite Hlevel in Hl. inversion Hl; subst l; clear Hl.
  unfold Pkg.recorded_level.
  destruct (String.eqb (py_str svc v) "") eqn:E.
  - left. simpl in H.
    apply bind_ok_inv in H. destruct H as (x & sc & _ & H).
    inversion H; subst. repeat split.
  - destruct (classify_range f) as [C|[C|C]]; rewrite C in *; simpl in H.
    + left.
      apply bind_ok_inv in H. destruct H as (x & sc & _ & H).
      inversion H; subst. repeat split.
    + right. split; [reflexivity|]. split; [lia|].
      apply bind_ok_inv in H. destruct H as (x1 & sc & _ & H).
      apply bind_ok_inv in H. destruct H as (x2 & sd & _ & H).
      apply bind_ok_inv in H. destruct H as (x3 & se & _ & H).
      apply bind_ok_inv in H. destruct H as (x4 & sf & _ & H).
      inversion H; subst. simpl. eexists. split; [reflexivity|].
      left. reflexivity.
    + right. split; [reflexivity|]. split; [lia|].
      apply bind_ok_inv in H. destruct H as (x1 & sc & _ & H).
      apply bind_ok_inv in H. destruct H as (x2 & sd & _ & H).
      apply bind_ok_inv in H. destruct H as (x3 & se & _ & H).
      apply bind_ok_inv in H. destruct H as (x4 & sf & _ & H).
      inversion H; subst. simpl. eexists. split; [reflexivity|].
      right. reflexivity.
Qed.

(** After the encryption loop the metadata has one entry, of level 2 or 3,
    for exactly the fields that want one. *)
Lemma encrypt_loop_metadata svc items :
  forall acc s er s1,
    for_fold items acc (Pkg.encrypt_entry svc) s = (Ok er, s1) ->
    NoDup (dict_keys (Pkg.ed_metadata acc)) ->
    Forall Pkg.records_level_2_or_3 (Pkg.ed_metadata acc) ->
    NoDup (dict_keys (Pkg.ed_metadata er))
    /\ Forall Pkg.records_level_2_or_3 (Pkg.ed_metadata er)
    /\ forall f,
         In f (dict_keys (Pkg.ed_metadata er))
         <-> In f (dict_keys (Pkg.ed_metadata acc)) \/ Pkg.wants_metadata svc items f.
Proof.
  induction items as [|[f0 v0] items IH]; intros acc s er s1 H Hnd Hall.
  - simpl in H. inversion H; subst. repeat split; try assumption.
    + intros Hin. left. exact Hin.
    + intros [Hin|(v & [] & _)]. exact Hin.
  - simpl in H. apply bind_ok_inv in H. destruct H as (acc' & sa & He & H).
    apply encrypt_entry_metadata in He.
    assert (Hstep :
      NoDup (dict_keys (Pkg.ed_metadata acc'))
      /\ Forall Pkg.records_level_2_or_3 (Pkg.ed_metadata acc')
      /\ forall f, In f (dict_keys (Pkg.ed_metadata acc'))
                   <-> In f (dict_keys (Pkg.ed_metadata acc))
                       \/ (f = f0 /\ is_none v0 = false
                           /\ (2 <= Pkg.recorded_level svc f0 v0)%Z)).
    { destruct He as [(N & ->)|[(N & L & E)|(N & L & md & E & Hmd)]].
      - repeat split; try assumption; [intros Hin; left; exact Hin|].
        intros [Hin|(_ & N' & _)]; [exact Hin | congruence].
      - rewrite E. repeat split; try assumption; [intros Hin; left; exact Hin|].
        intros [Hin|(_ & _ & L')]; [exact Hin | lia].
      - rewrite E. repeat split.
        + apply dict_set_NoDup. exact Hnd.
        + apply dict_set_Forall; [intros k0; exact Hmd | exact Hall].
        + intros Hin. apply dict_set_keys in Hin. destruct Hin as [->|Hin].
          * right. repeat split; assumption.
          * left. exact Hin.
        + intros [Hin|(-> & _)]; apply dict_set_keys; [right; exact Hin | left; reflexivity]. }
    destruct Hstep as (Hnd' & Hall' & Hkeys').
    destruct (IH _ _ _ _ H Hnd' Hall') as (Hnd2 & Hall2 & Hkeys2).
    repeat split; try assumption.
    + intros Hin. apply Hkeys2 in Hin. destruct Hin as [Hin|(v & Hv & N & L)].
      * apply Hkeys' in Hin. destruct Hin as [Hin|(-> & N & L)].
        { left. exact Hin. }
        { right. exists v0. repeat split; try assumption. left. reflexivity. }
      * right. exists v. repeat split; try assumption. right. exact Hv.
    + intros [Hin|(v & [Hv|Hv] & N & L)]; apply Hkeys2.
      * left. apply Hkeys'. left. exact Hin.
      * inversion Hv; subst. left. apply Hkeys'. right. repeat split; assumption.
      * right. exists v. repeat split; assumption.
Qed.

(** ** The audit logger *)

Lemma quiet_same_engine s s1 : quiet s s1 -> same_engine s s1.
Proof.
  intros ((Hd & _) & Hk). unfold same_engine. rewrite Hd. repeat split. exact Hk.
Qed.

Lemma execute_insert_audit_ok svc conn uid f l op by_ ip ok err s conn1 s1 :
  execute_insert_audit svc conn uid f l op by_ ip ok err s = (Ok conn1, s1) ->
  users conn1 = users conn
  /\ encryption_metadata conn1 = encryption_metadata conn.
Proof.
  unfold execute_insert_audit. intros H.
  apply bind_ok_inv in H. destruct H as (u & sa & _ & H).
  inversion H; subst. split; reflexivity.
Qed.

(** [log_audit] returns normally from every state, whatever the database
    answers, and touches neither the key cache nor the users and their
    metadata. *)
Lemma log_audit_run svc user_id field_name operation success error ip s :
  exists s1,
    Pkg.log_audit svc user_id field_name operation success error ip s = (Ok tt, s1)
    /\ same_engine s s1.
Proof.
  unfold Pkg.log_audit.
  destruct (Pkg.get_db_connection svc s) as [[conn|e] sa] eqn:Hc.
  2:{ exists sa. split; [reflexivity|].
      apply quiet_same_engine. exact (quiet_get_db_connection _ _ _ _ Hc). }
  pose proof (get_db_connection_ok _ _ _ _ Hc) as ->.
  apply quiet_get_db_connection, quiet_same_engine in Hc.
  unfold try_finally, try_except, bind.
  destruct (execute_insert_audit svc (database s) user_id field_name
              (Pkg.classify_pii_level field_name) operation
              "lambda-encryption-service" ip success error sa)
    as [[conn1|e] sb] eqn:Hi.
  - pose proof (quiet_same_engine _ _ (quiet_insert_audit _ _ _ _ _ _ _ _ _ _ _ _ _ Hi))
      as Hq.
    apply execute_insert_audit_ok in Hi. destruct Hi as (Hu & Hm).
    destruct (commit conn1 sb) as [[[]|e] sc] eqn:Hco.
    + rewrite close_run. eexists. split; [reflexivity|].
      apply commit_ok in Hco. destruct Hco as (Hdb & _ & Hk).
      destruct Hc as (K1 & _ & _). destruct Hq as (K2 & _ & _).
      unfold same_engine. simpl. rewrite Hdb, Hu, Hm. repeat split. congruence.
    + unfold ret. rewrite close_run. eexists. split; [reflexivity|].
      apply commit_err in Hco. destruct Hco as (Hdb & Hk & _).
      eapply same_engine_trans; [exact Hc|].
      eapply same_engine_trans; [exact Hq|].
      unfold same_engine. simpl. rewrite Hdb. repeat split. exact Hk.
  - unfold ret. rewrite close_run. eexists. split; [reflexivity|].
    pose proof (quiet_same_engine _ _ (quiet_insert_audit _ _ _ _ _ _ _ _ _ _ _ _ _ Hi))
      as Hq.
    eapply same_engine_trans; [exact Hc|].
    eapply same_engine_trans; [exact Hq|].
    repeat split.
Qed.

Lemma audit_loop_run svc user_id operation fields :
  forall s, exists s1,
    for_each fields
      (fun field_name =>
         try_except
           (Pkg.log_audit svc user_id field_name operation true VNone VNone)
           (fun _ => ret tt)) s = (Ok tt, s1)
    /\ same_engine s s1.
Proof.
  induction fields as [|f fields IH]; intros s; simpl.
  - exists s. split; [reflexivity | apply same_engine_refl].
  - destruct (log_audit_run svc user_id f operation true VNone VNone s)
      as (sa & Ha & Hq).
    unfold bind, try_except. rewrite Ha.
    destruct (IH sa) as (s1 & H1 & Hq1).
    exists s1. split; [exact H1|].
    exact (same_engine_trans _ _ _ Hq Hq1).
Qed.

(** Once the row is stored, the rest of [handle_create_user_operation]
    returns the success envelope from every state. *)
Lemma create_user_finish_run svc user_id items s :
  exists s1,
    Pkg.create_user_finish svc user_id items s
    = (Ok (mkResponse 200
             (VDict [("user_id", VStr user_id);
                     ("success", VBool true);
                     ("processed_fields", VInt (Z.of_nat (List.length items)));
                     ("message", VStr "User created and encrypted successfully")])),
       s1)
    /\ same_engine s s1.
Proof.
  unfold Pkg.create_user_finish.
  destruct (audit_loop_run svc (VStr user_id) "encrypt" (dict_keys items) s)
    as (s1 & H & Hq).
  exists s1. split; [|exact Hq].
  unfold bind at 1. rewrite H. reflexivity.
Qed.

(** ** Metadata rows after a create *)

Lemma filter_key_absent {V} (d : list (string * V)) f :
  ~ In f (dict_keys d) ->
  filter (fun kv : string * V => String.eqb (fst kv) f) d = [].
Proof.
  induction d as [|[k v] d IH]; simpl; intros H; [reflexivity|].
  destruct (String.eqb k f) eqn:E.
  - apply String.eqb_eq in E. exfalso. apply H. left. exact E.
  - apply IH. intros Hin. apply H. right. exact Hin.
Qed.

Lemma filter_key_present {V} (d : list (string * V)) f :
  NoDup (dict_keys d) ->
  In f (dict_keys d) ->
  exists v, filter (fun kv : string * V => String.eqb (fst kv) f) d = [(f, v)]
            /\ In (f, v) d.
Proof.
  induction d as [|[k v] d IH]; simpl; intros Hnd Hin; [destruct Hin|].
  inversion Hnd as [|? ? Hnot Hnd']; subst.
  destruct (String.eqb k f) eqn:E.
  - apply String.eqb_eq in E. subst k.
    exists v. rewrite (filter_key_absent d f Hnot). split; [reflexivity | left; reflexivity].
  - destruct Hin as [Hin|Hin].
    + subst k. rewrite String.eqb_refl in E. discriminate.
    + destruct (IH Hnd' Hin) as (v' & Hf & Hin'). exists v'. split; [exact Hf | right; exact Hin'].
Qed.

Lemma old_rows_of_fresh_user t user_id f :
  metadata_references_users t ->
  ~ In user_id (map u_id (users t)) ->
  metadata_rows_for user_id f t = [].
Proof.
  unfold metadata_references_users, metadata_rows_for.
  intros Hfk Hfresh. induction (encryption_metadata t) as [|m l IH]; [reflexivity|].
  simpl. destruct (String.eqb (m_user_id m) user_id) eqn:E.
  - apply String.eqb_eq in E. exfalso. apply Hfresh. rewrite <- E.
    apply Hfk. left. reflexivity.
  - simpl. apply IH. intros m' Hin. apply Hfk. right. exact Hin.
Qed.

Lemma new_rows_of_user user_id f (metadata : list (string * dict)) :
  filter (fun m => String.eqb (m_user_id m) user_id
                   && String.eqb (m_field_name m) f)
         (Pkg.metadata_rows_of user_id metadata)
  = Pkg.metadata_rows_of user_id
      (filter (fun kv : string * dict => String.eqb (fst kv) f) metadata).
Proof.
  induction metadata as [|[k md] metadata IH]; [reflexivity|].
  simpl. rewrite String.eqb_refl. simpl.
  destruct (String.eqb k f); simpl; rewrite IH; reflexivity.
Qed.

(** C4 (package handler).  After a successful create, the metadata table
    holds, for the new user and a field name [f], exactly one row when [f]
    is an input field with a value whose recorded level is at least 2, and
    that row records level 2 or 3; it holds no row for [f] otherwise, in
    particular none for a field recorded at level 1.  The table is assumed
    to respect its foreign key before the call. *)
Theorem create_user_metadata_iff_level_ge_2 :
  forall (svc : services) (event items : dict) (s s1 : state) (resp : response),
    metadata_references_users (database s) ->
    dict_get_or event "data" (VDict []) = VDict items ->
    Pkg.handle_create_user_operation svc event s = (Ok resp, s1) ->
    exists user_id,
      py_getitem (body resp) "user_id" = Ok (VStr user_id)
      /\ forall f,
          (Pkg.wants_metadata svc items f ->
           exists row,
             metadata_rows_for user_id f (database s1) = [row]
             /\ (m_pii_level row = VInt 2 \/ m_pii_level row = VInt 3))
          /\ (~ Pkg.wants_metadata svc items f ->
              metadata_rows_for user_id f (database s1) = []).
Proof.
  intros svc event items s s1 resp Hfk Hdata H.
  unfold Pkg.handle_create_user_operation in H. rewrite Hdata in H.
  destruct items as [|item items]; [discriminate H|].
  cbn [py_truthy negb Pkg.py_items] in H.
  apply bind_ok_inv in H. destruct H as (items' & s0 & Hi & H).
  inversion Hi; subst items' s0; clear Hi.
  apply bind_ok_inv in H. destruct H as (er & sa & Hloop & H).
  apply bind_ok_inv in H. destruct H as (user_id & sb & Hstore & H).
  assert (Hdb : database sa = database s).
  { refine (proj1 (stable_for_fold uncommitted uncommitted_refl uncommitted_trans
                     _ _ _ _ _ _ _ Hloop)).
    intros acc x. apply uncommitted_encrypt_entry. }
  apply encrypt_loop_metadata in Hloop; [|constructor|constructor].
  destruct Hloop as (Hnd & Hall & Hkeys).
  apply store_encrypted_user_ok in Hstore.
  destruct Hstore as (row & before & _ & _ & Hfresh & Hsb & _).
  rewrite Hdb in Hfresh, Hsb.
  destruct (create_user_finish_run svc user_id (item :: items) sb)
    as (s1' & Hfin & (_ & _ & Hmeta)).
  rewrite Hfin in H. inversion H; subst resp s1'; clear H.
  exists user_id. split; [reflexivity|].
  assert (Hrows : forall f,
             metadata_rows_for user_id f (database s1)
             = Pkg.metadata_rows_of user_id
                 (filter (fun kv : string * dict => String.eqb (fst kv) f)
                         (Pkg.ed_metadata er))).
  { intros f. unfold metadata_rows_for. rewrite Hmeta, Hsb. cbn [encryption_metadata].
    rewrite filter_app, new_rows_of_user.
    pose proof (old_rows_of_fresh_user (database s) user_id f Hfk Hfresh) as Hold.
    unfold metadata_rows_for in Hold. rewrite Hold. reflexivity. }
  intros f. rewrite Hrows. split.
  - intros Hw.
    assert (Hin : In f (dict_keys (Pkg.ed_metadata er))).
    { apply Hkeys. right. exact Hw. }
    destruct (filter_key_present _ f Hnd Hin) as (md & Hf & Hmd).
    rewrite Hf. eexists. split; [reflexivity|].
    rewrite Forall_forall in Hall. specialize (Hall _ Hmd).
    unfold Pkg.metadata_row, dict_get_or. cbn [m_pii_level snd fst].
    destruct Hall as [L|L]; cbn [snd] in L; rewrite L; [left | right]; reflexivity.
  - intros Hw.
    rewrite filter_key_absent; [reflexivity|].
    intros Hin. apply Hkeys in Hin. destruct Hin as [[]|Hin]. exact (Hw Hin).
Qed.

Lemma create_user_metadata_iff_level_ge_2_witness :
  exists user_id,
    py_getitem (body Demo.create_response) "user_id" = Ok (VStr user_id)
    /\ forall f,
        (Pkg.wants_metadata Demo.env Demo.create_items f ->
         exists row,
           metadata_rows_for user_id f (database Demo.after_create) = [row]
           /\ (m_pii_level row = VInt 2 \/ m_pii_level row = VInt 3))
        /\ (~ Pkg.wants_metadata Demo.env Demo.create_items f ->
            metadata_rows_for user_id f (database Demo.after_create) = []).
Proof.
  apply (create_user_metadata_iff_level_ge_2 Demo.env Demo.create_event
           Demo.create_items Demo.start Demo.after_create Demo.create_response).
  - intros m [].
  - reflexivity.
  - vm_compute. reflexivity.
Defined.

(** The generated handler writes a metadata row for every mapped input
    field, level 1 included: creating a user from an [email] alone leaves a
    metadata row of level 1 for it. *)
Lemma generated_create_writes_level1_metadata :
  let run := Generated.create_user Demo.env [("email", VStr "a@b.com")] Demo.start in
  Generated.classify_pii_level "email" = 1%Z
  /\ (exists result, fst run = Ok result
                      /\ dict_get result "user_id" = Some (VStr "user-0"))
  /\ metadata_rows_for "user-0" "email" (database (snd run))
     = [mkMeta "user-0" "email" (VInt 1) VNone VNone (VStr "rds_only")].
Proof.
  cbv zeta. split; [reflexivity|]. split.
  - eexists. split; [vm_compute; reflexivity | reflexivity].
  - vm_compute. reflexivity.
Qed.

(** ** Reading a user back *)

Lemma dict_get_set_same {V} (d : list (string * V)) k v :
  dict_get (dict_set d k v) k = Some v.
Proof.
  induction d as [|[k0 v0] d IH]; simpl.
  - rewrite String.eqb_refl. reflexivity.
  - destruct (String.eqb k0 k) eqn:E; simpl; rewrite E; [reflexivity | exact IH].
Qed.

Lemma dict_get_set_other {V} (d : list (string * V)) k v k' :
  k' <> k -> dict_get (dict_set d k v) k' = dict_get d k'.
Proof.
  intros Hne. induction d as [|[k0 v0] d IH]; simpl.
  - destruct (String.eqb k k') eqn:E; [|reflexivity].
    apply String.eqb_eq in E. congruence.
  - destruct (String.eqb k0 k) eqn:E; simpl.
    + apply String.eqb_eq in E. subst k0.
      destruct (String.eqb k k') eqn:E'; [|reflexivity].
      apply String.eqb_eq in E'. congruence.
    + destruct (String.eqb k0 k'); [reflexivity | exact IH].
Qed.

(** The generated [decrypt_field] consults no state. *)
Lemma generated_decrypt_field_result svc f v l s s' :
  fst (Generated.decrypt_field svc f v l s)
  = fst (Generated.decrypt_field svc f v l s').
Proof.
  unfold Generated.decrypt_field.
  destruct (is_none_or_empty v); [reflexivity|]. cbv zeta.
  destruct (py_eq_int _ 1); [reflexivity|].
  destruct (py_eq_int _ 2 || py_eq_int _ 3); [|reflexivity].
  unfold Pkg.b64decode_value, Pkg.kms_decrypt_call, bind, emit, lift, raise, ret.
  destruct v; try reflexivity.
  destruct (b64decode svc s0) as [blob|e]; [|reflexivity]. simpl.
  destruct (kms_decrypt svc blob) as [p|e]; [|reflexivity].
  destruct (utf8_decode svc p); reflexivity.
Qed.

Lemma is_none_false v : is_none v = false <-> v <> VNone.
Proof.
  destruct v; simpl; split; intros H; try reflexivity; try discriminate;
    try (intros E; discriminate E). exfalso. apply H. reflexivity.
Qed.

(** One iteration of the loop of the generated [get_user] never raises on
    integer levels, and writes the column as [shown_as] describes. *)
Lemma generated_get_user_entry_run svc metadata_map result db_field value s :
  (forall k l, dict_get metadata_map k = Some l -> exists z, l = VInt z) ->
  Generated.is_system_column db_field = false ->
  exists out s1,
    Generated.get_user_entry svc metadata_map result (db_field, value) s
    = (Ok (dict_set result (Generated.input_field_of db_field) out), s1)
    /\ Generated.shown_as svc metadata_map db_field value out.
Proof.
  intros Htyped Hsys. unfold Generated.get_user_entry.
  change (has_string db_field ["id"; "created_at"; "updated_at"])
    with (Generated.is_system_column db_field).
  rewrite Hsys.
  change (dict_get_or Generated.reverse_mapping db_field db_field)
    with (Generated.input_field_of db_field).
  set (input := Generated.input_field_of db_field).
  unfold dict_mem, dict_get_or, Generated.shown_as. fold input.
  destruct (is_none value) eqn:N.
  { exists value, s. split; [reflexivity|].
    destruct value; try discriminate N.
    repeat split; try (intros; congruence). }
  apply is_none_false in N.
  destruct (dict_get metadata_map input) as [l|] eqn:L.
  2:{ exists value, s. split; [reflexivity|].
      repeat split; try (intros; congruence). }
  destruct (Htyped _ _ L) as (z & ->). cbn [negb andb Generated.py_gt_one].
  unfold bind at 1, ret at 1.
  destruct (1 <? z)%Z eqn:Z1.
  - apply Z.ltb_lt in Z1. unfold try_except, bind.
    destruct (Generated.decrypt_field svc input value (VInt z) s) as [[plain|e] sa] eqn:D.
    + exists plain, sa. split; [reflexivity|]. repeat split.
      * intros z' s' e' _ Hz _ He. inversion Hz; subst z'.
        rewrite (generated_decrypt_field_result svc input value (VInt z) s' s), D in He.
        discriminate He.
      * intros z' s' p' _ Hz _ Hp. inversion Hz; subst z'.
        rewrite (generated_decrypt_field_result svc input value (VInt z) s' s), D in Hp.
        inversion Hp. reflexivity.
      * intros [E|[E|(z' & E & Hle)]]; [contradiction | discriminate |].
        inversion E; subst z'. lia.
    + exists Generated.DECRYPTION_FAILED, sa. split; [reflexivity|]. repeat split.
      * intros z' s' p' _ Hz _ Hp. inversion Hz; subst z'.
        rewrite (generated_decrypt_field_result svc input value (VInt z) s' s), D in Hp.
        discriminate Hp.
      * intros [E|[E|(z' & E & Hle)]]; [contradiction | discriminate |].
        inversion E; subst z'. lia.
  - apply Z.ltb_ge in Z1. exists value, s. split; [reflexivity|]. repeat split.
    + intros z' s' e' _ Hz Hlt _. inversion Hz; subst z'. lia.
    + intros z' s' p' _ Hz Hlt _. inversion Hz; subst z'. lia.
Qed.

Lemma written_fields_cons db_field value user_data :
  Generated.written_fields ((db_field, value) :: user_data)
  = if Generated.is_system_column db_field
    then Generated.written_fields user_data
    else Generated.input_field_of db_field :: Generated.written_fields user_data.
Proof.
  unfold Generated.written_fields. cbn [filter fst].
  destruct (Generated.is_system_column db_field); reflexivity.
Qed.

Lemma generated_get_user_loop svc metadata_map :
  (forall k l, dict_get metadata_map k = Some l -> exists z, l = VInt z) ->
  forall user_data result s,
    NoDup (Generated.written_fields user_data) ->
    exists final s1,
      for_fold user_data result (Generated.get_user_entry svc metadata_map) s
      = (Ok final, s1)
      /\ (forall k, ~ In k (Generated.written_fields user_data) ->
                    dict_get final k = dict_get result k)
      /\ (forall db_field value,
             In (db_field, value) user_data ->
             Generated.is_system_column db_field = false ->
             exists out,
               dict_get final (Generated.input_field_of db_field) = Some out
               /\ Generated.shown_as svc metadata_map db_field value out).
Proof.
  intros Htyped. induction user_data as [|[db v] rest IH]; intros result s Hnd.
  - exists result, s. repeat split. intros db_field value [].
  - rewrite written_fields_cons in Hnd. cbn [for_fold].
    destruct (Generated.is_system_column db) eqn:Sys.
    + assert (Hskip : Generated.get_user_entry svc metadata_map result (db, v) s
                      = (Ok result, s)).
      { unfold Generated.get_user_entry.
        change (has_string db ["id"; "created_at"; "updated_at"])
          with (Generated.is_system_column db).
        rewrite Sys. reflexivity. }
      unfold bind. rewrite Hskip.
      destruct (IH result s Hnd) as (final & s1 & Hrun & Hother & Hfields).
      exists final, s1. split; [exact Hrun|]. split.
      * intros k Hk. apply Hother. rewrite written_fields_cons, Sys in Hk. exact Hk.
      * intros db_field value [E|Hin] Hs.
        { inversion E; subst. congruence. }
        { exact (Hfields _ _ Hin Hs). }
    + inversion Hnd as [|? ? Hnot Hnd']; subst.
      destruct (generated_get_user_entry_run svc metadata_map result db v s Htyped Sys)
        as (out & sa & Hentry & Hout).
      unfold bind. rewrite Hentry.
      destruct (IH (dict_set result (Generated.input_field_of db) out) sa Hnd')
        as (final & s1 & Hrun & Hother & Hfields).
      exists final, s1. split; [exact Hrun|]. split.
      * intros k Hk. rewrite written_fields_cons, Sys in Hk.
        rewrite Hother by (intros Hin; apply Hk; right; exact Hin).
        apply dict_get_set_other. intros E. apply Hk. left. symmetry. exact E.
      * intros db_field value [E|Hin] Hs.
        { inversion E; subst db_field value. exists out. split; [|exact Hout].
          rewrite (Hother _ Hnot). apply dict_get_set_same. }
        { exact (Hfields _ _ Hin Hs). }
Qed.

(** C3 (generated handler).  In the loop of [get_user] over the columns of
    the user row, with integer levels in the metadata and columns that map
    to distinct response keys: the loop always returns (no field aborts the
    read), and in its result a column whose decryption raises is given the
    sentinel ["[DECRYPTION_FAILED]"], a column whose decryption returns is
    given its plaintext, and a column that is not decrypted (a [NULL]
    value, no metadata, or a level of at most 1) is given its stored
    value. *)
Theorem generated_get_user_isolates_decryption_failures :
  forall (svc : services) (metadata_map user_data result : dict) (s : state),
    (forall k l, dict_get metadata_map k = Some l -> exists z, l = VInt z) ->
    NoDup (Generated.written_fields user_data) ->
    exists final s1,
      for_fold user_data result (Generated.get_user_entry svc metadata_map) s
      = (Ok final, s1)
      /\ forall db_field value,
          In (db_field, value) user_data ->
          Generated.is_system_column db_field = false ->
          let input_field := Generated.input_field_of db_field in
          (forall z s' e,
              value <> VNone ->
              dict_get metadata_map input_field = Some (VInt z) -> (1 < z)%Z ->
              fst (Generated.decrypt_field svc input_field value (VInt z) s') = Err e ->
              dict_get final input_field = Some Generated.DECRYPTION_FAILED)
          /\ (forall z s' plain,
                 value <> VNone ->
                 dict_get metadata_map input_field = Some (VInt z) -> (1 < z)%Z ->
                 fst (Generated.decrypt_field svc input_field value (VInt z) s')
                 = Ok plain ->
                 dict_get final input_field = Some plain)
          /\ (value = VNone
              \/ dict_get metadata_map input_field = None
              \/ (exists z, dict_get metadata_map input_field = Some (VInt z)
                            /\ (z <= 1)%Z) ->
              dict_get final input_field = Some value).
Proof.
  intros svc metadata_map user_data result s Htyped Hnd.
  destruct (generated_get_user_loop svc metadata_map Htyped user_data result s Hnd)
    as (final & s1 & Hrun & _ & Hfields).
  exists final, s1. split; [exact Hrun|].
  intros db_field value Hin Hsys input_field.
  destruct (Hfields _ _ Hin Hsys) as (out & Hget & Ha & Hb & Hc).
  fold input_field in Hget. rewrite Hget. repeat split.
  - intros z s' e H1 H2 H3 H4. f_equal. exact (Ha z s' e H1 H2 H3 H4).
  - intros z s' plain H1 H2 H3 H4. f_equal. exact (Hb z s' plain H1 H2 H3 H4).
  - intros H. f_equal. exact (Hc H).
Qed.

Lemma generated_get_user_isolates_decryption_failures_witness :
  exists final s1,
    for_fold Demo.corrupt_user_data []
      (Generated.get_user_entry Demo.env Demo.corrupt_metadata_map) Demo.corrupt
    = (Ok final, s1)
    /\ dict_get final "ssn" = Some Generated.DECRYPTION_FAILED
    /\ dict_get final "email" = Some (VStr "a@b.com").
Proof.
  destruct (generated_get_user_isolates_decryption_failures Demo.env
              Demo.corrupt_metadata_map Demo.corrupt_user_data [] Demo.corrupt)
    as (final & s1 & Hrun & Hfields).
  - intros k l H. unfold Demo.corrupt_metadata_map in H. cbn [dict_get] in H.
    destruct (String.eqb "ssn" k); [|discriminate H].
    inversion H. exists 3%Z. reflexivity.
  - change (Generated.written_fields Demo.corrupt_user_data) with ["email"; "ssn"].
    constructor; [intros [H|[]]; discriminate H|].
    constructor; [intros [] | constructor].
  - exists final, s1. split; [exact Hrun|]. split.
    + destruct (Hfields "ssn_encrypted" (VStr "garbage")) as (Hfail & _ & _).
      * simpl. auto.
      * reflexivity.
      * apply (Hfail 3%Z Demo.corrupt Demo.InvalidCiphertext).
        { discriminate. }
        { reflexivity. }
        { lia. }
        { reflexivity. }
    + destruct (Hfields "email" (VStr "a@b.com")) as (_ & _ & Hplain).
      * simpl. auto.
      * reflexivity.
      * apply Hplain. right. left. reflexivity.
Defined.

(** The package handler does not isolate the failure: on the same database,
    where only the stored [ssn] cannot be decrypted, its [get_user] is
    answered with the error envelope and the readable [email] is not
    returned; the generated handler answers 200 with the sentinel. *)
Lemma package_get_user_aborts_on_decryption_failure :
  fst (Pkg.decrypt_field Demo.env "ssn" (VStr "garbage")
         (Some [("level", VInt 3); ("app_key_version", VInt 2);
                ("kms_key_alias", VStr "alias/pii-level3")]) Demo.corrupt)
  = Err Demo.InvalidCiphertext
  /\ fst (Pkg.handle_get_user_operation Demo.env Demo.get_event Demo.corrupt)
     = Err Demo.InvalidCiphertext
  /\ fst (Pkg.lambda_handler Demo.env Demo.get_event Demo.corrupt)
     = mkResponse 500
         (VDict [("error", VStr "An error occurred when calling Decrypt");
                 ("type", VStr "InvalidCiphertextException");
                 ("success", VBool false)])
  /\ exists result,
       fst (Generated.lambda_handler Demo.env Demo.get_event Demo.corrupt)
       = mkResponse 200
           (VDict [("operation", VStr "get_user"); ("result", VDict result);
                   ("success", VBool true)])
       /\ dict_get result "email" = Some (VStr "a@b.com")
       /\ dict_get result "ssn" = Some Generated.DECRYPTION_FAILED.
Proof.
  split; [vm_compute; reflexivity|].
  split; [vm_compute; reflexivity|].
  split; [vm_compute; reflexivity|].
  eexists. split; [vm_compute; reflexivity|].
  split; reflexivity.
Qed.

(** ** Runs that only depend on the cached keys *)

Section RespectfulRuns.
Variable Q : state -> state -> Prop.

Lemma respects_ret {A} (a : A) : respects Q (ret a).
Proof. intros s s' H. split; [reflexivity | exact H]. Qed.

Lemma respects_raise {A} (e : exn) : respects Q (@raise A e).
Proof. intros s s' H. split; [reflexivity | exact H]. Qed.

Lemma respects_lift {A} (x : result A) : respects Q (lift x).
Proof. intros s s' H. split; [reflexivity | exact H]. Qed.

Lemma respects_bind {A B} (m : M A) (k : A -> M B) :
  respects Q m -> (forall a, respects Q (k a)) -> respects Q (bind m k).
Proof.
  intros Hm Hk s s' H. unfold bind.
  destruct (Hm s s' H) as [Hr Hs].
  destruct (m s) as [[a|e] s1], (m s') as [[a'|e'] s1']; simpl in Hr, Hs;
    try discriminate Hr.
  - inversion Hr; subst a'. exact (Hk a s1 s1' Hs).
  - inversion Hr; subst e'. split; [reflexivity | exact Hs].
Qed.

Lemma respects_try_except {A} (m : M A) (h : exn -> M A) :
  respects Q m -> (forall e, respects Q (h e)) -> respects Q (try_except m h).
Proof.
  intros Hm Hh s s' H. unfold try_except.
  destruct (Hm s s' H) as [Hr Hs].
  destruct (m s) as [[a|e] s1], (m s') as [[a'|e'] s1']; simpl in Hr, Hs;
    try discriminate Hr.
  - inversion Hr; subst a'. split; [reflexivity | exact Hs].
  - inversion Hr; subst e'. exact (Hh e s1 s1' Hs).
Qed.

Lemma respects_for_fold {A B} (xs : list A) (body : B -> A -> M B) :
  (forall acc x, respects Q (body acc x)) ->
  forall acc, respects Q (for_fold xs acc body).
Proof.
  intros Hb. induction xs as [|x xs IH]; intros acc; simpl.
  - apply respects_ret.
  - apply respects_bind; [apply Hb | intros acc'; apply IH].
Qed.
End RespectfulRuns.

Lemma respects_emit c : respects same_keys (emit c).
Proof. intros s s' H. split; [reflexivity | exact H]. Qed.

Lemma respects_get_app_keys svc : respects same_keys (Pkg.get_app_keys svc).
Proof.
  intros s s' H. unfold Pkg.get_app_keys.
  pose proof H as H'. unfold same_keys in H'. rewrite <- H'.
  destruct (app_keys_cache s) as [keys|] eqn:E.
  - split; [reflexivity | exact H].
  - unfold bind, emit, lift. simpl.
    destruct (get_secret_value svc Pkg.app_keys_secret) as [secret|e];
      [|split; [reflexivity | exact H]].
    destruct (py_getitem secret "app_encryption_keys");
      (split; [reflexivity|]); [reflexivity | exact H].
Qed.

Ltac respects_steps :=
  repeat first
    [ apply respects_ret | apply respects_raise | apply respects_lift
    | apply respects_emit | apply respects_get_app_keys
    | apply respects_bind; [| intros ?]
    | apply respects_try_except; [| intros ?] ].

Lemma respects_str_encode svc v : respects same_keys (Pkg.str_encode svc v).
Proof. destruct v; simpl; respects_steps. Qed.

Lemma respects_b64decode_value svc v : respects same_keys (Pkg.b64decode_value svc v).
Proof. destruct v; simpl; respects_steps. Qed.

Lemma respects_Fernet svc key : respects same_keys (Pkg.Fernet svc key).
Proof. unfold Pkg.Fernet. destruct (fernet_key_ok svc key); respects_steps. Qed.

(** [decrypt_field] returns or raises the same thing in any two states that
    hold the same cached keys. *)
Lemma respects_decrypt_field svc name value metadata :
  respects same_keys (Pkg.decrypt_field svc name value metadata).
Proof.
  unfold Pkg.decrypt_field.
  destruct (is_none_or_empty value); [respects_steps|]. cbv zeta.
  destruct (py_eq_int _ 1); [respects_steps|].
  destruct (py_eq_int _ 2).
  { unfold Pkg.kms_decrypt_call. respects_steps. apply respects_b64decode_value. }
  destruct (py_eq_int _ 3); [|respects_steps].
  unfold Pkg.kms_decrypt_call, Pkg.get_app_cipher_for_version, Pkg.cipher_decrypt.
  respects_steps;
    first [ apply respects_b64decode_value | apply respects_str_encode
          | apply respects_Fernet ].
Qed.

Lemma respects_log_audit svc user_id field_name operation success error ip :
  respects same_keys
    (try_except (Pkg.log_audit svc user_id field_name operation success error ip)
                (fun _ => ret tt)).
Proof.
  intros s s' H. unfold try_except.
  destruct (log_audit_run svc user_id field_name operation success error ip s)
    as (s1 & -> & (K & _)).
  destruct (log_audit_run svc user_id field_name operation success error ip s')
    as (s1' & -> & (K' & _)).
  split; [reflexivity|]. unfold same_keys in *. simpl. congruence.
Qed.

Lemma respects_get_user_entry svc user_id metadata acc entry :
  respects same_keys (Pkg.get_user_entry svc user_id metadata acc entry).
Proof.
  unfold Pkg.get_user_entry. destruct entry as [field_name value].
  destruct (is_none value); [respects_steps|].
  destruct (endswith field_name "_encrypted"); [|respects_steps].
  cbv zeta.
  apply respects_bind; [apply respects_decrypt_field | intros decrypted_value].
  apply respects_bind; [apply respects_log_audit | intros _].
  apply respects_ret.
Qed.

(** C8.  [log_audit] returns normally from every state: whatever the
    database answers to the connection, the insert or the commit, no
    exception reaches the caller, and the key cache, the users and their
    metadata are left as they were.  Consequently the tail of the create
    operation returns its success envelope from every state, and the loop of
    the get operation returns or raises the same thing in any two states
    that hold the same cached keys, however their tables, fault schedules
    and traces differ: the outcome does not depend on whether an audit row
    could be written. *)
Theorem audit_failures_never_surface :
  forall (svc : services),
    (forall user_id field_name operation success error ip s,
        exists s1,
          Pkg.log_audit svc user_id field_name operation success error ip s
          = (Ok tt, s1)
          /\ same_engine s s1)
    /\ (forall user_id items s,
           fst (Pkg.create_user_finish svc user_id items s)
           = Ok (mkResponse 200
                   (VDict [("user_id", VStr user_id);
                           ("success", VBool true);
                           ("processed_fields", VInt (Z.of_nat (List.length items)));
                           ("message",
                            VStr "User created and encrypted successfully")])))
    /\ (forall user_id metadata encrypted_data acc s s',
           app_keys_cache s = app_keys_cache s' ->
           fst (for_fold encrypted_data acc
                  (Pkg.get_user_entry svc user_id metadata) s)
           = fst (for_fold encrypted_data acc
                    (Pkg.get_user_entry svc user_id metadata) s')).
Proof.
  intros svc. split; [|split].
  - intros. apply log_audit_run.
  - intros user_id items s.
    destruct (create_user_finish_run svc user_id items s) as (s1 & -> & _).
    reflexivity.
  - intros user_id metadata encrypted_data acc s s' H.
    refine (proj1 (respects_for_fold same_keys encrypted_data _ _ acc s s' H)).
    intros a x. apply respects_get_user_entry.
Qed.

Lemma audit_failures_never_surface_witness :
  fst (for_fold [("email", VStr "a@b.com"); ("ssn_encrypted", VStr "KFkey-two123-45-6789")]
         [] (Pkg.get_user_entry Demo.env (VStr "user-0")
               [("ssn", [("level", VInt 3); ("app_key_version", VInt 2)])])
         Demo.start)
  = fst (for_fold [("email", VStr "a@b.com"); ("ssn_encrypted", VStr "KFkey-two123-45-6789")]
           [] (Pkg.get_user_entry Demo.env (VStr "user-0")
                 [("ssn", [("level", VInt 3); ("app_key_version", VInt 2)])])
           (set_faults [Some (mkExn "OperationalError" "connection refused")]
                       Demo.start)).
Proof.
  apply (audit_failures_never_surface Demo.env).
  reflexivity.
Defined.

(** With the database refusing every audit connection the get loop still
    returns the decrypted fields. *)
Example get_loop_with_failing_audit :
  fst (for_fold [("email", VStr "a@b.com"); ("ssn_encrypted", VStr "KFkey-two123-45-6789")]
         [] (Pkg.get_user_entry Demo.env (VStr "user-0")
               [("ssn", [("level", VInt 3); ("app_key_version", VInt 2)])])
         (set_faults [Some (mkExn "OperationalError" "connection refused")]
                     Demo.start))
  = Ok [("email", VStr "a@b.com"); ("ssn", VStr "123-45-6789")].
Proof. vm_compute. reflexivity. Qed.

(** ** The metadata the handlers keep is [field_metadata] of the result *)

Lemma py_getitem_dict_ok d k x s s1 :
  lift (py_getitem (VDict d) k) s = (Ok x, s1) -> dict_get d k = Some x /\ s1 = s.
Proof.
  intros H. apply lift_ok_inv in H. destruct H as [H ->]. split; [|reflexivity].
  simpl in H. destruct (dict_get d k); inversion H. reflexivity.
Qed.

Lemma encrypt_entry_keeps_field_metadata svc acc f v s acc' s1 :
  Pkg.encrypt_entry svc acc (f, v) s = (Ok acc', s1) ->
  is_none v = false ->
  (2 <= Pkg.recorded_level svc f v)%Z ->
  exists d,
    Pkg.encrypt_field svc f (VStr (py_str svc v)) s = (Ok (VDict d), s1)
    /\ dict_get (Pkg.ed_metadata acc') f = Some (Pkg.field_metadata d)
    /\ dict_get (Pkg.ed_fields acc') (f ++ "_encrypted") = dict_get d "value".
Proof.
  unfold Pkg.encrypt_entry. intros H N L. rewrite N in H.
  apply bind_ok_inv in H. destruct H as (result & sa & He & H).
  pose proof (encrypt_field_returns _ _ _ _ _ _ He)
    as (d & value & -> & Hlevel & _ & _).
  exists d.
  apply bind_ok_inv in H. destruct H as (l & sb & Hl & H).
  apply py_getitem_dict_ok in Hl. destruct Hl as [Hl ->].
  rewrite Hlevel in Hl. inversion Hl; subst l; clear Hl.
  unfold Pkg.recorded_level in L.
  destruct (String.eqb (py_str svc v) "") eqn:E; [lia|].
  assert (Hne : py_eq_int (VInt (Pkg.classify_pii_level f)) 1 = false).
  { simpl. apply Z.eqb_neq. lia. }
  rewrite Hne in H.
  apply bind_ok_inv in H. destruct H as (x1 & sc & H1 & H).
  apply py_getitem_dict_ok in H1. destruct H1 as [H1 ->].
  apply bind_ok_inv in H. destruct H as (x2 & sd & H2 & H).
  apply py_getitem_dict_ok in H2. destruct H2 as [H2 ->].
  apply bind_ok_inv in H. destruct H as (x3 & se & H3 & H).
  inversion H3; subst x3 se; clear H3.
  apply bind_ok_inv in H. destruct H as (x4 & sf & H4 & H).
  inversion H4; subst x4 sf; clear H4.
  inversion H; subst acc' s1; clear H. cbn [Pkg.ed_metadata Pkg.ed_fields].
  split; [exact He|]. split.
  - rewrite dict_get_set_same. unfold Pkg.field_metadata, dict_get_or.
    rewrite Hlevel, H2. reflexivity.
  - rewrite dict_get_set_same. symmetry. exact H1.
Qed.

(** The scenario of the package handler on the demo environment: [email] is
    stored as it is, [ssn] doubly encrypted with a level-3 metadata row, the
    level-2 field [city] has no column and is lost, and reading the user
    back returns [email] and [ssn] as they were given. *)
Example create_then_get_user :
  fst (Pkg.lambda_handler Demo.env Demo.create_event Demo.start)
  = Demo.create_response
  /\ map u_cols (users (database Demo.after_create))
     = [[("email", VStr "a@b.com");
         ("ssn_encrypted", VStr "KFkey-two123-45-6789")]]
  /\ map m_field_name (encryption_metadata (database Demo.after_create))
     = ["ssn"; "city"]
  /\ py_getitem
       (body (fst (Pkg.lambda_handler Demo.env Demo.get_event Demo.after_create)))
       "data"
     = Ok (VDict [("email", VStr "a@b.com"); ("ssn", VStr Demo.ssn)]).
Proof. repeat split; vm_compute; reflexivity. Qed.

(** ** Metadata read back from the database *)

(** [decrypt_field] reads nothing of its metadata but the level override
    and the key version. *)
Lemma decrypt_field_reads_level_and_version svc name value md1 md2 :
  Pkg.metadata_level md1 = Pkg.metadata_level md2 ->
  Pkg.metadata_key_version md1 = Pkg.metadata_key_version md2 ->
  Pkg.decrypt_field svc name value md1 = Pkg.decrypt_field svc name value md2.
Proof.
  intros Hl Hv. unfold Pkg.decrypt_field. rewrite Hl, Hv. reflexivity.
Qed.

(** The entry [retrieve_encrypted_user] rebuilds from the row that
    [store_encrypted_user] wrote for a metadata entry serves [decrypt_field]
    exactly as the entry itself. *)
Lemma stored_metadata_round_trip svc name value user_id d :
  Pkg.decrypt_field svc name value
    (Some (Pkg.metadata_entry (Pkg.metadata_row user_id name (Pkg.field_metadata d))))
  = Pkg.decrypt_field svc name value (Some (Pkg.field_metadata d)).
Proof.
  apply decrypt_field_reads_level_and_version; reflexivity.
Qed.

(** The columns the generated [get_user] selects map to distinct response
    keys, whatever the row. *)
Lemma generated_selected_columns_distinct (u : user_row) :
  NoDup (Generated.written_fields
           (user_dict (filter (fun col => negb (String.eqb col "updated_at"))
                              Generated.schema_users_columns) u)).
Proof.
  change (NoDup ["email"; "first_name"; "last_name"; "phone"; "address";
                 "date_of_birth"; "ip_address"; "ssn"; "bank_account";
                 "credit_card"]).
  repeat (constructor;
          [ cbn [In]; intros H;
            repeat (destruct H as [H|H]; [discriminate H|]); exact H | ]).
  constructor.
Qed.

Lemma metadata_map_levels (rows : list meta_row) :
  (forall m, In m rows -> exists z, m_pii_level m = VInt z) ->
  forall md0 : dict,
    (forall k l, dict_get md0 k = Some l -> exists z, l = VInt z) ->
    forall k l,
      dict_get (fold_left (fun md row => dict_set md (m_field_name row) (m_pii_level row))
                          rows md0) k = Some l ->
      exists z, l = VInt z.
Proof.
  induction rows as [|m rows IH]; intros Hrows md0 Hmd0 k l; simpl.
  - apply Hmd0.
  - apply IH.
    + intros m' Hin. apply Hrows. right. exact Hin.
    + intros k' l' H. destruct (String.eqb k' (m_field_name m)) eqn:E.
      * apply String.eqb_eq in E. subst k'. rewrite dict_get_set_same in H.
        inversion H; subst l'. apply Hrows. left. reflexivity.
      * apply String.eqb_neq in E. rewrite dict_get_set_other in H by exact E.
        exact (Hmd0 _ _ H).
Qed.

(** When the two queries of the generated [get_user] are answered and the
    stored levels are integers, the read returns a result: whatever happens
    in the decryption of the columns, it is not aborted. *)
Lemma generated_get_user_body_returns svc conn user_id s u sa rows sb :
  let select_fields :=
    filter (fun col => negb (String.eqb col "updated_at"))
           Generated.schema_users_columns in
  execute_select_user svc conn (Some select_fields) user_id s
  = (Ok (Some (user_dict select_fields u)), sa) ->
  execute_select_metadata svc conn user_id sa = (Ok rows, sb) ->
  (forall m, In m rows -> exists z, m_pii_level m = VInt z) ->
  exists final s1,
    Generated.get_user_body svc conn user_id s = (Ok (Some final), s1).
Proof.
  intros select_fields Huser Hmeta Hlevels.
  unfold Generated.get_user_body. fold select_fields.
  unfold bind at 1. rewrite Huser.
  change (user_dict select_fields u)
    with (("id", user_column u "id") :: tl (user_dict select_fields u)).
  cbv beta iota.
  change (("id", user_column u "id") :: tl (user_dict select_fields u))
    with (user_dict select_fields u).
  unfold bind at 1. rewrite Hmeta.
  set (metadata_map := fold_left _ rows []).
  set (result := [("user_id", _); ("created_at", _)]).
  destruct (generated_get_user_loop svc metadata_map
              (metadata_map_levels rows Hlevels [] ltac:(intros k l H; discriminate H))
              (user_dict select_fields u) result sb
              (generated_selected_columns_distinct u))
    as (final & s1 & Hrun & _).
  exists final, s1. unfold bind. rewrite Hrun. reflexivity.
Qed.

(** * Further properties *)

(** ** The classifier reads names without case and padding *)












(** ** Level 1 is stored and returned as it is *)

(** X2.  A non-empty value of a field classified at level 1 goes through
    [encrypt_field] unchanged, marked as not encrypted, without any call to
    a collaborator; the encryption loop stores it under the plain field
    name and keeps no metadata for it. *)
Theorem level1_fields_are_stored_in_clear :
  forall (svc : services) (name : string) (value : pyval) (s : state),
    Pkg.classify_pii_level name = 1%Z ->
    is_none_or_empty value = false ->
    Pkg.encrypt_field svc name value s
    = (Ok (VDict [("value", value); ("encrypted", VBool false);
                  ("level", VInt 1); ("field_name", VStr name);
                  ("method", VStr "rds_only")]), s)
    /\ forall (acc : Pkg.encrypted_data) (text : string),
         value = VStr text ->
         Pkg.encrypt_entry svc acc (name, value) s
         = (Ok (Pkg.mkEncrypted (dict_set (Pkg.ed_fields acc) name value)
                                (Pkg.ed_metadata acc)), s).
Proof.
  intros svc name value s Hl Hv.
  assert (He : Pkg.encrypt_field svc name value s
               = (Ok (VDict [("value", value); ("encrypted", VBool false);
                             ("level", VInt 1); ("field_name", VStr name);
                             ("method", VStr "rds_only")]), s)).
  { unfold Pkg.encrypt_field. rewrite Hv. cbv zeta.
    rewrite (classify_level _ _ Hl). reflexivity. }
  split; [exact He|].
  intros acc text ->. unfold Pkg.encrypt_entry. cbn [is_none py_str].
  unfold bind at 1. rewrite He. reflexivity.
Qed.

Lemma level1_fields_are_stored_in_clear_witness :
  Pkg.encrypt_field Demo.env "first_name" (VStr "Ada") Demo.start
  = (Ok (VDict [("value", VStr "Ada"); ("encrypted", VBool false);
                ("level", VInt 1); ("field_name", VStr "first_name");
                ("method", VStr "rds_only")]), Demo.start).
Proof.
  exact (proj1 (level1_fields_are_stored_in_clear Demo.env "first_name"
                  (VStr "Ada") Demo.start eq_refl eq_refl)).
Defined.

(** ** What [decrypt_field] returns without decrypting *)

(** X3.  [decrypt_field] hands its input back, calling no collaborator, when the
    input is [None] or empty, when the metadata records level 1 (whatever
    the classifier says of the name), and when the metadata records no level
    and the classifier gives level 1. *)
Theorem decrypt_field_returns_stored_value :
  forall (svc : services) (name : string) (value : pyval)
         (metadata : option dict) (s : state),
    is_none_or_empty value = true
    \/ (exists l, Pkg.metadata_level metadata = Some l /\ py_eq_int l 1 = true)
    \/ (Pkg.metadata_level metadata = None /\ Pkg.classify_pii_level name = 1%Z) ->
    Pkg.decrypt_field svc name value metadata s = (Ok value, s).
Proof.
  intros svc name value metadata s H. unfold Pkg.decrypt_field.
  destruct (is_none_or_empty value) eqn:E; [reflexivity|].
  destruct H as [H|[(l & Hl & H1)|(Hl & Hc)]]; [discriminate H| |].
  - rewrite Hl. cbv zeta. rewrite H1. reflexivity.
  - rewrite Hl. cbv zeta. rewrite (classify_level _ _ Hc). reflexivity.
Qed.

Lemma decrypt_field_returns_stored_value_witness :
  Pkg.decrypt_field Demo.env "ssn" (VStr "123-45-6789")
    (Some [("level", VInt 1)]) Demo.start
  = (Ok (VStr "123-45-6789"), Demo.start).
Proof.
  apply (decrypt_field_returns_stored_value Demo.env "ssn" (VStr "123-45-6789")
           (Some [("level", VInt 1)]) Demo.start).
  right. left. exists (VInt 1). split; reflexivity.
Defined.

(** X4.  When the metadata of a field records a level, [decrypt_field] never
    consults the classifier: the field name has no influence on the run. *)
Theorem decrypt_field_level_comes_from_metadata :
  forall (svc : services) (name name' : string) (value l : pyval) (md : dict),
    dict_get md "level" = Some l ->
    Pkg.decrypt_field svc name value (Some md)
    = Pkg.decrypt_field svc name' value (Some md).
Proof.
  intros svc name name' value l md H.
  assert (Hml : Pkg.metadata_level (Some md) = Some l).
  { destruct md; [discriminate H | exact H]. }
  unfold Pkg.decrypt_field. rewrite Hml. reflexivity.
Qed.

Lemma decrypt_field_level_comes_from_metadata_witness :
  Pkg.decrypt_field Demo.env "ssn" (VStr "S2Fi") (Some [("level", VInt 2)])
  = Pkg.decrypt_field Demo.env "nickname" (VStr "S2Fi") (Some [("level", VInt 2)]).
Proof.
  exact (decrypt_field_level_comes_from_metadata Demo.env "ssn" "nickname"
           (VStr "S2Fi") (VInt 2) [("level", VInt 2)] eq_refl).
Defined.

(** ** Key versions *)

(** X5.  A level-3 value stays readable after the keys are rotated: whatever the
    current version has become, [decrypt_field] returns the plaintext in
    every state whose cached keys still hold, under the version recorded at
    encryption, the key that was used.  Once that key is gone from the
    cached keys, the same call raises the lookup error instead. *)
Theorem level3_value_is_bound_to_its_key_version :
  forall (svc : services) (LAW : lawful svc)
         (name v : string) (s s1 : state) (d : dict),
    Pkg.classify_pii_level name = 3%Z ->
    v <> "" ->
    Pkg.encrypt_field svc name (VStr v) s = (Ok (VDict d), s1) ->
    exists keys version c,
      app_keys_cache s1 = Some keys
      /\ py_getitem keys "current_version" = Ok version
      /\ dict_get d "app_key_version" = Some version
      /\ dict_get d "value" = Some c
      /\ (forall s' keys',
             app_keys_cache s' = Some keys' ->
             py_getitem keys' (Pkg.app_key_name svc version)
             = py_getitem keys (Pkg.app_key_name svc version) ->
             fst (Pkg.decrypt_field svc name c (Some (Pkg.field_metadata d)) s')
             = Ok (VStr v))
      /\ (forall s' keys' e,
             app_keys_cache s' = Some keys' ->
             py_getitem keys' (Pkg.app_key_name svc version) = Err e ->
             fst (Pkg.decrypt_field svc name c (Some (Pkg.field_metadata d)) s')
             = Err e).
Proof.
  intros svc LAW name v s s1 d Hl Hv H.
  apply encrypt_field_level3_ok in H; try assumption.
  destruct H as (keys & version & key_text & key & pt & blob & pre
                 & Hcache & Hver & Hkey & Henc & Hok & Hpt & Hk & Hd & _).
  inversion Hd; subst d; clear Hd.
  exists keys, version, (VStr (b64encode svc blob)).
  split; [exact Hcache|]. split; [exact Hver|].
  split; [reflexivity|]. split; [reflexivity|].
  assert (Hstart : forall s',
             Pkg.decrypt_field svc name (VStr (b64encode svc blob))
               (Some (Pkg.field_metadata
                        [("value", VStr (b64encode svc blob)); ("encrypted", VBool true);
                         ("level", VInt 3); ("field_name", VStr name);
                         ("method", VStr "double_encryption");
                         ("app_key_version", version);
                         ("kms_key", VStr Pkg.level3_kms_alias)])) s'
             = (cipher <- Pkg.get_app_cipher_for_version svc version ;;
                decrypted <- Pkg.cipher_decrypt svc cipher (fernet_encrypt svc key pt) ;;
                text <- lift (utf8_decode svc decrypted) ;;
                ret (VStr text))%py
                 (set_trace (trace s' ++ [KmsDecrypt blob]) s')).
  { intros s'. unfold Pkg.decrypt_field.
    change (is_none_or_empty (VStr (b64encode svc blob)))
      with (String.eqb (b64encode svc blob) "").
    rewrite (b64encode_blob_nonempty svc LAW _ _ _ Hk). simpl.
    unfold bind at 1. unfold lift at 1. rewrite (b64_inverse svc LAW).
    unfold bind at 1.
    unfold Pkg.kms_decrypt_call, bind at 1, emit, lift at 1. simpl.
    rewrite (kms_inverse svc LAW _ _ _ Hk). reflexivity. }
  split.
  - intros s' keys' Hc' Hsame. rewrite Hstart.
    erewrite bind_run.
    2:{ apply get_app_cipher_for_version_run with (keys := keys') (key_text := key_text);
        try eassumption. rewrite Hsame. exact Hkey. }
    unfold Pkg.cipher_decrypt, bind, emit, lift. simpl.
    rewrite (fernet_inverse svc LAW _ _ Hok), (utf8_inverse svc LAW _ _ Hpt).
    reflexivity.
  - intros s' keys' e Hc' Hgone. rewrite Hstart.
    unfold Pkg.get_app_cipher_for_version.
    unfold bind at 1. unfold bind at 1.
    rewrite get_app_keys_cached with (keys := keys') by exact Hc'.
    unfold bind at 1. unfold lift at 1. rewrite Hgone. reflexivity.
Qed.

Lemma level3_value_is_bound_to_its_key_version_witness :
  exists keys version c,
    app_keys_cache Demo.after_ssn = Some keys
    /\ py_getitem keys "current_version" = Ok version
    /\ dict_get Demo.ssn_result "app_key_version" = Some version
    /\ dict_get Demo.ssn_result "value" = Some c
    /\ (forall s' keys',
           app_keys_cache s' = Some keys' ->
           py_getitem keys' (Pkg.app_key_name Demo.env version)
           = py_getitem keys (Pkg.app_key_name Demo.env version) ->
           fst (Pkg.decrypt_field Demo.env "ssn" c
                  (Some (Pkg.field_metadata Demo.ssn_result)) s')
           = Ok (VStr Demo.ssn))
    /\ (forall s' keys' e,
           app_keys_cache s' = Some keys' ->
           py_getitem keys' (Pkg.app_key_name Demo.env version) = Err e ->
           fst (Pkg.decrypt_field Demo.env "ssn" c
                  (Some (Pkg.field_metadata Demo.ssn_result)) s')
           = Err e).
Proof.
  apply (level3_value_is_bound_to_its_key_version Demo.env demo_lawful "ssn"
           Demo.ssn Demo.start Demo.after_ssn Demo.ssn_result).
  - reflexivity.
  - discriminate.
  - reflexivity.
Defined.

(** ** The key cache of a handler *)

(** X6.  [get_app_keys] asks Secrets Manager at most once per handler: a
    successful call leaves the keys cached, so that every later call returns
    them without any request and without changing the state; a call that
    finds the cache filled makes no request; a failed call caches nothing. *)
Theorem get_app_keys_fetches_the_secret_once :
  forall (svc : services) (s : state),
    match Pkg.get_app_keys svc s with
    | (Ok keys, s1) =>
        Pkg.get_app_keys svc s1 = (Ok keys, s1)
        /\ match app_keys_cache s with
           | Some cached => keys = cached /\ s1 = s
           | None => trace s1 = trace s ++ [GetSecretValue Pkg.app_keys_secret]
           end
    | (Err e, s1) =>
        app_keys_cache s = None
        /\ app_keys_cache s1 = None
        /\ trace s1 = trace s ++ [GetSecretValue Pkg.app_keys_secret]
    end.
Proof.
  intros svc s.
  destruct (Pkg.get_app_keys svc s) as [[keys|e] s1] eqn:H.
  - split.
    + apply get_app_keys_cached.
      exact (proj1 (get_app_keys_ok _ _ _ _ H)).
    + unfold Pkg.get_app_keys in H.
      destruct (app_keys_cache s) as [cached|] eqn:Hc.
      * inversion H. split; reflexivity.
      * unfold bind, emit, lift in H. simpl in H.
        destruct (get_secret_value svc Pkg.app_keys_secret) as [secret|e];
          [|discriminate].
        destruct (py_getitem secret "app_encryption_keys") as [k|e];
          [|discriminate].
        inversion H; subst. reflexivity.
  - unfold Pkg.get_app_keys in H.
    destruct (app_keys_cache s) as [cached|] eqn:Hc; [discriminate|].
    split; [reflexivity|].
    unfold bind, emit, lift in H. simpl in H.
    destruct (get_secret_value svc Pkg.app_keys_secret) as [secret|e'].
    + destruct (py_getitem secret "app_encryption_keys") as [k|e'];
        [discriminate|].
      inversion H; subst. simpl. split; [exact Hc | reflexivity].
    + inversion H; subst. simpl. split; [exact Hc | reflexivity].
Qed.

(** ** The encrypt and decrypt operations work without the database *)

Lemma offline_refl s : offline s s.
Proof.
  split; [reflexivity|]. split; [reflexivity|].
  exists []. rewrite app_nil_r. split; reflexivity.
Qed.

Lemma offline_trans a b c : offline a b -> offline b c -> offline a c.
Proof.
  intros (D1 & F1 & x & Hx & Fx) (D2 & F2 & y & Hy & Fy). split; [|split].
  - rewrite D2. exact D1.
  - rewrite F2. exact F1.
  - exists (x ++ y). split.
    + rewrite Hy, Hx, app_assoc. reflexivity.
    + rewrite filter_app, Fx, Fy. reflexivity.
Qed.

Lemma offline_emit c : is_db_call c = false -> stable offline (emit c).
Proof.
  intros Hc s r s1 H. unfold emit in H. inversion H; subst. simpl.
  split; [reflexivity|]. split; [reflexivity|].
  exists [c]. split; [reflexivity|]. simpl. rewrite Hc. reflexivity.
Qed.

Lemma offline_get_app_keys svc : stable offline (Pkg.get_app_keys svc).
Proof.
  intros s r s1. unfold Pkg.get_app_keys.
  destruct (app_keys_cache s).
  - intros H. inversion H. apply offline_refl.
  - unfold bind, emit, lift. simpl.
    destruct (get_secret_value svc Pkg.app_keys_secret) as [secret|e].
    + destruct (py_getitem secret "app_encryption_keys");
        intros H; inversion H; subst;
        (split; [reflexivity|]; split; [reflexivity|]);
        exists [GetSecretValue Pkg.app_keys_secret]; split; reflexivity.
    + intros H; inversion H; subst;
        (split; [reflexivity|]; split; [reflexivity|]);
        exists [GetSecretValue Pkg.app_keys_secret]; split; reflexivity.
Qed.

Ltac offline_steps :=
  repeat first
    [ exact offline_refl | exact offline_trans
    | apply stable_ret | apply stable_raise | apply stable_lift
    | apply offline_emit; reflexivity
    | apply offline_get_app_keys
    | apply stable_bind; [exact offline_trans | | intros ?]
    | apply stable_try_except; [exact offline_trans | | intros ?] ].

Lemma offline_str_encode svc v : stable offline (Pkg.str_encode svc v).
Proof. destruct v; simpl; offline_steps. Qed.

Lemma offline_b64decode_value svc v : stable offline (Pkg.b64decode_value svc v).
Proof. destruct v; simpl; offline_steps. Qed.

Lemma offline_Fernet svc key : stable offline (Pkg.Fernet svc key).
Proof. unfold Pkg.Fernet. destruct (fernet_key_ok svc key); offline_steps. Qed.

Lemma offline_py_get v k : stable offline (Pkg.py_get v k).
Proof. destruct v; simpl; offline_steps. Qed.

Lemma offline_py_get_or v k d : stable offline (Pkg.py_get_or v k d).
Proof. destruct v; simpl; offline_steps. Qed.

Lemma offline_py_items v : stable offline (Pkg.py_items v).
Proof. destruct v; simpl; offline_steps. Qed.

Lemma offline_json_response code default_str payload :
  stable offline (Pkg.json_response code default_str payload).
Proof. unfold Pkg.json_response. offline_steps. Qed.

Lemma offline_encrypt_field svc name value :
  stable offline (Pkg.encrypt_field svc name value).
Proof.
  unfold Pkg.encrypt_field.
  destruct (is_none_or_empty value); [offline_steps|].
  cbv zeta.
  destruct (Pkg.level (Pkg.get_encryption_requirements name) =? 1)%Z;
    [offline_steps|].
  destruct (Pkg.level (Pkg.get_encryption_requirements name) =? 2)%Z.
  { unfold Pkg.kms_encrypt_call. offline_steps. apply offline_str_encode. }
  destruct (Pkg.level (Pkg.get_encryption_requirements name) =? 3)%Z;
    [|offline_steps].
  unfold Pkg.get_current_app_cipher, Pkg.cipher_encrypt, Pkg.kms_encrypt_call.
  offline_steps; first [apply offline_str_encode | apply offline_Fernet].
Qed.

Lemma offline_decrypt_field svc name value metadata :
  stable offline (Pkg.decrypt_field svc name value metadata).
Proof.
  unfold Pkg.decrypt_field.
  destruct (is_none_or_empty value); [offline_steps|]. cbv zeta.
  destruct (py_eq_int _ 1); [offline_steps|].
  destruct (py_eq_int _ 2).
  { unfold Pkg.kms_decrypt_call. offline_steps. apply offline_b64decode_value. }
  destruct (py_eq_int _ 3); [|offline_steps].
  unfold Pkg.kms_decrypt_call, Pkg.get_app_cipher_for_version, Pkg.cipher_decrypt.
  offline_steps;
    first [ apply offline_b64decode_value | apply offline_str_encode
          | apply offline_Fernet ].
Qed.

Lemma offline_encrypt_entry svc acc entry :
  stable offline (Pkg.encrypt_entry svc acc entry).
Proof.
  unfold Pkg.encrypt_entry. destruct entry as [f v].
  destruct (is_none v); [offline_steps|].
  apply stable_bind; [exact offline_trans | apply offline_encrypt_field |].
  intros result.
  apply stable_bind; [exact offline_trans | apply stable_lift; exact offline_refl |].
  intros l. destruct (py_eq_int l 1); offline_steps; apply offline_py_get.
Qed.

Lemma offline_decrypt_entry svc metadata acc entry :
  stable offline (Pkg.decrypt_entry svc metadata acc entry).
Proof.
  unfold Pkg.decrypt_entry. destruct entry as [f v].
  destruct (is_none v); [offline_steps|].
  destruct (endswith f "_encrypted"); [|offline_steps].
  cbv zeta.
  apply stable_bind; [exact offline_trans | apply offline_py_get_or |].
  intros md.
  apply stable_bind; [exact offline_trans | apply offline_decrypt_field |].
  intros v'. offline_steps.
Qed.

Lemma offline_handle_encrypt_operation svc event :
  stable offline (Pkg.handle_encrypt_operation svc event).
Proof.
  unfold Pkg.handle_encrypt_operation.
  destruct (negb (py_truthy (dict_get_or event "data" (VDict []))));
    [apply stable_raise; exact offline_refl|].
  apply stable_bind; [exact offline_trans | apply offline_py_items |].
  intros items.
  apply stable_bind; [exact offline_trans | | intros er; apply offline_json_response].
  apply stable_for_fold; [exact offline_refl | exact offline_trans |].
  intros acc x. apply offline_encrypt_entry.
Qed.

Lemma offline_handle_decrypt_operation svc event :
  stable offline (Pkg.handle_decrypt_operation svc event).
Proof.
  unfold Pkg.handle_decrypt_operation. cbv zeta.
  destruct (negb (py_truthy (dict_get_or event "encrypted_data" (VDict []))));
    [apply stable_raise; exact offline_refl|].
  apply stable_bind; [exact offline_trans | apply offline_py_items |].
  intros items.
  apply stable_bind; [exact offline_trans | | intros er; apply offline_json_response].
  apply stable_for_fold; [exact offline_refl | exact offline_trans |].
  intros acc x. apply offline_decrypt_entry.
Qed.

(** X7.  The [encrypt] and [decrypt] operations never ask anything of the
    database, whatever they return or raise: no connection is opened, no
    statement is sent, the tables and the schedule of database answers are
    left as they were.  They only call the envelope service, the local
    cipher and, for the keys, Secrets Manager. *)
Theorem encrypt_and_decrypt_operations_work_offline :
  forall (svc : services) (event : dict),
    stable offline (Pkg.handle_encrypt_operation svc event)
    /\ stable offline (Pkg.handle_decrypt_operation svc event).
Proof.
  intros svc event. split.
  - apply offline_handle_encrypt_operation.
  - apply offline_handle_decrypt_operation.
Qed.

(** ** Deleting and reading users *)

Lemma quiet_select_user svc conn cols uid :
  stable quiet (execute_select_user svc conn cols uid).
Proof.
  unfold execute_select_user. quiet_steps.
  cbv zeta. destruct (negb _); quiet_steps.
Qed.

Lemma quiet_select_metadata svc conn uid :
  stable quiet (execute_select_metadata svc conn uid).
Proof. unfold execute_select_metadata. quiet_steps. Qed.

Lemma quiet_delete_user svc conn uid :
  stable quiet (execute_delete_user svc conn uid).
Proof. unfold execute_delete_user. quiet_steps. Qed.

Lemma quiet_select_users_page conn cols limit offset :
  stable quiet (execute_select_users_page conn cols limit offset).
Proof. unfold execute_select_users_page. quiet_steps. Qed.

Lemma quiet_count_users conn : stable quiet (execute_count_users conn).
Proof. unfold execute_count_users. quiet_steps. Qed.

Lemma quiet_select_audit svc conn uid limit :
  stable quiet (execute_select_audit svc conn uid limit).
Proof. unfold execute_select_audit. quiet_steps. Qed.

Lemma quiet_select_columns svc conn table :
  stable quiet (execute_select_columns svc conn table).
Proof. unfold execute_select_columns. quiet_steps. Qed.

Lemma existsb_same_id (x p : string) (l : list user_row) :
  l <> [] ->
  (forall u, In u l -> u_id u = p) ->
  has_string x (map u_id l) = String.eqb x p.
Proof.
  unfold has_string. induction l as [|u l IH]; intros Hne Hall; [congruence|].
  simpl. rewrite (Hall u (or_introl eq_refl)).
  destruct (String.eqb x p) eqn:E; [reflexivity|]. simpl.
  destruct l as [|u' l']; [reflexivity|].
  apply IH; [discriminate |].
  intros u0 H0. apply Hall. right. exact H0.
Qed.

Lemma filter_nonempty_existsb {A} (f : A -> bool) (l : list A) :
  filter f l <> [] -> existsb f l = true.
Proof.
  induction l as [|a l IH]; simpl; [congruence|].
  destruct (f a); [reflexivity|]. exact IH.
Qed.


Lemma rollback_then_raise {A} conn (e : exn) s :
  exists e' s1,
    (rollback conn ;;; @raise A e)%py s = (Err e', s1)
    /\ database s1 = database s
    /\ app_keys_cache s1 = app_keys_cache s
    /\ trace s1 = trace s ++ [DbRollback].
Proof.
  unfold rollback, db_request, bind, raise, emit. simpl.
  destruct (faults s) as [|[e'|] rest]; eexists; eexists;
    (split; [reflexivity|]); repeat split.
Qed.

Lemma execute_delete_user_ok svc conn uid s conn1 n s1 :
  execute_delete_user svc conn uid s = (Ok (conn1, n), s1) ->
  conn1 = mkTables
            (filter (fun u => negb (id_matches svc uid u)) (users conn))
            (filter (fun m => negb (has_string (m_user_id m)
                                      (map u_id (filter (id_matches svc uid) (users conn)))))
                    (encryption_metadata conn))
            (encryption_audit conn)
  /\ n = List.length (filter (id_matches svc uid) (users conn)).
Proof.
  unfold execute_delete_user. intros H.
  apply bind_ok_inv in H. destruct H as (u & sa & _ & H).
  inversion H; subst. split; reflexivity.
Qed.

Lemma delete_user_run :
  forall (svc : services) (user_id : pyval) (s : state),
    match Pkg.delete_user svc user_id s with
    | (Ok deleted, s1) =>
        deleted = true
        /\ existsb (id_matches svc user_id) (users (database s)) = true
        /\ users (database s1)
           = filter (fun u => negb (id_matches svc user_id u)) (users (database s))
        /\ encryption_metadata (database s1)
           = filter (fun m => negb (String.eqb (m_user_id m) (py_str svc user_id)))
                    (encryption_metadata (database s))
    | (Err e, s1) => database s1 = database s
    end.
Proof.
  intros svc uid s. unfold Pkg.delete_user, Pkg.get_connection.
  destruct (Pkg.get_db_connection svc s) as [[conn|e] sa] eqn:Hc.
  2:{ exact (proj1 (proj1 (quiet_get_db_connection _ _ _ _ Hc))). }
  pose proof (get_db_connection_ok _ _ _ _ Hc) as ->.
  apply quiet_get_db_connection in Hc. destruct Hc as ((Hd0 & _) & _).
  unfold try_finally, try_except. unfold bind at 1.
  destruct (execute_delete_user svc (database s) uid sa) as [[[conn1 n]|e] sb] eqn:Hdel.
  - pose proof (quiet_delete_user _ _ _ _ _ _ Hdel) as ((Hd1 & _) & _).
    apply execute_delete_user_ok in Hdel. destruct Hdel as (-> & ->).
    destruct (filter (id_matches svc uid) (users (database s))) as [|g gone] eqn:Hg.
    + cbn [List.length raise].
      destruct (rollback_then_raise (A := bool) (database s)
                  (ValueError ("User " ++ py_str svc uid ++ " not found")) sb)
        as (e' & sc & -> & Hd2 & _).
      rewrite close_run. simpl. congruence.
    + cbn [List.length]. unfold bind at 1.
      destruct (commit _ sb) as [[[]|e] sc] eqn:Hco.
      * unfold ret. rewrite close_run. cbn [database set_trace].
        apply commit_ok in Hco. destruct Hco as (-> & _).
        cbn [users encryption_metadata encryption_audit].
        split; [reflexivity|]. split.
        { apply filter_nonempty_existsb. rewrite Hg. discriminate. }
        split; [reflexivity|].
        apply filter_ext. intros m. f_equal.
        apply existsb_same_id; [discriminate|].
        intros u Hu. rewrite <- Hg in Hu. apply filter_In in Hu.
        destruct Hu as [_ Hu]. unfold id_matches in Hu.
        apply String.eqb_eq in Hu. exact Hu.
      * apply commit_err in Hco. destruct Hco as (Hd2 & _).
        destruct (rollback_then_raise (A := bool) (database s) e sc)
          as (e' & sd & -> & Hd3 & _).
        rewrite close_run. simpl. congruence.
  - pose proof (quiet_delete_user _ _ _ _ _ _ Hdel) as ((Hd1 & _) & _).
    destruct (rollback_then_raise (A := bool) (database s) e sb)
      as (e' & sc & -> & Hd2 & _).
    rewrite close_run. simpl. congruence.
Qed.

(** X8.  [delete_user] either returns [True], and then the user existed, its
    row is gone, every metadata row of the user is gone with it (the
    cascade), and the other users and their metadata are as before; or it
    raises, and then the committed tables are exactly as before. *)
Theorem delete_user_shreds_or_changes_nothing :
  forall (svc : services) (user_id : pyval) (s : state),
    match Pkg.delete_user svc user_id s with
    | (Ok deleted, s1) =>
        deleted = true
        /\ existsb (id_matches svc user_id) (users (database s)) = true
        /\ users (database s1)
           = filter (fun u => negb (id_matches svc user_id u)) (users (database s))
        /\ encryption_metadata (database s1)
           = filter (fun m => negb (String.eqb (m_user_id m) (py_str svc user_id)))
                    (encryption_metadata (database s))
    | (Err e, s1) => database s1 = database s
    end.
Proof. exact delete_user_run. Qed.

Lemma execute_select_user_ok svc conn cols uid s r s1 :
  execute_select_user svc conn cols uid s = (Ok r, s1) ->
  r = option_map
        (user_dict (match cols with Some cs => cs | None => users_columns svc end))
        (find (id_matches svc uid) (users conn)).
Proof.
  unfold execute_select_user. intros H.
  apply bind_ok_inv in H. destruct H as (u & sa & _ & H).
  cbv zeta in H. destruct (negb _); [discriminate|].
  inversion H. reflexivity.
Qed.

Lemma execute_select_metadata_ok svc conn uid s rows s1 :
  execute_select_metadata svc conn uid s = (Ok rows, s1) ->
  rows = filter (fun m => String.eqb (m_user_id m) (py_str svc uid))
                (encryption_metadata conn).
Proof.
  unfold execute_select_metadata. intros H.
  apply bind_ok_inv in H. destruct H as (u & sa & _ & H).
  inversion H. reflexivity.
Qed.

(** What a successful [retrieve_encrypted_user] returns *)
Lemma retrieve_encrypted_user_ok svc uid s data md s1 :
  Pkg.retrieve_encrypted_user svc uid s = (Ok (data, md), s1) ->
  exists u,
    find (id_matches svc uid) (users (database s)) = Some u
    /\ data = fold_left (@dict_pop pyval) Pkg.system_fields
                (user_dict (users_columns svc) u)
    /\ md = fold_left (fun md row =>
                         dict_set md (m_field_name row) (Pkg.metadata_entry row))
              (filter (fun m => String.eqb (m_user_id m) (py_str svc uid))
                      (encryption_metadata (database s)))
              [].
Proof.
  unfold Pkg.retrieve_encrypted_user, Pkg.get_connection.
  destruct (Pkg.get_db_connection svc s) as [[conn|e] sa] eqn:Hc; [|discriminate].
  pose proof (get_db_connection_ok _ _ _ _ Hc) as ->.
  unfold try_finally. unfold bind at 1.
  destruct (execute_select_user svc (database s) None uid sa) as [[r|e] sb] eqn:Hsel.
  2:{ rewrite close_run. discriminate. }
  apply execute_select_user_ok in Hsel. subst r.
  destruct (find (id_matches svc uid) (users (database s))) as [u|] eqn:Hf.
  2:{ cbn [option_map raise]. rewrite close_run. discriminate. }
  cbn [option_map].
  destruct (user_dict (users_columns svc) u) as [|kv row] eqn:Hrow.
  { cbn [raise]. rewrite close_run. discriminate. }
  unfold bind at 1.
  destruct (execute_select_metadata svc (database s) uid sb) as [[rows|e] sc] eqn:Hm.
  2:{ rewrite close_run. discriminate. }
  apply execute_select_metadata_ok in Hm. subst rows.
  unfold ret. rewrite close_run. intros H. inversion H; subst.
  exists u. rewrite Hrow. repeat split.
Qed.

Lemma find_filter_negb {A} (f : A -> bool) (l : list A) :
  find f (filter (fun x => negb (f x)) l) = None.
Proof.
  induction l as [|a l IH]; simpl; [reflexivity|].
  destruct (f a) eqn:E; simpl; [exact IH|]. rewrite E. exact IH.
Qed.

Lemma existsb_filter_negb {A} (f : A -> bool) (l : list A) :
  existsb f (filter (fun x => negb (f x)) l) = false.
Proof.
  induction l as [|a l IH]; simpl; [reflexivity|].
  destruct (f a) eqn:E; simpl; [exact IH|]. rewrite E. exact IH.
Qed.

(** X9.  After a successful [delete_user], in every state holding the resulting
    tables, no metadata row of the user is left, reading the user back
    raises, and deleting it again raises. *)
Theorem deleted_user_cannot_be_read_back :
  forall (svc : services) (user_id : pyval) (s s1 : state) (deleted : bool),
    Pkg.delete_user svc user_id s = (Ok deleted, s1) ->
    forall s2 : state,
      database s2 = database s1 ->
      (forall field_name,
          metadata_rows_for (py_str svc user_id) field_name (database s2) = [])
      /\ (exists e s3, Pkg.retrieve_encrypted_user svc user_id s2 = (Err e, s3))
      /\ (exists e s3, Pkg.delete_user svc user_id s2 = (Err e, s3)).
Proof.
  intros svc uid s s1 deleted H s2 Hs2.
  pose proof (delete_user_run svc uid s) as Hdel.
  rewrite H in Hdel. destruct Hdel as (_ & _ & Hu & Hm).
  split; [|split].
  - intros f. unfold metadata_rows_for. rewrite Hs2, Hm. clear Hm.
    induction (encryption_metadata (database s)) as [|m l IH]; [reflexivity|].
    cbn [filter]. destruct (String.eqb (m_user_id m) (py_str svc uid)) eqn:E.
    + cbn [negb]. exact IH.
    + cbn [negb filter]. rewrite E. cbn [andb]. exact IH.
  - destruct (Pkg.retrieve_encrypted_user svc uid s2) as [[[data md]|e] s3] eqn:R.
    + apply retrieve_encrypted_user_ok in R. destruct R as (u & Hf & _).
      rewrite Hs2, Hu in Hf.
      rewrite (find_filter_negb (id_matches svc uid)) in Hf. discriminate.
    + exists e, s3. reflexivity.
  - pose proof (delete_user_run svc uid s2) as Hdel2.
    destruct (Pkg.delete_user svc uid s2) as [[d|e] s3].
    + destruct Hdel2 as (_ & Hex & _). rewrite Hs2, Hu in Hex.
      rewrite (existsb_filter_negb (id_matches svc uid)) in Hex. discriminate.
    + exists e, s3. reflexivity.
Qed.

Lemma existsb_false_filter {A} (f : A -> bool) (l : list A) :
  existsb f l = false -> filter f l = [] /\ find f l = None.
Proof.
  induction l as [|a l IH]; simpl; [split; reflexivity|].
  destruct (f a); [discriminate|]. exact IH.
Qed.

(** X10.  When the connection opens, the database answers every request and no
    user has the given id, [delete_user] raises
    [ValueError("User <id> not found")] after the delete statement and a
    rollback, and [retrieve_encrypted_user] raises
    [ValueError("User with ID <id> not found")] after the select; both
    close the connection and leave the tables as they were. *)
Theorem unknown_user_is_reported_as_not_found :
  forall (svc : services) (user_id : pyval) (s sa : state) (conn : connection),
    Pkg.get_connection svc s = (Ok conn, sa) ->
    faults s = [] ->
    existsb (id_matches svc user_id) (users (database s)) = false ->
    (exists s1,
        Pkg.delete_user svc user_id s
        = (Err (ValueError ("User " ++ py_str svc user_id ++ " not found")), s1)
        /\ database s1 = database s
        /\ trace s1 = trace sa ++ [DbExecute (DeleteUser user_id); DbRollback; DbClose])
    /\ (exists s1,
           Pkg.retrieve_encrypted_user svc user_id s
           = (Err (ValueError ("User with ID " ++ py_str svc user_id ++ " not found")),
              s1)
           /\ database s1 = database s
           /\ trace s1 = trace sa ++ [DbExecute (SelectUser user_id); DbClose]).
Proof.
  intros svc uid s sa conn Hc Hf Hnone.
  unfold Pkg.get_connection in Hc.
  pose proof (get_db_connection_ok _ _ _ _ Hc) as ->.
  pose proof (get_db_connection_faults _ _ _ _ Hc Hf) as Hfa.
  pose proof (quiet_get_db_connection _ _ _ _ Hc) as ((Hd0 & _) & _).
  destruct (existsb_false_filter _ _ Hnone) as (Hfilter & Hfind).
  split.
  - unfold Pkg.delete_user, Pkg.get_connection. rewrite Hc.
    unfold try_finally, try_except, execute_delete_user.
    unfold bind at 1. unfold bind at 1.
    rewrite (db_request_no_fault _ _ Hfa). unfold ret.
    rewrite Hfilter. cbn [List.length raise].
    unfold rollback, bind, raise.
    rewrite db_request_no_fault by exact Hfa.
    rewrite close_run. eexists. split; [reflexivity|]. simpl.
    split; [exact Hd0|]. rewrite <- !app_assoc. reflexivity.
  - unfold Pkg.retrieve_encrypted_user, Pkg.get_connection. rewrite Hc.
    unfold try_finally, execute_select_user.
    unfold bind at 1. unfold bind at 1.
    rewrite (db_request_no_fault _ _ Hfa).
    assert (Hall : forall l : list string,
               forallb (fun c => has_string c l) l = true).
    { intros l. apply forallb_forall. intros c Hin. unfold has_string.
      apply existsb_exists. exists c. split; [exact Hin | apply String.eqb_refl]. }
    rewrite Hall, Hfind. cbn [negb option_map ret raise].
    rewrite close_run. eexists. split; [reflexivity|]. simpl.
    split; [exact Hd0|]. rewrite <- !app_assoc. reflexivity.
Qed.

Lemma unknown_user_is_reported_as_not_found_witness :
  exists s1,
    Pkg.delete_user Demo.env (VStr "nobody") Demo.start
    = (Err (ValueError ("User " ++ py_str Demo.env (VStr "nobody") ++ " not found")), s1)
    /\ database s1 = database Demo.start
    /\ trace s1
       = trace (snd (Pkg.get_connection Demo.env Demo.start))
           ++ [DbExecute (DeleteUser (VStr "nobody")); DbRollback; DbClose].
Proof.
  refine (proj1 (unknown_user_is_reported_as_not_found Demo.env (VStr "nobody")
                   Demo.start (snd (Pkg.get_connection Demo.env Demo.start))
                   Demo.empty_tables _ _ _)); reflexivity.
Defined.

Lemma deleted_user_cannot_be_read_back_witness :
  exists s1,
    Pkg.delete_user Demo.env (VStr "user-0") Demo.after_create = (Ok true, s1)
    /\ (exists e s3,
           Pkg.retrieve_encrypted_user Demo.env (VStr "user-0") s1 = (Err e, s3)).
Proof.
  eexists. split; [vm_compute; reflexivity|].
  refine (proj1 (proj2 (deleted_user_cannot_be_read_back Demo.env (VStr "user-0")
                          Demo.after_create _ true _ _ eq_refl))).
  vm_compute. reflexivity.
Defined.

(** ** Reads commit nothing *)

Ltac quiet_db_steps :=
  repeat first
    [ exact quiet_refl | exact quiet_trans
    | apply stable_ret | apply stable_raise | apply stable_lift
    | apply quiet_db_request; reflexivity
    | apply quiet_emit; reflexivity
    | apply quiet_select_user | apply quiet_select_metadata
    | apply quiet_select_users_page | apply quiet_count_users
    | apply quiet_select_audit | apply quiet_select_columns
    | apply quiet_close | apply quiet_rollback
    | apply quiet_get_db_connection
    | apply stable_bind; [exact quiet_trans | | intros ?]
    | apply stable_try_except; [exact quiet_trans | | intros ?]
    | apply stable_try_finally; [exact quiet_trans | | ] ].

(** A function that opens a connection and then runs [body] on it *)
Lemma quiet_connected {A} svc (m : M A) :
  (forall s,
      match Pkg.get_db_connection svc s with
      | (Ok conn, sa) => forall r s1, m s = (r, s1) -> quiet sa s1
      | (Err e, sa) => forall r s1, m s = (r, s1) -> quiet sa s1
      end) ->
  stable quiet m.
Proof.
  intros H s r s1 Hm. specialize (H s).
  destruct (Pkg.get_db_connection svc s) as [[conn|e] sa] eqn:Hc;
    (eapply quiet_trans; [exact (quiet_get_db_connection _ _ _ _ Hc) | exact (H _ _ Hm)]).
Qed.

Lemma quiet_retrieve_encrypted_user svc uid :
  stable quiet (Pkg.retrieve_encrypted_user svc uid).
Proof.
  apply (quiet_connected svc). intros s.
  unfold Pkg.retrieve_encrypted_user, Pkg.get_connection.
  destruct (Pkg.get_db_connection svc s) as [[conn|e] sa].
  2:{ intros r s1 H. inversion H. apply quiet_refl. }
  revert sa.
  refine (stable_try_finally quiet quiet_trans _ _ _ _); quiet_db_steps.
  destruct a as [[|kv row]|]; quiet_db_steps.
Qed.

Lemma quiet_list_users svc limit offset :
  stable quiet (Pkg.list_users svc limit offset).
Proof.
  apply (quiet_connected svc). intros s.
  unfold Pkg.list_users, Pkg.get_connection.
  destruct (Pkg.get_db_connection svc s) as [[conn|e] sa].
  2:{ intros r s1 H. inversion H. apply quiet_refl. }
  revert sa.
  refine (stable_try_finally quiet quiet_trans _ _ _ _); quiet_db_steps.
Qed.

Lemma quiet_get_audit_trail svc uid limit :
  stable quiet (Pkg.get_audit_trail svc uid limit).
Proof.
  apply (quiet_connected svc). intros s.
  unfold Pkg.get_audit_trail, Pkg.get_connection.
  destruct (Pkg.get_db_connection svc s) as [[conn|e] sa].
  2:{ intros r s1 H. inversion H. apply quiet_refl. }
  revert sa.
  refine (stable_try_finally quiet quiet_trans _ _ _ _); quiet_db_steps.
Qed.

Lemma quiet_validate_database_schema svc :
  stable quiet (Pkg.validate_database_schema svc).
Proof.
  apply (quiet_connected svc). intros s.
  unfold Pkg.validate_database_schema, Pkg.get_connection, Pkg.with_error.
  destruct (Pkg.get_db_connection svc s) as [[conn|e] sa].
  2:{ intros r s1 H. inversion H. apply quiet_refl. }
  revert sa.
  refine (stable_try_finally quiet quiet_trans _ _ _ _); quiet_db_steps.
Qed.

(** X11.  The read operations of [DatabaseManager] are read-only: whatever they
    return or raise, the committed tables and the key cache are as before
    and no [commit] was sent. *)
Theorem database_reads_commit_nothing :
  forall (svc : services),
    (forall user_id, stable quiet (Pkg.retrieve_encrypted_user svc user_id))
    /\ (forall limit offset, stable quiet (Pkg.list_users svc limit offset))
    /\ (forall user_id limit, stable quiet (Pkg.get_audit_trail svc user_id limit))
    /\ stable quiet (Pkg.validate_database_schema svc).
Proof.
  intros svc. split; [|split; [|split]].
  - apply quiet_retrieve_encrypted_user.
  - apply quiet_list_users.
  - apply quiet_get_audit_trail.
  - apply quiet_validate_database_schema.
Qed.

(** ** Listing users *)

Lemma try_finally_close_ok {A} (m : M A) conn s a s1 :
  try_finally m (close conn) s = (Ok a, s1) ->
  exists sb, m s = (Ok a, sb) /\ s1 = set_trace (trace sb ++ [DbClose]) sb.
Proof.
  unfold try_finally. destruct (m s) as [r sb]. rewrite close_run.
  intros H. inversion H; subst. exists sb. split; reflexivity.
Qed.

Lemma execute_select_users_page_ok conn cols limit offset s page s1 :
  execute_select_users_page conn cols limit offset s = (Ok page, s1) ->
  exists n k,
    as_count limit = Ok n /\ as_count offset = Ok k
    /\ page = map (user_dict cols) (firstn n (skipn k (rev (users conn)))).
Proof.
  unfold execute_select_users_page. intros H.
  apply bind_ok_inv in H. destruct H as (u & sa & _ & H).
  apply bind_ok_inv in H. destruct H as (n & sb & Hn & H).
  apply lift_ok_inv in Hn. destruct Hn as [Hn ->].
  apply bind_ok_inv in H. destruct H as (k & sc & Hk & H).
  apply lift_ok_inv in Hk. destruct Hk as [Hk ->].
  inversion H; subst. exists n, k. repeat split; assumption.
Qed.

Lemma execute_count_users_ok conn s total s1 :
  execute_count_users conn s = (Ok total, s1) ->
  total = VInt (Z.of_nat (List.length (users conn))).
Proof.
  unfold execute_count_users. intros H.
  apply bind_ok_inv in H. destruct H as (u & sa & _ & H).
  inversion H. reflexivity.
Qed.

(** What a successful [list_users] returns *)
Lemma list_users_ok svc limit offset s result s1 :
  Pkg.list_users svc limit offset s = (Ok result, s1) ->
  exists n k,
    as_count limit = Ok n /\ as_count offset = Ok k
    /\ result
       = [("users",
           VList (map VDict
                    (map (user_dict ["id"; "email"; "first_name"; "last_name";
                                     "created_at"; "updated_at"])
                         (firstn n (skipn k (rev (users (database s))))))));
          ("total", VInt (Z.of_nat (List.length (users (database s)))));
          ("limit", limit); ("offset", offset)].
Proof.
  unfold Pkg.list_users, Pkg.get_connection.
  destruct (Pkg.get_db_connection svc s) as [[conn|e] sa] eqn:Hc; [|discriminate].
  pose proof (get_db_connection_ok _ _ _ _ Hc) as ->.
  intros H. apply try_finally_close_ok in H. destruct H as (sb & H & _).
  apply bind_ok_inv in H. destruct H as (page & sc & Hp & H).
  apply execute_select_users_page_ok in Hp. destruct Hp as (n & k & Hn & Hk & ->).
  apply bind_ok_inv in H. destruct H as (total & sd & Ht & H).
  apply execute_count_users_ok in Ht. subst total.
  inversion H; subst. exists n, k. repeat split; assumption.
Qed.



(** ** JSON bodies of the package handler *)

Lemma dict_with_object_not_serializable (d : dict) k r :
  In (k, VObj r) d -> json_serializable (VDict d) = false.
Proof.
  intros Hin. cbn [json_serializable].
  destruct (forallb _ d) eqn:E; [|reflexivity].
  rewrite forallb_forall in E. specialize (E _ Hin). discriminate E.
Qed.

Lemma list_with_unserializable_item (l : list pyval) v :
  In v l -> json_serializable v = false -> json_serializable (VList l) = false.
Proof.
  intros Hin Hv. cbn [json_serializable].
  destruct (forallb json_serializable l) eqn:E; [|reflexivity].
  rewrite forallb_forall in E. rewrite (E _ Hin) in Hv. discriminate Hv.
Qed.

Lemma dict_with_unserializable_value (d : dict) k v :
  In (k, v) d -> json_serializable v = false -> json_serializable (VDict d) = false.
Proof.
  intros Hin Hv. cbn [json_serializable].
  destruct (forallb _ d) eqn:E; [|reflexivity].
  rewrite forallb_forall in E. specialize (E _ Hin). cbn in E.
  rewrite E in Hv. discriminate Hv.
Qed.

Lemma json_response_unserializable code (payload : dict) s :
  json_serializable (VDict payload) = false ->
  Pkg.json_response code false payload s
  = (Err (TypeError "Object is not JSON serializable"), s).
Proof.
  intros H. unfold Pkg.json_response, bind, lift, json_dumps. rewrite H. reflexivity.
Qed.

Lemma execute_select_audit_ok svc conn uid limit s records s1 :
  execute_select_audit svc conn uid limit s = (Ok records, s1) ->
  Forall (fun r : dict => exists n a, r = audit_dict n a) records.
Proof.
  unfold execute_select_audit. intros H.
  apply bind_ok_inv in H. destruct H as (u & sa & _ & H).
  apply bind_ok_inv in H. destruct H as (n & sb & _ & H).
  inversion H; subst. apply Forall_forall. intros r Hin.
  apply in_map_iff in Hin. destruct Hin as ([k a] & <- & _).
  exists k, a. reflexivity.
Qed.

Lemma get_audit_trail_ok svc uid limit s result s1 :
  Pkg.get_audit_trail svc uid limit s = (Ok result, s1) ->
  exists records,
    Forall (fun r : dict => exists n a, r = audit_dict n a) records
    /\ result = [("audit_records", VList (map VDict records));
                 ("total", VInt (Z.of_nat (List.length records)));
                 ("user_id", uid); ("limit", limit)].
Proof.
  unfold Pkg.get_audit_trail, Pkg.get_connection.
  destruct (Pkg.get_db_connection svc s) as [[conn|e] sa] eqn:Hc; [|discriminate].
  intros H. apply try_finally_close_ok in H. destruct H as (sb & H & _).
  apply bind_ok_inv in H. destruct H as (records & sc & Hr & H).
  apply execute_select_audit_ok in Hr.
  inversion H; subst. exists records. split; [exact Hr | reflexivity].
Qed.

(** X13.  The package handler serialises the rows of [list_users] and
    [get_audit_trail] as psycopg2 returned them, timestamps included, with a
    plain [json.dumps]: whenever the page or the trail holds at least one
    row, the operation raises [TypeError] after the query has been run. *)
Theorem package_list_and_audit_operations_fail_on_rows :
  forall (svc : services) (event : dict) (s : state),
    (forall result sa row page,
        Pkg.list_users svc (dict_get_or event "limit" (VInt 100))
                       (dict_get_or event "offset" (VInt 0)) s
        = (Ok result, sa) ->
        dict_get result "users" = Some (VList (row :: page)) ->
        Pkg.handle_list_users_operation svc event s
        = (Err (TypeError "Object is not JSON serializable"), sa))
    /\ (forall result sa row rows,
           Pkg.get_audit_trail svc (dict_get_or event "user_id" VNone)
                               (dict_get_or event "limit" (VInt 100)) s
           = (Ok result, sa) ->
           dict_get result "audit_records" = Some (VList (row :: rows)) ->
           Pkg.handle_audit_trail_operation svc event s
           = (Err (TypeError "Object is not JSON serializable"), sa)).
Proof.
  intros svc event s. split.
  - intros result sa row page H Hrows.
    unfold Pkg.handle_list_users_operation. cbv zeta.
    unfold bind at 1. rewrite H.
    apply list_users_ok in H. destruct H as (n & k & Hn & Hk & ->).
    cbn [dict_get_or dict_get String.eqb Ascii.eqb Bool.eqb] in *.
    inversion Hrows as [Hpage]; clear Hrows.
    destruct (firstn n (skipn k (rev (users (database s))))) as [|u rest];
      [discriminate Hpage|].
    cbn [map] in *. clear Hpage.
    destruct (dict_get_or event "offset" (VInt 0)) as [| | z | | | |] eqn:Hoff;
      try discriminate Hk.
    cbn [Pkg.py_int]. unfold bind at 1, ret at 1. unfold bind at 1, ret at 1.
    apply json_response_unserializable.
    eapply dict_with_unserializable_value; [left; reflexivity|].
    eapply list_with_unserializable_item; [left; reflexivity|].
    eapply dict_with_object_not_serializable. left. reflexivity.
  - intros result sa row rows H Hrows.
    unfold Pkg.handle_audit_trail_operation. cbv zeta.
    unfold bind at 1. rewrite H.
    apply get_audit_trail_ok in H. destruct H as (records & Hall & ->).
    cbn [dict_get_or dict_get String.eqb Ascii.eqb Bool.eqb] in *.
    inversion Hrows as [Hpage]; clear Hrows.
    destruct records as [|r records]; [discriminate Hpage|].
    inversion Hall as [|? ? (k & a & ->) _]; subst.
    apply json_response_unserializable.
    eapply dict_with_unserializable_value; [left; reflexivity|].
    eapply list_with_unserializable_item; [left; reflexivity|].
    eapply dict_with_object_not_serializable.
    unfold audit_dict. repeat (first [left; reflexivity | right]).
Qed.

Lemma package_list_and_audit_operations_fail_on_rows_witness :
  Pkg.handle_list_users_operation Demo.env [("limit", VInt 10)] Demo.after_create
  = (Err (TypeError "Object is not JSON serializable"), snd Scenario.listed).
Proof.
  refine (proj1 (package_list_and_audit_operations_fail_on_rows Demo.env
                   [("limit", VInt 10)] Demo.after_create)
                Scenario.listed_users (snd Scenario.listed) _ _ _ _).
  - vm_compute. reflexivity.
  - vm_compute. reflexivity.
Defined.

(** ** What [retrieve_encrypted_user] hands to the read path *)

Lemma dict_pop_keys {V} (d : list (string * V)) k k' :
  In k' (dict_keys (dict_pop d k)) -> In k' (dict_keys d).
Proof.
  induction d as [|[k0 v0] d IH]; simpl; [intros []|].
  destruct (String.eqb k0 k); simpl.
  - intros H. right. exact H.
  - intros [H|H]; [left; exact H | right; exact (IH H)].
Qed.

Lemma dict_pop_NoDup {V} (d : list (string * V)) k :
  NoDup (dict_keys d) -> NoDup (dict_keys (dict_pop d k)).
Proof.
  induction d as [|[k0 v0] d IH]; simpl; intros H; [constructor|].
  inversion H as [|? ? Hnot Hnd]; subst.
  destruct (String.eqb k0 k); simpl; [exact Hnd|].
  constructor; [|exact (IH Hnd)].
  intros Hin. apply Hnot. exact (dict_pop_keys _ _ _ Hin).
Qed.

Lemma dict_pop_removes {V} (d : list (string * V)) k :
  NoDup (dict_keys d) -> ~ In k (dict_keys (dict_pop d k)).
Proof.
  induction d as [|[k0 v0] d IH]; simpl; intros H; [intros []|].
  inversion H as [|? ? Hnot Hnd]; subst.
  destruct (String.eqb k0 k) eqn:E; simpl.
  - apply String.eqb_eq in E. subst k0. exact Hnot.
  - intros [Hin|Hin].
    + subst k0. rewrite String.eqb_refl in E. discriminate.
    + exact (IH Hnd Hin).
Qed.

Lemma dict_pop_keeps {V} (d : list (string * V)) k k' :
  k' <> k -> In k' (dict_keys d) -> In k' (dict_keys (dict_pop d k)).
Proof.
  intros Hne. induction d as [|[k0 v0] d IH]; simpl; [intros []|].
  destruct (String.eqb k0 k) eqn:E; simpl.
  - apply String.eqb_eq in E. subst k0. intros [H|H]; [congruence | exact H].
  - intros [H|H]; [left; exact H | right; exact (IH H)].
Qed.

Lemma dict_get_pop_other {V} (d : list (string * V)) k k' :
  k' <> k -> dict_get (dict_pop d k) k' = dict_get d k'.
Proof.
  intros Hne. induction d as [|[k0 v0] d IH]; simpl; [reflexivity|].
  destruct (String.eqb k0 k) eqn:E; simpl.
  - apply String.eqb_eq in E. subst k0.
    destruct (String.eqb k k') eqn:E'; [|reflexivity].
    apply String.eqb_eq in E'. congruence.
  - destruct (String.eqb k0 k'); [reflexivity | exact IH].
Qed.

Lemma dict_get_some_key {V} (d : list (string * V)) k v :
  dict_get d k = Some v -> In k (dict_keys d).
Proof.
  intros H. apply dict_get_in in H. apply (in_map fst) in H. exact H.
Qed.

Lemma user_dict_keys cols u : dict_keys (user_dict cols u) = cols.
Proof.
  unfold user_dict, dict_keys. rewrite map_map. cbn [fst]. apply map_id.
Qed.

Lemma user_dict_get cols u k v :
  dict_get (user_dict cols u) k = Some v -> v = user_column u k.
Proof.
  induction cols as [|c cols IH]; cbn [user_dict map dict_get]; [discriminate|].
  destruct (String.eqb c k) eqn:E.
  - apply String.eqb_eq in E. subst c. intros H. inversion H. reflexivity.
  - exact IH.
Qed.

Lemma metadata_fold_get (rows : list meta_row) :
  forall (md0 : list (string * dict)) f entry,
    dict_get (fold_left (fun md row =>
                           dict_set md (m_field_name row) (Pkg.metadata_entry row))
                        rows md0) f = Some entry ->
    dict_get md0 f = Some entry
    \/ exists row, In row rows /\ m_field_name row = f
                   /\ entry = Pkg.metadata_entry row.
Proof.
  induction rows as [|m rows IH]; intros md0 f entry; cbn [fold_left].
  - intros H. left. exact H.
  - intros H. apply IH in H. destruct H as [H|(row & Hin & Hf & He)].
    + destruct (String.eqb f (m_field_name m)) eqn:E.
      * apply String.eqb_eq in E. subst f. rewrite dict_get_set_same in H.
        inversion H. right. exists m. repeat split. left. reflexivity.
      * apply String.eqb_neq in E. rewrite dict_get_set_other in H by exact E.
        left. exact H.
    + right. exists row. repeat split; try assumption. right. exact Hin.
Qed.

(** X14.  A successful [retrieve_encrypted_user] returns the row of the user
    without the system columns [id], [created_at] and [updated_at]: the
    keys of the data are exactly the other columns of [users], each with
    its stored value ([None] for NULL); and every metadata entry it returns
    is built from a metadata row of that user and that field.  The column
    names of [users] are taken to be distinct. *)
Theorem retrieve_encrypted_user_returns_the_stored_row :
  forall (svc : services) (user_id : pyval) (s s1 : state)
         (data : dict) (metadata : list (string * dict)),
    NoDup (users_columns svc) ->
    Pkg.retrieve_encrypted_user svc user_id s = (Ok (data, metadata), s1) ->
    exists u,
      In u (users (database s))
      /\ u_id u = py_str svc user_id
      /\ (forall k, In k (dict_keys data)
                    <-> In k (users_columns svc) /\ ~ In k Pkg.system_fields)
      /\ (forall k v, dict_get data k = Some v ->
                      v = dict_get_or (u_cols u) k VNone)
      /\ (forall f entry,
             dict_get metadata f = Some entry ->
             exists row,
               In row (encryption_metadata (database s))
               /\ m_user_id row = py_str svc user_id
               /\ m_field_name row = f
               /\ entry = Pkg.metadata_entry row).
Proof.
  intros svc uid s s1 data md Hnd H.
  apply retrieve_encrypted_user_ok in H. destruct H as (u & Hf & -> & ->).
  exists u. apply find_some in Hf. destruct Hf as [Hin Hid].
  split; [exact Hin|]. split; [apply String.eqb_eq; exact Hid|].
  set (row := user_dict (users_columns svc) u).
  assert (Hrow : NoDup (dict_keys row)).
  { unfold row. rewrite user_dict_keys. exact Hnd. }
  assert (Hkeys : dict_keys row = users_columns svc) by apply user_dict_keys.
  unfold Pkg.system_fields. cbn [fold_left].
  split; [|split].
  - intros k. split.
    + intros Hk. split.
      * rewrite <- Hkeys.
        exact (dict_pop_keys _ _ _ (dict_pop_keys _ _ _ (dict_pop_keys _ _ _ Hk))).
      * intros [E|[E|[E|[]]]]; subst k.
        { apply dict_pop_keys, dict_pop_keys in Hk.
          exact (dict_pop_removes _ _ Hrow Hk). }
        { apply dict_pop_keys in Hk.
          exact (dict_pop_removes _ _ (dict_pop_NoDup _ _ Hrow) Hk). }
        { exact (dict_pop_removes _ _
                   (dict_pop_NoDup _ _ (dict_pop_NoDup _ _ Hrow)) Hk). }
    + intros [Hk Hsys]. rewrite <- Hkeys in Hk. cbn [In] in Hsys.
      apply dict_pop_keeps; [intros E; apply Hsys; auto|].
      apply dict_pop_keeps; [intros E; apply Hsys; auto|].
      apply dict_pop_keeps; [intros E; apply Hsys; auto|]. exact Hk.
  - intros k v Hget.
    assert (Hk : In k (dict_keys (dict_pop (dict_pop (dict_pop row "id") "created_at")
                                           "updated_at")))
      by exact (dict_get_some_key _ _ _ Hget).
    assert (N3 : k <> "updated_at").
    { intros ->. exact (dict_pop_removes _ _
                          (dict_pop_NoDup _ _ (dict_pop_NoDup _ _ Hrow)) Hk). }
    apply dict_pop_keys in Hk.
    assert (N2 : k <> "created_at").
    { intros ->. exact (dict_pop_removes _ _ (dict_pop_NoDup _ _ Hrow) Hk). }
    apply dict_pop_keys in Hk.
    assert (N1 : k <> "id").
    { intros ->. exact (dict_pop_removes _ _ Hrow Hk). }
    rewrite !dict_get_pop_other in Hget by assumption.
    apply user_dict_get in Hget. subst v. unfold user_column.
    rewrite (proj2 (String.eqb_neq _ _) N1), (proj2 (String.eqb_neq _ _) N2),
      (proj2 (String.eqb_neq _ _) N3). reflexivity.
  - intros f entry Hget. apply metadata_fold_get in Hget.
    destruct Hget as [Hget|(r & Hr & Hfn & He)]; [discriminate Hget|].
    apply filter_In in Hr. destruct Hr as [Hr Hu].
    exists r. repeat split; try assumption. apply String.eqb_eq. exact Hu.
Qed.

Lemma retrieve_encrypted_user_returns_the_stored_row_witness :
  exists u,
    In u (users (database Demo.after_create))
    /\ u_id u = py_str Demo.env (VStr "user-0")
    /\ (forall k, In k (dict_keys (fst Scenario.retrieved_user))
                  <-> In k (users_columns Demo.env) /\ ~ In k Pkg.system_fields)
    /\ (forall k v, dict_get (fst Scenario.retrieved_user) k = Some v ->
                    v = dict_get_or (u_cols u) k VNone)
    /\ (forall f entry,
           dict_get (snd Scenario.retrieved_user) f = Some entry ->
           exists row,
             In row (encryption_metadata (database Demo.after_create))
             /\ m_user_id row = py_str Demo.env (VStr "user-0")
             /\ m_field_name row = f
             /\ entry = Pkg.metadata_entry row).
Proof.
  apply (retrieve_encrypted_user_returns_the_stored_row Demo.env (VStr "user-0")
           Demo.after_create (snd Scenario.retrieved)
           (fst Scenario.retrieved_user) (snd Scenario.retrieved_user)).
  - unfold Demo.env, users_columns, Demo.demo_users_columns.
    repeat (constructor;
            [ cbn [In]; intros H;
              repeat (destruct H as [H|H]; [discriminate H|]); exact H | ]).
    constructor.
  - vm_compute. reflexivity.
Defined.

(** ** The schema check and the health check *)

Lemma select_users_columns_run svc conn s :
  (exists sa, execute_select_columns svc conn "users" s
              = (Ok (users_columns svc), sa))
  \/ (exists e sa, execute_select_columns svc conn "users" s = (Err e, sa)).
Proof.
  unfold execute_select_columns. unfold bind.
  destruct (db_request _ s) as [[[]|e] sa].
  - left. exists sa. reflexivity.
  - right. exists e, sa. reflexivity.
Qed.

Lemma select_metadata_columns_run svc conn s :
  (exists sa, execute_select_columns svc conn "encryption_metadata" s
              = (Ok (metadata_columns svc), sa))
  \/ (exists e sa,
         execute_select_columns svc conn "encryption_metadata" s = (Err e, sa)).
Proof.
  unfold execute_select_columns. unfold bind.
  destruct (db_request _ s) as [[[]|e] sa].
  - left. exists sa. reflexivity.
  - right. exists e, sa. reflexivity.
Qed.

Lemma select_audit_columns_run svc conn s :
  (exists sa, execute_select_columns svc conn "encryption_audit" s
              = (Ok (audit_columns svc), sa))
  \/ (exists e sa,
         execute_select_columns svc conn "encryption_audit" s = (Err e, sa)).
Proof.
  unfold execute_select_columns. unfold bind.
  destruct (db_request _ s) as [[[]|e] sa].
  - left. exists sa. reflexivity.
  - right. exists e, sa. reflexivity.
Qed.

Lemma validate_database_schema_run :
  forall (svc : services) (s : state),
    exists (r : dict) (s1 : state),
      Pkg.validate_database_schema svc s = (Ok r, s1)
      /\ database s1 = database s
      /\ ((exists message, dict_get r "error" = Some (VStr message))
          /\ dict_get r "overall" = None
          \/ r = [("users_table",
                   Pkg.all_in Pkg.required_user_columns (users_columns svc));
                  ("metadata_table",
                   Pkg.all_in Pkg.required_metadata_columns (metadata_columns svc));
                  ("audit_table",
                   Pkg.all_in Pkg.required_audit_columns (audit_columns svc));
                  ("overall",
                   VBool (forallb (fun col => has_string col (users_columns svc))
                                  Pkg.required_user_columns
                          && forallb (fun col => has_string col (metadata_columns svc))
                                     Pkg.required_metadata_columns
                          && forallb (fun col => has_string col (audit_columns svc))
                                     Pkg.required_audit_columns))]).
Proof.
  intros svc s.
  match goal with
  | |- context [("users_table", ?a) :: ?rest] =>
      set (complete := ("users_table", a) :: rest)
  end.
  destruct (Pkg.validate_database_schema svc s) as [r s1] eqn:H.
  pose proof (quiet_validate_database_schema _ _ _ _ H) as ((Hdb & _) & _).
  revert H. unfold Pkg.validate_database_schema, Pkg.get_connection, Pkg.with_error.
  assert (Hend : forall (x : dict) (sx : state),
             (Ok x, sx) = (r, s1) ->
             (exists message, dict_get x "error" = Some (VStr message))
             /\ dict_get x "overall" = None
             \/ x = complete ->
             exists (r0 : dict) (s2 : state),
               (r, s1) = (Ok r0, s2)
               /\ database s2 = database s
               /\ ((exists message, dict_get r0 "error" = Some (VStr message))
                   /\ dict_get r0 "overall" = None
                   \/ r0 = complete)).
  { intros x sx E Hx. exists x, sx. split; [symmetry; exact E|].
    split; [|exact Hx].
    pose proof (f_equal snd E) as Es. cbn [snd] in Es. rewrite Es. exact Hdb. }
  clear Hdb.
  destruct (Pkg.get_db_connection svc s) as [[conn|e] sa].
  2:{ unfold ret. intros H. apply (Hend _ _ H).
      left. split; [eexists; reflexivity | reflexivity]. }
  unfold try_finally, try_except. unfold bind at 1.
  destruct (select_users_columns_run svc conn sa)
    as [(sb & ->)|(e & sb & ->)].
  2:{ unfold ret. rewrite close_run. intros H. apply (Hend _ _ H).
      left. split; [eexists; reflexivity | reflexivity]. }
  unfold bind at 1.
  destruct (select_metadata_columns_run svc conn sb)
    as [(sc & ->)|(e & sc & ->)].
  2:{ unfold ret. rewrite close_run. intros H. apply (Hend _ _ H).
      left. split; [eexists; reflexivity | reflexivity]. }
  unfold bind at 1.
  destruct (select_audit_columns_run svc conn sc)
    as [(sd & ->)|(e & sd & ->)].
  2:{ unfold ret. rewrite close_run. intros H. apply (Hend _ _ H).
      left. split; [eexists; reflexivity | reflexivity]. }
  unfold ret. rewrite close_run. intros H. apply (Hend _ _ H).
  right. clear. unfold complete, Pkg.all_in.
  generalize (forallb (fun col => has_string col (users_columns svc))
                      Pkg.required_user_columns).
  generalize (forallb (fun col => has_string col (metadata_columns svc))
                      Pkg.required_metadata_columns).
  generalize (forallb (fun col => has_string col (audit_columns svc))
                      Pkg.required_audit_columns).
  intros ba bm bu. cbn. destruct bu, bm, ba; reflexivity.
Qed.

(** X15.  [validate_database_schema] never raises and changes nothing.  Either a
    request failed, and the result carries the message under ['error'] and
    has no ['overall'] entry; or the three catalog queries were answered,
    and the result says for each table whether all its required columns
    exist, with ['overall'] true exactly when all three are. *)
Theorem validate_database_schema_never_raises :
  forall (svc : services) (s : state),
    exists (r : dict) (s1 : state),
      Pkg.validate_database_schema svc s = (Ok r, s1)
      /\ database s1 = database s
      /\ ((exists message, dict_get r "error" = Some (VStr message))
          /\ dict_get r "overall" = None
          \/ r = [("users_table",
                   Pkg.all_in Pkg.required_user_columns (users_columns svc));
                  ("metadata_table",
                   Pkg.all_in Pkg.required_metadata_columns (metadata_columns svc));
                  ("audit_table",
                   Pkg.all_in Pkg.required_audit_columns (audit_columns svc));
                  ("overall",
                   VBool (forallb (fun col => has_string col (users_columns svc))
                                  Pkg.required_user_columns
                          && forallb (fun col => has_string col (metadata_columns svc))
                                     Pkg.required_metadata_columns
                          && forallb (fun col => has_string col (audit_columns svc))
                                     Pkg.required_audit_columns))]).
Proof. exact validate_database_schema_run. Qed.

Lemma probe_run {A} (status : dict) k (m : M A) s :
  stable uncommitted m ->
  exists text s1,
    Pkg.probe status k m s = (Ok (dict_set status k (VStr text)), s1)
    /\ uncommitted s s1
    /\ (forall a sa, m s = (Ok a, sa) -> text = "healthy")
    /\ (forall e sa, m s = (Err e, sa) -> text = ("error: " ++ exn_msg e)%string).
Proof.
  intros Hm. unfold Pkg.probe, try_except, bind, ret.
  destruct (m s) as [[a|e] sa] eqn:E.
  - exists "healthy", sa. split; [reflexivity|]. split; [exact (Hm _ _ _ E)|].
    split; [reflexivity|]. intros e sb H. discriminate H.
  - exists ("error: " ++ exn_msg e)%string, sa. split; [reflexivity|].
    split; [exact (Hm _ _ _ E)|].
    split; [intros a sb H; discriminate H|].
    intros e' sb H. inversion H. reflexivity.
Qed.

Lemma uncommitted_describe_key svc key_id :
  stable uncommitted
    (emit (KmsDescribeKey key_id) ;;; lift (kms_describe_key svc key_id)).
Proof. uncommitted_steps. Qed.

Lemma uncommitted_connect_and_close svc :
  stable uncommitted (conn <- Pkg.get_db_connection svc ;; close conn).
Proof.
  apply quiet_uncommitted. quiet_db_steps.
Qed.

Lemma handle_health_check_run :
  forall (svc : services) (s : state),
    exists (h : dict) (s1 : state),
      Pkg.handle_health_check svc s
      = (Ok (mkResponse 200
               (VDict [("health", VDict h);
                       ("timestamp", VStr (gen_timestamp svc (ticks s1)));
                       ("success", VBool true)])), s1)
      /\ dict_keys h = ["lambda"; "kms"; "secrets_manager"; "database";
                        "database_schema"]
      /\ Forall (fun kv : string * pyval => exists text, snd kv = VStr text) h
      /\ dict_get h "lambda" = Some (VStr "healthy")
      /\ (dict_get h "kms" = Some (VStr "healthy")
          <-> kms_describe_key svc "alias/pii-level2" = Ok tt)
      /\ database s1 = database s.
Proof.
  intros svc s. unfold Pkg.handle_health_check. cbv zeta.
  match goal with
  | |- context [Pkg.probe ?st "kms" ?m] =>
      destruct (probe_run st "kms" m s (uncommitted_describe_key svc _))
        as (t1 & sa & E1 & Ua & Hok1 & Herr1)
  end.
  rewrite (bind_run _ _ _ _ _ E1).
  match goal with
  | |- context [Pkg.probe ?st "secrets_manager" ?m] =>
      destruct (probe_run st "secrets_manager" m sa (uncommitted_get_app_keys svc))
        as (t2 & sb & E2 & Ub & _)
  end.
  rewrite (bind_run _ _ _ _ _ E2).
  match goal with
  | |- context [Pkg.probe ?st "database" ?m] =>
      destruct (probe_run st "database" m sb (uncommitted_connect_and_close svc))
        as (t3 & sc & E3 & Uc & _)
  end.
  rewrite (bind_run _ _ _ _ _ E3).
  destruct (validate_database_schema_run svc sc) as (r & sd & Ev & _ & _).
  pose proof (quiet_uncommitted _ (quiet_validate_database_schema svc) _ _ _ Ev) as Ud.
  unfold bind at 1. unfold try_except at 1. unfold bind at 1. rewrite Ev.
  assert (Udb : database sd = database s).
  { destruct Ua as (Da & _), Ub as (Db & _), Uc as (Dc & _), Ud as (Dd & _).
    congruence. }
  assert (Hkms : t1 = "healthy" <-> kms_describe_key svc "alias/pii-level2" = Ok tt).
  { unfold bind, emit, lift in Hok1, Herr1. cbn in Hok1, Herr1.
    destruct (kms_describe_key svc "alias/pii-level2") as [[]|e].
    - split; [reflexivity|]. intros _. exact (Hok1 tt _ eq_refl).
    - split; [|discriminate]. intros Ht.
      rewrite (Herr1 e _ eq_refl) in Ht. discriminate Ht. }
  destruct (py_truthy (dict_get_or r "overall" (VBool false)));
    unfold ret; eexists; exists sd;
    (split; [reflexivity|]); (split; [reflexivity|]);
    (split; [cbn; repeat constructor; eexists; reflexivity|]);
    (split; [reflexivity|]); (split; [|exact Udb]);
    cbn; (split; [intros H; apply Hkms; congruence
                 | intros H; apply Hkms in H; congruence]).
Qed.

(** X16.  [handle_health_check] answers from every state: status 200,
    [success = True], and a health report with the five components, each a
    string, of which [lambda] is always ["healthy"] and [kms] is
    ["healthy"] exactly when [describe_key] succeeds.  No failing probe
    makes the operation raise, and nothing is committed. *)
Theorem health_check_always_answers :
  forall (svc : services) (s : state),
    exists (h : dict) (s1 : state),
      Pkg.handle_health_check svc s
      = (Ok (mkResponse 200
               (VDict [("health", VDict h);
                       ("timestamp", VStr (gen_timestamp svc (ticks s1)));
                       ("success", VBool true)])), s1)
      /\ dict_keys h = ["lambda"; "kms"; "secrets_manager"; "database";
                        "database_schema"]
      /\ Forall (fun kv : string * pyval => exists text, snd kv = VStr text) h
      /\ dict_get h "lambda" = Some (VStr "healthy")
      /\ (dict_get h "kms" = Some (VStr "healthy")
          <-> kms_describe_key svc "alias/pii-level2" = Ok tt)
      /\ database s1 = database s.
Proof. exact handle_health_check_run. Qed.
(** ** The audit row *)

Lemma execute_insert_audit_row svc conn uid f l op by_ ip ok err s conn1 s1 :
  execute_insert_audit svc conn uid f l op by_ ip ok err s = (Ok conn1, s1) ->
  exists t,
    conn1 = mkTables (users conn) (encryption_metadata conn)
                     (encryption_audit conn
                        ++ [mkAudit uid f l op by_ ip ok err t]).
Proof.
  unfold execute_insert_audit. intros H.
  apply bind_ok_inv in H. destruct H as (u & sa & _ & H).
  inversion H; subst. eexists. reflexivity.
Qed.

Lemma log_audit_rows svc user_id field_name operation success error ip s :
  exists s1,
    Pkg.log_audit svc user_id field_name operation success error ip s = (Ok tt, s1)
    /\ (database s1 = database s
        \/ exists t,
             database s1
             = mkTables (users (database s)) (encryption_metadata (database s))
                 (encryption_audit (database s)
                    ++ [mkAudit user_id field_name
                                (Pkg.classify_pii_level field_name) operation
                                "lambda-encryption-service" ip success error t])).
Proof.
  unfold Pkg.log_audit.
  destruct (Pkg.get_db_connection svc s) as [[conn|e] sa] eqn:Hc.
  2:{ exists sa. split; [reflexivity|]. left.
      exact (proj1 (proj1 (quiet_get_db_connection _ _ _ _ Hc))). }
  pose proof (get_db_connection_ok _ _ _ _ Hc) as ->.
  apply quiet_get_db_connection in Hc. destruct Hc as ((Hd0 & _) & _).
  unfold try_finally, try_except, bind.
  destruct (execute_insert_audit svc (database s) user_id field_name
              (Pkg.classify_pii_level field_name) operation
              "lambda-encryption-service" ip success error sa)
    as [[conn1|e] sb] eqn:Hi.
  - pose proof (quiet_insert_audit _ _ _ _ _ _ _ _ _ _ _ _ _ Hi) as ((Hd1 & _) & _).
    apply execute_insert_audit_row in Hi. destruct Hi as (t & ->).
    destruct (commit _ sb) as [[[]|e] sc] eqn:Hco.
    + rewrite close_run. eexists. split; [reflexivity|]. right.
      apply commit_ok in Hco. destruct Hco as (Hdb & _).
      exists t. exact Hdb.
    + unfold ret. rewrite close_run. eexists. split; [reflexivity|]. left.
      apply commit_err in Hco. destruct Hco as (Hdb & _). simpl. congruence.
  - unfold ret. rewrite close_run. eexists. split; [reflexivity|]. left.
    pose proof (quiet_insert_audit _ _ _ _ _ _ _ _ _ _ _ _ _ Hi) as ((Hd1 & _) & _).
    simpl. congruence.
Qed.

(** X17.  [log_audit] changes the committed tables in one way only: it appends
    one row to the audit table, holding the given user, field, operation,
    outcome and address, the classified level of the field and the accessor
    ["lambda-encryption-service"]; when the connection, the insert or the
    commit fails, the tables are left exactly as they were. *)
Theorem log_audit_appends_one_row_or_nothing :
  forall (svc : services) (user_id : pyval) (field_name operation : string)
         (success : bool) (error ip : pyval) (s : state),
    exists s1,
      Pkg.log_audit svc user_id field_name operation success error ip s = (Ok tt, s1)
      /\ (database s1 = database s
          \/ exists t,
               database s1
               = mkTables (users (database s)) (encryption_metadata (database s))
                   (encryption_audit (database s)
                      ++ [mkAudit user_id field_name
                                  (Pkg.classify_pii_level field_name) operation
                                  "lambda-encryption-service" ip success error t])).
Proof. exact log_audit_rows. Qed.

(** ** The create operation *)

Lemma uncommitted_encrypt_loop svc items acc :
  stable uncommitted (for_fold items acc (Pkg.encrypt_entry svc)).
Proof.
  apply stable_for_fold; [exact uncommitted_refl | exact uncommitted_trans |].
  intros a x. apply uncommitted_encrypt_entry.
Qed.

Lemma metadata_rows_of_user user_id metadata :
  Forall (fun m => m_user_id m = user_id) (Pkg.metadata_rows_of user_id metadata).
Proof.
  unfold Pkg.metadata_rows_of. apply Forall_forall. intros m Hin.
  apply in_map_iff in Hin. destruct Hin as (entry & <- & _). reflexivity.
Qed.

(** X18.  [handle_create_user_operation] is all or nothing.  When it answers,
    the status is 200, exactly one user row has been added, its fresh id is
    the [user_id] of the answer, and the metadata rows added all belong to
    that user.  When it raises, whether in the encryption of a field or in
    the database, the committed tables are exactly as before: an input
    whose third field cannot be encrypted leaves no trace of the first
    two. *)
Theorem create_user_operation_is_all_or_nothing :
  forall (svc : services) (event : dict) (s : state),
    match Pkg.handle_create_user_operation svc event s with
    | (Ok resp, s1) =>
        exists (row : user_row) (rows : list meta_row),
          statusCode resp = 200%Z
          /\ py_getitem (body resp) "user_id" = Ok (VStr (u_id row))
          /\ py_getitem (body resp) "success" = Ok (VBool true)
          /\ users (database s1) = users (database s) ++ [row]
          /\ ~ In (u_id row) (map u_id (users (database s)))
          /\ encryption_metadata (database s1)
             = encryption_metadata (database s) ++ rows
          /\ Forall (fun m => m_user_id m = u_id row) rows
    | (Err e, s1) => database s1 = database s
    end.
Proof.
  intros svc event s. unfold Pkg.handle_create_user_operation. cbv zeta.
  destruct (negb (py_truthy (dict_get_or event "data" (VDict [])))).
  { reflexivity. }
  unfold bind at 1.
  destruct (Pkg.py_items (dict_get_or event "data" (VDict [])) s)
    as [[items|e] s0] eqn:Hi.
  2:{ destruct (dict_get_or event "data" (VDict [])); inversion Hi; reflexivity. }
  assert (Hs0 : s0 = s).
  { destruct (dict_get_or event "data" (VDict [])); inversion Hi; reflexivity. }
  subst s0. unfold bind at 1.
  destruct (for_fold items Pkg.empty_result (Pkg.encrypt_entry svc) s)
    as [[er|e] sa] eqn:Hloop.
  2:{ exact (proj1 (uncommitted_encrypt_loop _ _ _ _ _ _ Hloop)). }
  pose proof (proj1 (uncommitted_encrypt_loop _ _ _ _ _ _ Hloop)) as Hda.
  unfold bind at 1.
  destruct (Pkg.store_encrypted_user svc er sa) as [[user_id|e] sb] eqn:Hstore.
  2:{ apply store_encrypted_user_err in Hstore. destruct Hstore as (Hdb & _).
      congruence. }
  apply store_encrypted_user_ok in Hstore.
  destruct Hstore as (row & before & Hid & _ & Hfresh & Hsb & _).
  destruct (create_user_finish_run svc user_id items sb)
    as (s1 & -> & (_ & Hu & Hm)).
  exists row, (Pkg.metadata_rows_of user_id (Pkg.ed_metadata er)).
  rewrite Hda in Hfresh, Hsb. subst user_id.
  split; [reflexivity|]. split; [reflexivity|]. split; [reflexivity|].
  rewrite Hu, Hm, Hsb. cbn [users encryption_metadata].
  split; [reflexivity|]. split; [exact Hfresh|]. split; [reflexivity|].
  apply metadata_rows_of_user.
Qed.

(** ** Which operations change the user records *)

Lemma same_records_refl s : same_records s s.
Proof. split; reflexivity. Qed.

Lemma same_records_trans a b c :
  same_records a b -> same_records b c -> same_records a c.
Proof. intros (U1 & M1) (U2 & M2). split; congruence. Qed.

Lemma same_database_records s s1 : database s1 = database s -> same_records s s1.
Proof. intros H. unfold same_records. rewrite H. split; reflexivity. Qed.

Lemma stable_weaken (R R' : state -> state -> Prop) {A} (m : M A) :
  (forall s s1, R s s1 -> R' s s1) -> stable R m -> stable R' m.
Proof. intros Hw Hm s r s1 H. exact (Hw _ _ (Hm _ _ _ H)). Qed.

Lemma records_of_uncommitted {A} (m : M A) :
  stable uncommitted m -> stable same_records m.
Proof.
  apply stable_weaken. intros s s1 (H & _). exact (same_database_records _ _ H).
Qed.

Lemma records_of_quiet {A} (m : M A) : stable quiet m -> stable same_records m.
Proof. intros H. apply records_of_uncommitted, quiet_uncommitted, H. Qed.

Lemma records_of_offline {A} (m : M A) : stable offline m -> stable same_records m.
Proof.
  apply stable_weaken. intros s s1 (H & _). exact (same_database_records _ _ H).
Qed.

Lemma records_log_audit svc user_id field_name operation success error ip :
  stable same_records
    (try_except (Pkg.log_audit svc user_id field_name operation success error ip)
                (fun _ => ret tt)).
Proof.
  intros s r s1 H. unfold try_except in H.
  destruct (log_audit_run svc user_id field_name operation success error ip s)
    as (s1' & E & (_ & Hu & Hm)).
  rewrite E in H. inversion H; subst. split; assumption.
Qed.

Lemma records_get_user_entry svc user_id metadata acc entry :
  stable same_records (Pkg.get_user_entry svc user_id metadata acc entry).
Proof.
  unfold Pkg.get_user_entry. destruct entry as [field_name value].
  destruct (is_none value); [apply stable_ret; exact same_records_refl|].
  destruct (endswith field_name "_encrypted");
    [|apply stable_ret; exact same_records_refl].
  cbv zeta.
  apply stable_bind; [exact same_records_trans | |].
  { apply records_of_offline, offline_decrypt_field. }
  intros decrypted.
  apply stable_bind; [exact same_records_trans | apply records_log_audit |].
  intros _. apply stable_ret. exact same_records_refl.
Qed.

Lemma records_json_response code default_str payload :
  stable same_records (Pkg.json_response code default_str payload).
Proof. apply records_of_offline, offline_json_response. Qed.

Lemma records_handle_get_user_operation svc event :
  stable same_records (Pkg.handle_get_user_operation svc event).
Proof.
  unfold Pkg.handle_get_user_operation. cbv zeta.
  destruct (negb (py_truthy (dict_get_or event "user_id" VNone)));
    [apply stable_raise; exact same_records_refl|].
  apply stable_bind; [exact same_records_trans | |].
  { apply records_of_quiet, quiet_retrieve_encrypted_user. }
  intros [encrypted_data metadata].
  apply stable_bind; [exact same_records_trans | | intros d; apply records_json_response].
  apply stable_for_fold; [exact same_records_refl | exact same_records_trans |].
  intros acc x. apply records_get_user_entry.
Qed.

Lemma quiet_py_int v : stable quiet (Pkg.py_int v).
Proof. destruct v; simpl; quiet_steps. Qed.

Lemma quiet_json_response code default_str payload :
  stable quiet (Pkg.json_response code default_str payload).
Proof. unfold Pkg.json_response. quiet_steps. Qed.

Lemma quiet_handle_list_users_operation svc event :
  stable quiet (Pkg.handle_list_users_operation svc event).
Proof.
  unfold Pkg.handle_list_users_operation. cbv zeta.
  apply stable_bind; [exact quiet_trans | apply quiet_list_users |].
  intros result.
  apply stable_bind; [exact quiet_trans | apply quiet_py_int |]. intros off.
  apply stable_bind; [exact quiet_trans | apply quiet_py_int |]. intros total.
  apply quiet_json_response.
Qed.

Lemma quiet_handle_audit_trail_operation svc event :
  stable quiet (Pkg.handle_audit_trail_operation svc event).
Proof.
  unfold Pkg.handle_audit_trail_operation. cbv zeta.
  apply stable_bind; [exact quiet_trans | apply quiet_get_audit_trail |].
  intros result. apply quiet_json_response.
Qed.

Lemma records_handle_health_check svc : stable same_records (Pkg.handle_health_check svc).
Proof.
  intros s r s1 H.
  destruct (handle_health_check_run svc s) as (h & s1' & E & _ & _ & _ & _ & Hdb).
  rewrite E in H. inversion H; subst. exact (same_database_records _ _ Hdb).
Qed.

(** X19.  Of the eight operations of the package handler only [create_user] and
    [delete_user] can change the users or their metadata: for every other
    event, known or not, and whatever the outcome, the [users] and
    [encryption_metadata] tables after the invocation are the ones
    before. *)
Theorem only_create_and_delete_change_user_records :
  forall (svc : services) (event : dict) (s : state),
    py_eq_str (dict_get_or event "operation" VNone) "create_user" = false ->
    py_eq_str (dict_get_or event "operation" VNone) "delete_user" = false ->
    same_records s (snd (Pkg.lambda_handler svc event s)).
Proof.
  intros svc event s Hcreate Hdelete.
  assert (Hd : stable same_records (Pkg.dispatch svc event)).
  { unfold Pkg.dispatch.
    apply stable_bind; [exact same_records_trans | |].
    { intros s0 r s1 H. inversion H; subst. split; reflexivity. }
    intros _. cbv zeta. rewrite Hcreate, Hdelete.
    destruct (negb (py_truthy (dict_get_or event "operation" VNone)));
      [apply stable_raise; exact same_records_refl|].
    destruct (py_eq_str _ "get_user"); [apply records_handle_get_user_operation|].
    destruct (py_eq_str _ "encrypt");
      [apply records_of_offline, offline_handle_encrypt_operation|].
    destruct (py_eq_str _ "decrypt");
      [apply records_of_offline, offline_handle_decrypt_operation|].
    destruct (py_eq_str _ "health"); [apply records_handle_health_check|].
    destruct (py_eq_str _ "list_users");
      [apply records_of_quiet, quiet_handle_list_users_operation|].
    destruct (py_eq_str _ "audit_trail");
      [apply records_of_quiet, quiet_handle_audit_trail_operation|].
    apply stable_raise. exact same_records_refl. }
  unfold Pkg.lambda_handler.
  destruct (Pkg.dispatch svc event s) as [[r|e] s1] eqn:H; exact (Hd _ _ _ H).
Qed.

Lemma only_create_and_delete_change_user_records_witness :
  same_records Demo.after_create
    (snd (Pkg.lambda_handler Demo.env Demo.get_event Demo.after_create)).
Proof.
  apply (only_create_and_delete_change_user_records Demo.env Demo.get_event
           Demo.after_create); reflexivity.
Defined.

(** ** The envelope of every answer *)

Lemma returns_bind {A B} (P : B -> Prop) (m : M A) (k : A -> M B) :
  (forall a, returns P (k a)) -> returns P (bind m k).
Proof.
  intros Hk s b s2 H. apply bind_ok_inv in H. destruct H as (a & s1 & _ & H).
  exact (Hk _ _ _ _ H).
Qed.

Lemma returns_raise {A} (P : A -> Prop) e : returns P (raise e).
Proof. intros s a s1 H. discriminate H. Qed.

Lemma dict_get_stringify (d : dict) k v :
  dict_get d k = Some v ->
  dict_get (map (fun kv : string * pyval =>
                   let (k0, x) := kv in (k0, stringify_objects x)) d) k
  = Some (stringify_objects v).
Proof.
  induction d as [|[k0 v0] d IH]; cbn [dict_get map]; [discriminate|].
  destruct (String.eqb k0 k); [|exact IH].
  intros H. inversion H. reflexivity.
Qed.

Lemma returns_success_envelope default_str payload :
  dict_get payload "success" = Some (VBool true) ->
  returns success_envelope (Pkg.json_response 200 default_str payload).
Proof.
  intros Hs s r s1 H. unfold Pkg.json_response in H.
  apply bind_ok_inv in H. destruct H as (text & sa & Ht & H).
  apply lift_ok_inv in Ht. destruct Ht as [Ht ->].
  inversion H; subst r s1; clear H. split; [reflexivity|].
  cbn [body]. unfold json_dumps in Ht. destruct default_str.
  - inversion Ht; subst text. cbn [stringify_objects py_getitem].
    rewrite (dict_get_stringify _ _ _ Hs). reflexivity.
  - destruct (json_serializable (VDict payload)); inversion Ht; subst text.
    cbn [py_getitem]. rewrite Hs. reflexivity.
Qed.

Lemma returns_for_each_then {A B} (P : B -> Prop) (xs : list A) body (k : M B) :
  returns P k -> returns P (for_each xs body ;;; k).
Proof. intros Hk. apply returns_bind. intros _. exact Hk. Qed.

Lemma package_dispatch_returns_success svc event :
  returns success_envelope (Pkg.dispatch svc event).
Proof.
  unfold Pkg.dispatch. apply returns_bind. intros _. cbv zeta.
  destruct (negb (py_truthy (dict_get_or event "operation" VNone)));
    [apply returns_raise|].
  destruct (py_eq_str _ "create_user").
  { unfold Pkg.handle_create_user_operation. cbv zeta.
    destruct (negb _); [apply returns_raise|].
    do 3 (apply returns_bind; intros ?).
    unfold Pkg.create_user_finish. apply returns_bind. intros _.
    apply returns_success_envelope. reflexivity. }
  destruct (py_eq_str _ "get_user").
  { unfold Pkg.handle_get_user_operation. cbv zeta.
    destruct (negb _); [apply returns_raise|].
    apply returns_bind. intros [encrypted_data metadata].
    apply returns_bind. intros d.
    apply returns_success_envelope. reflexivity. }
  destruct (py_eq_str _ "encrypt").
  { unfold Pkg.handle_encrypt_operation. cbv zeta.
    destruct (negb _); [apply returns_raise|].
    do 2 (apply returns_bind; intros ?).
    apply returns_success_envelope. reflexivity. }
  destruct (py_eq_str _ "decrypt").
  { unfold Pkg.handle_decrypt_operation. cbv zeta.
    destruct (negb _); [apply returns_raise|].
    do 2 (apply returns_bind; intros ?).
    apply returns_success_envelope. reflexivity. }
  destruct (py_eq_str _ "health").
  { intros s r s1 H.
    destruct (handle_health_check_run svc s) as (h & s1' & E & _).
    rewrite E in H. inversion H; subst. split; reflexivity. }
  destruct (py_eq_str _ "list_users").
  { unfold Pkg.handle_list_users_operation. cbv zeta.
    do 3 (apply returns_bind; intros ?).
    apply returns_success_envelope. reflexivity. }
  destruct (py_eq_str _ "delete_user").
  { unfold Pkg.handle_delete_user_operation. cbv zeta.
    destruct (negb _); [apply returns_raise|].
    apply returns_bind; intros ?.
    apply returns_success_envelope. reflexivity. }
  destruct (py_eq_str _ "audit_trail").
  { unfold Pkg.handle_audit_trail_operation. cbv zeta.
    apply returns_bind; intros ?.
    apply returns_success_envelope. reflexivity. }
  apply returns_raise.
Qed.

(** X20.  Every answer of the package [lambda_handler] has one of two shapes:
    status 200 with [success = True] in the body, when the operation
    returned; or status 500 with [success = False] and the message of the
    exception under ['error'], when it raised.  No other status code is
    ever produced. *)
Theorem package_answers_are_200_or_500 :
  forall (svc : services) (event : dict) (s : state),
    match Pkg.dispatch svc event s with
    | (Ok _, _) => success_envelope (fst (Pkg.lambda_handler svc event s))
    | (Err e, _) =>
        error_envelope 500 (fst (Pkg.lambda_handler svc event s))
        /\ py_getitem (body (fst (Pkg.lambda_handler svc event s))) "error"
           = Ok (VStr (exn_msg e))
    end.
Proof.
  intros svc event s. unfold Pkg.lambda_handler.
  destruct (Pkg.dispatch svc event s) as [[r|e] s1] eqn:H.
  - exact (package_dispatch_returns_success svc event _ _ _ H).
  - split; [|reflexivity].
    split; [reflexivity|]. split; [reflexivity|]. eexists. reflexivity.
Qed.

(** * The generated handler *)

(** ** Its engine inverts itself too *)

(** X21.  In the generated handler a value of a field classified at level 2 or 3
    is one envelope encryption away from its plaintext: whenever
    [encrypt_field] succeeds on a non-empty value, [decrypt_field] applied
    to the returned value gives the value back, both with the level the
    result records (as [get_user] passes it) and with no level at all (the
    classifier decides).  The collaborators are taken to be lawful. *)
Theorem generated_encrypt_decrypt_round_trip :
  forall (svc : services) (LAW : lawful svc)
         (name v : string) (s s1 : state) (d : dict),
    (Generated.classify_pii_level name = 2
     \/ Generated.classify_pii_level name = 3)%Z ->
    v <> "" ->
    Generated.encrypt_field svc name (VStr v) s = (Ok (VDict d), s1) ->
    exists c,
      dict_get d "value" = Some c
      /\ dict_get d "level" = Some (VInt (Generated.classify_pii_level name))
      /\ dict_get d "encrypted" = Some (VBool true)
      /\ forall s',
          fst (Generated.decrypt_field svc name c
                 (VInt (Generated.classify_pii_level name)) s')
          = Ok (VStr v)
          /\ fst (Generated.decrypt_field svc name c VNone s') = Ok (VStr v).
Proof.
  intros svc LAW name v s s1 d Hl Hv. unfold Generated.encrypt_field.
  change (is_none_or_empty (VStr v)) with (String.eqb v "").
  rewrite (string_eqb_empty_false _ Hv). cbv zeta.
  assert (Hdec : forall blob pt l s',
             (l = 2 \/ l = 3)%Z ->
             utf8_encode svc v = Ok pt ->
             (exists key_id, kms_encrypt svc key_id pt = Ok blob) ->
             fst (Generated.decrypt_field svc name (VStr (b64encode svc blob))
                    (VInt l) s') = Ok (VStr v)).
  { intros blob pt l s' Hlev Hpt (key_id & Hk). unfold Generated.decrypt_field.
    change (is_none_or_empty (VStr (b64encode svc blob)))
      with (String.eqb (b64encode svc blob) "").
    rewrite (b64encode_blob_nonempty svc LAW _ _ _ Hk). cbn [is_none].
    assert (E : py_eq_int (VInt l) 1 = false
                /\ py_eq_int (VInt l) 2 || py_eq_int (VInt l) 3 = true).
    { destruct Hlev as [->| ->]; split; reflexivity. }
    destruct E as [-> ->].
    unfold Pkg.b64decode_value, bind, lift. rewrite (b64_inverse svc LAW).
    unfold Pkg.kms_decrypt_call, bind, emit, lift. cbn.
    rewrite (kms_inverse svc LAW _ _ _ Hk), (utf8_inverse svc LAW _ _ Hpt).
    reflexivity. }
  destruct Hl as [Hl|Hl]; rewrite Hl; cbn [Z.eqb Pos.eqb]; intros H.
  - apply bind_ok_inv in H. destruct H as (pt & sa & Henc & H).
    apply lift_ok_inv in Henc. destruct Henc as [Henc ->].
    apply bind_ok_inv in H. destruct H as (blob & sb & Hk & H).
    apply kms_encrypt_call_ok in Hk. destruct Hk as [Hk ->].
    inversion H; subst d; clear H.
    eexists. split; [reflexivity|]. split; [reflexivity|]. split; [reflexivity|].
    intros s'. split.
    + apply (Hdec blob pt 2%Z s'); [left; reflexivity | exact Henc |].
      eexists. exact Hk.
    + assert (Hn : Generated.decrypt_field svc name (VStr (b64encode svc blob)) VNone s'
                   = Generated.decrypt_field svc name (VStr (b64encode svc blob))
                       (VInt 2) s').
      { unfold Generated.decrypt_field. cbn [is_none]. rewrite Hl. reflexivity. }
      rewrite Hn. apply (Hdec blob pt 2%Z s'); [left; reflexivity | exact Henc |].
      eexists. exact Hk.
  - apply bind_ok_inv in H. destruct H as (pt & sa & Henc & H).
    apply lift_ok_inv in Henc. destruct Henc as [Henc ->].
    apply bind_ok_inv in H. destruct H as (blob & sb & Hk & H).
    apply kms_encrypt_call_ok in Hk. destruct Hk as [Hk ->].
    inversion H; subst d; clear H.
    eexists. split; [reflexivity|]. split; [reflexivity|]. split; [reflexivity|].
    intros s'. split.
    + apply (Hdec blob pt 3%Z s'); [right; reflexivity | exact Henc |].
      eexists. exact Hk.
    + assert (Hn : Generated.decrypt_field svc name (VStr (b64encode svc blob)) VNone s'
                   = Generated.decrypt_field svc name (VStr (b64encode svc blob))
                       (VInt 3) s').
      { unfold Generated.decrypt_field. cbn [is_none]. rewrite Hl. reflexivity. }
      rewrite Hn. apply (Hdec blob pt 3%Z s'); [right; reflexivity | exact Henc |].
      eexists. exact Hk.
Qed.

Lemma generated_encrypt_decrypt_round_trip_witness :
  exists c,
    dict_get Scenario.generated_ssn "value" = Some c
    /\ dict_get Scenario.generated_ssn "level"
       = Some (VInt (Generated.classify_pii_level "ssn"))
    /\ dict_get Scenario.generated_ssn "encrypted" = Some (VBool true)
    /\ forall s',
        fst (Generated.decrypt_field Demo.env "ssn" c
               (VInt (Generated.classify_pii_level "ssn")) s')
        = Ok (VStr Demo.ssn)
        /\ fst (Generated.decrypt_field Demo.env "ssn" c VNone s') = Ok (VStr Demo.ssn).
Proof.
  apply (generated_encrypt_decrypt_round_trip Demo.env demo_lawful "ssn" Demo.ssn
           Demo.start
           (snd (Generated.encrypt_field Demo.env "ssn" (VStr Demo.ssn) Demo.start))
           Scenario.generated_ssn).
  - right. reflexivity.
  - discriminate.
  - vm_compute. reflexivity.
Defined.

(** ** [create_user] of the generated handler *)

Lemma uncommitted_generated_encrypt_field svc name value :
  stable uncommitted (Generated.encrypt_field svc name value).
Proof.
  unfold Generated.encrypt_field. cbv zeta.
  destruct (is_none_or_empty value); [uncommitted_steps|].
  destruct (Generated.classify_pii_level name =? 1)%Z; [uncommitted_steps|].
  destruct (Generated.classify_pii_level name =? 2)%Z.
  { unfold Pkg.kms_encrypt_call. uncommitted_steps. apply uncommitted_str_encode. }
  destruct (Generated.classify_pii_level name =? 3)%Z; [|uncommitted_steps].
  unfold Pkg.kms_encrypt_call. uncommitted_steps. apply uncommitted_str_encode.
Qed.

Lemma uncommitted_py_get_or v k d : stable uncommitted (Pkg.py_get_or v k d).
Proof. destruct v; simpl; uncommitted_steps. Qed.

Lemma uncommitted_create_user_entry svc acc entry :
  stable uncommitted (Generated.create_user_entry svc acc entry).
Proof.
  unfold Generated.create_user_entry. destruct acc as [insert_data records].
  destruct entry as [input value].
  destruct (dict_mem Generated.FIELD_MAPPING input); [|uncommitted_steps].
  apply stable_bind;
    [exact uncommitted_trans | apply uncommitted_generated_encrypt_field |].
  intros result. uncommitted_steps;
    first [apply uncommitted_py_get | apply uncommitted_py_get_or].
Qed.

(** What [encrypt_field] of the generated handler returns under ['db_field'] *)
Lemma generated_encrypt_field_db_field svc name value s r s1 db_field :
  Generated.encrypt_field svc name value s = (Ok r, s1) ->
  py_getitem r "db_field" = Ok db_field ->
  db_field = VStr (dict_get_or Generated.FIELD_MAPPING name name).
Proof.
  unfold Generated.encrypt_field. cbv zeta.
  destruct (is_none_or_empty value).
  { intros H Hd. inversion H; subst r. inversion Hd. reflexivity. }
  destruct (Generated.classify_pii_level name =? 1)%Z.
  { intros H Hd. inversion H; subst r. inversion Hd. reflexivity. }
  destruct (Generated.classify_pii_level name =? 2)%Z.
  { intros H Hd.
    apply bind_ok_inv in H. destruct H as (pt & sa & _ & H).
    apply bind_ok_inv in H. destruct H as (blob & sb & _ & H).
    inversion H; subst r. inversion Hd. reflexivity. }
  destruct (Generated.classify_pii_level name =? 3)%Z.
  { intros H Hd.
    apply bind_ok_inv in H. destruct H as (pt & sa & _ & H).
    apply bind_ok_inv in H. destruct H as (blob & sb & _ & H).
    inversion H; subst r. inversion Hd. reflexivity. }
  intros H Hd. inversion H; subst r. discriminate Hd.
Qed.

Lemma create_user_entry_ok svc insert_data records input value s insert_data'
      records' s1 :
  Generated.create_user_entry svc (insert_data, records) (input, value) s
  = (Ok (insert_data', records'), s1) ->
  (dict_mem Generated.FIELD_MAPPING input = false
   /\ insert_data' = insert_data /\ records' = records)
  \/ (exists column out record,
         dict_get Generated.FIELD_MAPPING input = Some column
         /\ insert_data' = dict_set insert_data column out
         /\ records' = records ++ [record]
         /\ Generated.field_name record = input).
Proof.
  unfold Generated.create_user_entry.
  unfold dict_mem. destruct (dict_get Generated.FIELD_MAPPING input) as [column|] eqn:Hmap.
  2:{ intros H. inversion H. left. repeat split. }
  intros H. right.
  apply bind_ok_inv in H. destruct H as (result & sa & He & H).
  apply bind_ok_inv in H. destruct H as (db_field & sb & Hd & H).
  apply lift_ok_inv in Hd. destruct Hd as [Hd ->].
  pose proof (generated_encrypt_field_db_field _ _ _ _ _ _ _ He Hd) as ->.
  unfold dict_get_or in H. rewrite Hmap in H. cbn [py_str] in H.
  apply bind_ok_inv in H. destruct H as (out & sc & _ & H).
  apply bind_ok_inv in H. destruct H as (lvl & sd & _ & H).
  apply bind_ok_inv in H. destruct H as (kms_key & se & _ & H).
  apply bind_ok_inv in H. destruct H as (method & sf & _ & H).
  inversion H; subst.
  exists column, out, (Generated.mkRecord input lvl kms_key method).
  repeat split.
Qed.

Lemma create_user_loop_ok svc user_data :
  forall insert_data records s insert_data' records' s1,
    for_fold user_data (insert_data, records) (Generated.create_user_entry svc) s
    = (Ok (insert_data', records'), s1) ->
    map Generated.field_name records'
    = map Generated.field_name records
        ++ filter (dict_mem Generated.FIELD_MAPPING) (dict_keys user_data)
    /\ forall column,
        In column (dict_keys insert_data') ->
        In column (dict_keys insert_data)
        \/ exists input, In input (dict_keys user_data)
                         /\ dict_get Generated.FIELD_MAPPING input = Some column.
Proof.
  induction user_data as [|[input value] rest IH];
    intros insert_data records s insert_data' records' s1 H.
  - inversion H; subst. cbn. rewrite app_nil_r. split; [reflexivity|].
    intros column Hin. left. exact Hin.
  - cbn [for_fold] in H. apply bind_ok_inv in H.
    destruct H as ([data1 records1] & sa & He & H).
    apply IH in H. destruct H as (Hnames & Hcols).
    apply create_user_entry_ok in He.
    cbn [dict_keys map fst filter].
    destruct He as [(Hm & -> & ->)|(column & out & record & Hmap & -> & -> & Hname)].
    + rewrite Hm. split; [exact Hnames|].
      intros c Hin. destruct (Hcols c Hin) as [Hc|(i & Hi & Hmi)];
        [left; exact Hc | right; exists i; split; [right; exact Hi | exact Hmi]].
    + unfold dict_mem at 1. rewrite Hmap. split.
      * rewrite Hnames, map_app. cbn [map]. rewrite Hname, <- app_assoc.
        reflexivity.
      * intros c Hin. destruct (Hcols c Hin) as [Hc|(i & Hi & Hmi)].
        { apply dict_set_keys in Hc. destruct Hc as [->|Hc].
          - right. exists input. split; [left; reflexivity | exact Hmap].
          - left. exact Hc. }
        { right. exists i. split; [right; exact Hi | exact Hmi]. }
Qed.

Lemma insert_metadata_records_ok user_id records :
  forall conn1 s conn2 s1,
    for_fold records conn1 (Generated.insert_metadata_record user_id) s
    = (Ok conn2, s1) ->
    exists rows,
      conn2 = mkTables (users conn1) (encryption_metadata conn1 ++ rows)
                       (encryption_audit conn1)
      /\ Forall (fun m => m_user_id m = user_id) rows
      /\ map m_field_name rows = map Generated.field_name records.
Proof.
  induction records as [|record records IH]; intros conn1 s conn2 s1 H; cbn [for_fold] in H.
  - inversion H; subst. exists []. rewrite app_nil_r.
    split; [destruct conn2; reflexivity|]. split; [constructor | reflexivity].
  - apply bind_ok_inv in H. destruct H as (c & sa & Hc & H).
    unfold Generated.insert_metadata_record, execute_insert_metadata in Hc.
    apply bind_ok_inv in Hc. destruct Hc as (u & sb & _ & Hc).
    destruct (existsb _ (users conn1)); [|discriminate].
    inversion Hc; subst c sb; clear Hc.
    apply IH in H. destruct H as (rows & -> & Hall & Hnames).
    eexists (_ :: rows). cbn [users encryption_metadata encryption_audit].
    split; [rewrite <- app_assoc; reflexivity|].
    split; [constructor; [reflexivity | exact Hall]|].
    cbn [map m_field_name]. rewrite Hnames. reflexivity.
Qed.

Lemma quiet_insert_metadata_records user_id records conn1 :
  stable quiet (for_fold records conn1 (Generated.insert_metadata_record user_id)).
Proof.
  apply stable_for_fold; [exact quiet_refl | exact quiet_trans |].
  intros acc x. apply quiet_insert_metadata.
Qed.

Lemma generated_create_user_body_run svc conn user_data s :
  match Generated.create_user_body svc conn user_data s with
  | (Ok result, s1) =>
      exists (row : user_row) (rows : list meta_row),
        dict_get result "user_id" = Some (VStr (u_id row))
        /\ database s1
           = mkTables (users conn ++ [row]) (encryption_metadata conn ++ rows)
                      (encryption_audit conn)
        /\ ~ In (u_id row) (map u_id (users conn))
        /\ Forall (fun m => m_user_id m = u_id row) rows
        /\ map m_field_name rows
           = filter (dict_mem Generated.FIELD_MAPPING) (dict_keys user_data)
        /\ forall column value,
            In (column, value) (u_cols row) ->
            exists input, In input (dict_keys user_data)
                          /\ dict_get Generated.FIELD_MAPPING input = Some column
  | (Err e, s1) => database s1 = database s
  end.
Proof.
  unfold Generated.create_user_body. unfold bind at 1.
  destruct (for_fold user_data ([], []) (Generated.create_user_entry svc) s)
    as [[[insert_data records]|e] sa] eqn:Hloop.
  2:{ refine (proj1 (stable_for_fold uncommitted uncommitted_refl uncommitted_trans
                       _ _ _ _ _ _ _ Hloop)).
      intros acc x. apply uncommitted_create_user_entry. }
  assert (Hda : database sa = database s).
  { refine (proj1 (stable_for_fold uncommitted uncommitted_refl uncommitted_trans
                     _ _ _ _ _ _ _ Hloop)).
    intros acc x. apply uncommitted_create_user_entry. }
  apply create_user_loop_ok in Hloop. destruct Hloop as (Hnames & Hcols).
  cbv zeta.
  destruct (filter _ (dict_keys insert_data)) as [|field fields] eqn:Hav.
  { exact Hda. }
  unfold bind at 1.
  match goal with
  | |- context [execute_insert_user svc conn ?cs ?vs sa] =>
      destruct (execute_insert_user svc conn cs vs sa) as [[[conn1 row]|e] sb] eqn:Hi
  end.
  2:{ pose proof (quiet_insert_user _ _ _ _ _ _ _ Hi) as ((Hd & _) & _). congruence. }
  pose proof (quiet_insert_user _ _ _ _ _ _ _ Hi) as ((Hdb & _) & _).
  apply execute_insert_user_ok in Hi. destruct Hi as (-> & Hrow & Hfresh).
  unfold bind at 1.
  destruct (for_fold records _ (Generated.insert_metadata_record (u_id row)) sb)
    as [[conn2|e] sc] eqn:Hm.
  2:{ pose proof (quiet_insert_metadata_records _ _ _ _ _ _ Hm) as ((Hd & _) & _).
      congruence. }
  pose proof (quiet_insert_metadata_records _ _ _ _ _ _ Hm) as ((Hdc & _) & _).
  apply insert_metadata_records_ok in Hm. destruct Hm as (rows & -> & Hall & Hrn).
  cbn [users encryption_metadata encryption_audit].
  unfold bind at 1.
  destruct (commit _ sc) as [[[]|e] sd] eqn:Hco.
  2:{ apply commit_err in Hco. destruct Hco as (Hd & _). congruence. }
  apply commit_ok in Hco. destruct Hco as (Hdd & _).
  unfold ret. exists row, rows.
  split; [reflexivity|]. split; [exact Hdd|]. split; [exact Hfresh|].
  split; [exact Hall|]. split.
  - rewrite Hrn, Hnames. reflexivity.
  - intros column value Hin. rewrite Hrow in Hin. apply in_combine_l in Hin.
    rewrite <- Hav in Hin. apply filter_In in Hin. destruct Hin as [Hin _].
    destruct (Hcols _ Hin) as [[]|H]. exact H.
Qed.

Lemma quiet_generated_get_db_connection svc :
  stable quiet (Generated.get_db_connection svc).
Proof. exact (quiet_get_db_connection svc). Qed.

Lemma generated_get_db_connection_ok svc s conn s1 :
  Generated.get_db_connection svc s = (Ok conn, s1) -> conn = database s.
Proof. exact (get_db_connection_ok svc s conn s1). Qed.

(** X22.  [create_user] of the generated handler is atomic as well.  When it
    returns, one user row has been added, with a fresh id that the result
    carries, made only of columns that [FIELD_MAPPING] gives for input
    fields; and one metadata row has been added for every input field that
    is a key of [FIELD_MAPPING], level 1 and empty values included, in the
    order of the input, while the input fields that are not keys of the
    mapping leave no row.  When it raises, the committed tables are exactly
    as before. *)
Theorem generated_create_user_is_atomic :
  forall (svc : services) (user_data : dict) (s : state),
    match Generated.create_user svc user_data s with
    | (Ok result, s1) =>
        exists (row : user_row) (rows : list meta_row),
          dict_get result "user_id" = Some (VStr (u_id row))
          /\ users (database s1) = users (database s) ++ [row]
          /\ encryption_metadata (database s1)
             = encryption_metadata (database s) ++ rows
          /\ ~ In (u_id row) (map u_id (users (database s)))
          /\ Forall (fun m => m_user_id m = u_id row) rows
          /\ map m_field_name rows
             = filter (dict_mem Generated.FIELD_MAPPING) (dict_keys user_data)
          /\ forall column value,
              In (column, value) (u_cols row) ->
              exists input, In input (dict_keys user_data)
                            /\ dict_get Generated.FIELD_MAPPING input = Some column
    | (Err e, s1) => database s1 = database s
    end.
Proof.
  intros svc user_data s. unfold Generated.create_user.
  destruct (Generated.get_db_connection svc s) as [[conn|e] sa] eqn:Hc.
  2:{ exact (proj1 (proj1 (quiet_generated_get_db_connection _ _ _ _ Hc))). }
  pose proof (generated_get_db_connection_ok _ _ _ _ Hc) as ->.
  apply quiet_generated_get_db_connection in Hc. destruct Hc as ((Hd0 & _) & _).
  unfold try_finally, try_except.
  pose proof (generated_create_user_body_run svc (database s) user_data sa) as Hb.
  destruct (Generated.create_user_body svc (database s) user_data sa)
    as [[result|e] sb].
  - rewrite close_run. cbn [database set_trace].
    destruct Hb as (row & rows & H1 & H2 & H3 & H4 & H5 & H6).
    exists row, rows. rewrite H2. cbn [users encryption_metadata].
    repeat split; assumption.
  - destruct (rollback_then_raise (A := dict) (database s) e sb)
      as (e' & sc & -> & Hd2 & _).
    rewrite close_run. simpl. congruence.
Qed.

(** ** [get_user] of the generated handler *)

Lemma uncommitted_b64decode_value svc v :
  stable uncommitted (Pkg.b64decode_value svc v).
Proof. destruct v; simpl; uncommitted_steps. Qed.

Lemma uncommitted_generated_decrypt_field svc name value level :
  stable uncommitted (Generated.decrypt_field svc name value level).
Proof.
  unfold Generated.decrypt_field.
  destruct (is_none_or_empty value); [uncommitted_steps|]. cbv zeta.
  destruct (py_eq_int _ 1); [uncommitted_steps|].
  destruct (py_eq_int _ 2 || py_eq_int _ 3); [|uncommitted_steps].
  unfold Pkg.kms_decrypt_call. uncommitted_steps. apply uncommitted_b64decode_value.
Qed.

Lemma uncommitted_generated_get_user_entry svc metadata_map result entry :
  stable uncommitted (Generated.get_user_entry svc metadata_map result entry).
Proof.
  unfold Generated.get_user_entry. destruct entry as [db_field value].
  destruct (has_string db_field _); [uncommitted_steps|]. cbv zeta.
  destruct (negb (is_none value) && dict_mem metadata_map _); [|uncommitted_steps].
  apply stable_bind; [exact uncommitted_trans | |].
  { unfold Generated.py_gt_one. destruct (dict_get_or metadata_map _ VNone);
      uncommitted_steps. }
  intros [|]; [|uncommitted_steps].
  apply stable_try_except; [exact uncommitted_trans | | intros e; uncommitted_steps].
  apply stable_bind;
    [exact uncommitted_trans | apply uncommitted_generated_decrypt_field |].
  intros d. uncommitted_steps.
Qed.

Lemma uncommitted_generated_get_user_body svc conn user_id :
  stable uncommitted (Generated.get_user_body svc conn user_id).
Proof.
  unfold Generated.get_user_body. cbv zeta.
  apply stable_bind; [exact uncommitted_trans | |].
  { apply quiet_uncommitted, quiet_select_user. }
  intros [[|kv row]|]; try (apply stable_ret; exact uncommitted_refl).
  apply stable_bind; [exact uncommitted_trans | |].
  { apply quiet_uncommitted, quiet_select_metadata. }
  intros rows.
  apply stable_bind; [exact uncommitted_trans | | intros final; uncommitted_steps].
  apply stable_for_fold; [exact uncommitted_refl | exact uncommitted_trans |].
  intros acc x. apply uncommitted_generated_get_user_entry.
Qed.

Lemma uncommitted_generated_get_user svc user_id :
  stable uncommitted (Generated.get_user svc user_id).
Proof.
  intros s r s1. unfold Generated.get_user.
  destruct (Generated.get_db_connection svc s) as [[conn|e] sa] eqn:Hc.
  2:{ intros H. inversion H; subst.
      exact (proj1 (quiet_generated_get_db_connection _ _ _ _ Hc)). }
  intros H. eapply uncommitted_trans;
    [exact (proj1 (quiet_generated_get_db_connection _ _ _ _ Hc))|].
  revert H. generalize sa r s1.
  refine (stable_try_finally uncommitted uncommitted_trans _ _ _ _).
  - apply uncommitted_generated_get_user_body.
  - apply quiet_uncommitted, quiet_close.
Qed.

Lemma generated_get_user_entry_ok svc metadata_map result db_field value s r s1 :
  Generated.get_user_entry svc metadata_map result (db_field, value) s = (Ok r, s1) ->
  (Generated.is_system_column db_field = true /\ r = result)
  \/ (Generated.is_system_column db_field = false
      /\ exists out, r = dict_set result (Generated.input_field_of db_field) out).
Proof.
  unfold Generated.get_user_entry.
  change (has_string db_field ["id"; "created_at"; "updated_at"])
    with (Generated.is_system_column db_field).
  destruct (Generated.is_system_column db_field).
  { intros H. inversion H. left. split; reflexivity. }
  intros H. right. split; [reflexivity|]. cbv zeta in H.
  change (dict_get_or Generated.reverse_mapping db_field db_field)
    with (Generated.input_field_of db_field) in H.
  destruct (negb (is_none value) && dict_mem metadata_map _).
  2:{ inversion H. eexists. reflexivity. }
  apply bind_ok_inv in H. destruct H as (above & sa & _ & H).
  destruct above.
  2:{ inversion H. eexists. reflexivity. }
  unfold try_except in H.
  destruct ((decrypted <- Generated.decrypt_field svc _ value _ ;; _)%py sa)
    as [[x|e] sb] eqn:E.
  - inversion H; subst. apply bind_ok_inv in E. destruct E as (d & sc & _ & E).
    inversion E. eexists. reflexivity.
  - inversion H. eexists. reflexivity.
Qed.

Lemma generated_get_user_loop_ok svc metadata_map user_data :
  forall result s final s1,
    for_fold user_data result (Generated.get_user_entry svc metadata_map) s
    = (Ok final, s1) ->
    (forall k, ~ In k (Generated.written_fields user_data) ->
               dict_get final k = dict_get result k)
    /\ (forall k, In k (dict_keys final) ->
                  In k (dict_keys result) \/ In k (Generated.written_fields user_data)).
Proof.
  induction user_data as [|[db v] rest IH]; intros result s final s1 H.
  - inversion H; subst. split; [reflexivity|]. intros k Hk. left. exact Hk.
  - cbn [for_fold] in H. apply bind_ok_inv in H. destruct H as (r & sa & He & H).
    apply IH in H. destruct H as (Hother & Hkeys).
    apply generated_get_user_entry_ok in He.
    rewrite written_fields_cons.
    destruct He as [(-> & ->)|(-> & out & ->)].
    + split; assumption.
    + split.
      * intros k Hk. rewrite Hother by (intros Hin; apply Hk; right; exact Hin).
        apply dict_get_set_other. intros E. apply Hk. left. symmetry. exact E.
      * intros k Hk. destruct (Hkeys k Hk) as [Hin|Hin]; [|right; right; exact Hin].
        apply dict_set_keys in Hin. destruct Hin as [->|Hin];
          [right; left; reflexivity | left; exact Hin].
Qed.

Lemma generated_get_user_run svc user_id s :
  match Generated.get_user svc user_id s with
  | (Ok None, s1) =>
      find (id_matches svc user_id) (users (database s)) = None
      /\ database s1 = database s
  | (Ok (Some result), s1) =>
      exists u,
        find (id_matches svc user_id) (users (database s)) = Some u
        /\ dict_get result "user_id" = Some (VStr (u_id u))
        /\ dict_get result "created_at" = Some (VStr (u_created_at u))
        /\ (forall k, In k (dict_keys result) ->
                      In k ["user_id"; "created_at"; "email"; "first_name";
                            "last_name"; "phone"; "address"; "date_of_birth";
                            "ip_address"; "ssn"; "bank_account"; "credit_card"])
        /\ database s1 = database s
  | (Err e, s1) => database s1 = database s
  end.
Proof.
  destruct (Generated.get_user svc user_id s) as [[r|e] s1] eqn:H.
  2:{ exact (proj1 (uncommitted_generated_get_user _ _ _ _ _ H)). }
  pose proof (proj1 (uncommitted_generated_get_user _ _ _ _ _ H)) as Hdb.
  revert H. unfold Generated.get_user.
  destruct (Generated.get_db_connection svc s) as [[conn|e] sa] eqn:Hc; [|discriminate].
  pose proof (generated_get_db_connection_ok _ _ _ _ Hc) as ->.
  intros H. apply try_finally_close_ok in H. destruct H as (sb & H & _).
  unfold Generated.get_user_body in H. cbv zeta in H.
  apply bind_ok_inv in H. destruct H as (found & sc & Hsel & H).
  apply execute_select_user_ok in Hsel.
  destruct (find (id_matches svc user_id) (users (database s))) as [u|] eqn:Hf.
  2:{ cbn [option_map] in Hsel. subst found. inversion H. split; [reflexivity | exact Hdb]. }
  cbn [option_map] in Hsel. subst found.
  set (select_fields := filter (fun col => negb (String.eqb col "updated_at"))
                               Generated.schema_users_columns) in *.
  change (user_dict select_fields u)
    with (("id", user_column u "id") :: tl (user_dict select_fields u)) in H.
  cbv beta iota in H.
  change (("id", user_column u "id") :: tl (user_dict select_fields u))
    with (user_dict select_fields u) in H.
  apply bind_ok_inv in H. destruct H as (rows & sd & _ & H).
  apply bind_ok_inv in H. destruct H as (final & se & Hloop & H).
  inversion H; subst r; clear H.
  apply generated_get_user_loop_ok in Hloop. destruct Hloop as (Hother & Hkeys).
  change (Generated.written_fields (user_dict select_fields u))
    with ["email"; "first_name"; "last_name"; "phone"; "address";
          "date_of_birth"; "ip_address"; "ssn"; "bank_account"; "credit_card"]
    in Hother, Hkeys.
  exists u. split; [reflexivity|]. split; [|split; [|split; [|exact Hdb]]].
  - rewrite Hother; [reflexivity|].
    cbn [In]. intros Hin.
    repeat (destruct Hin as [Hin|Hin]; [discriminate Hin|]). exact Hin.
  - rewrite Hother; [reflexivity|].
    cbn [In]. intros Hin.
    repeat (destruct Hin as [Hin|Hin]; [discriminate Hin|]). exact Hin.
  - intros k Hk. destruct (Hkeys k Hk) as [Hin|Hin].
    + cbn [dict_keys map fst In] in Hin. cbn [In].
      destruct Hin as [<-|[<-|[]]]; auto.
    + cbn [In] in *. tauto.
Qed.

(** X23.  [get_user] of the generated handler never changes the tables.  It
    returns [None] exactly when no user has the id; otherwise the result
    carries the id and the creation time of the row found and, besides
    these two, only the ten input field names of the mapping: no
    [_encrypted] column name, and no [updated_at], reaches the caller. *)
Theorem generated_get_user_finds_the_user_or_returns_none :
  forall (svc : services) (user_id : pyval) (s : state),
    match Generated.get_user svc user_id s with
    | (Ok None, s1) =>
        find (id_matches svc user_id) (users (database s)) = None
        /\ database s1 = database s
    | (Ok (Some result), s1) =>
        exists u,
          find (id_matches svc user_id) (users (database s)) = Some u
          /\ dict_get result "user_id" = Some (VStr (u_id u))
          /\ dict_get result "created_at" = Some (VStr (u_created_at u))
          /\ (forall k, In k (dict_keys result) ->
                        In k ["user_id"; "created_at"; "email"; "first_name";
                              "last_name"; "phone"; "address"; "date_of_birth";
                              "ip_address"; "ssn"; "bank_account"; "credit_card"])
          /\ database s1 = database s
    | (Err e, s1) => database s1 = database s
    end.
Proof. exact generated_get_user_run. Qed.

(** ** The statuses of the generated handler *)

Lemma returns_error_envelope code payload message :
  dict_get payload "success" = Some (VBool false) ->
  dict_get payload "error" = Some (VStr message) ->
  returns (error_envelope code) (Pkg.json_response code false payload).
Proof.
  intros Hs He s r s1 H. unfold Pkg.json_response in H.
  apply bind_ok_inv in H. destruct H as (text & sa & Ht & H).
  apply lift_ok_inv in Ht. destruct Ht as [Ht ->].
  inversion H; subst r s1; clear H.
  unfold json_dumps in Ht.
  destruct (json_serializable (VDict payload)); inversion Ht; subst text.
  split; [reflexivity|]. cbn [body py_getitem]. rewrite Hs, He.
  split; [reflexivity|]. exists message. reflexivity.
Qed.

Lemma returns_weaken {A} (P Q : A -> Prop) (m : M A) :
  (forall a, P a -> Q a) -> returns P m -> returns Q m.
Proof. intros Hw Hm s a s1 H. exact (Hw _ (Hm _ _ _ H)). Qed.

(** X24.  An answer of the generated [lambda_handler] is of one of four kinds:
    200 with [success = True] when the operation returned a result; 404,
    only for [get_user], when no user was found; 400, only for an operation
    tag that is not one of the five supported ones; 500 when something
    raised.  The last three carry [success = False] and a message under
    ['error']. *)
Theorem generated_answers_carry_their_status :
  forall (svc : services) (event : dict) (s : state),
    let operation := dict_get_or event "operation" VNone in
    match Generated.dispatch svc event s with
    | (Ok r, s1) =>
        Generated.lambda_handler svc event s = (r, s1)
        /\ (success_envelope r
            \/ (error_envelope 404 r /\ py_eq_str operation "get_user" = true)
            \/ (error_envelope 400 r
                /\ forallb (fun known => negb (py_eq_str operation known))
                           Generated.supported_operations = true))
    | (Err e, _) =>
        error_envelope 500 (fst (Generated.lambda_handler svc event s))
    end.
Proof.
  intros svc event s operation.
  assert (Hd : returns
                 (fun r =>
                    success_envelope r
                    \/ (error_envelope 404 r /\ py_eq_str operation "get_user" = true)
                    \/ (error_envelope 400 r
                        /\ forallb (fun known => negb (py_eq_str operation known))
                                   Generated.supported_operations = true))
                 (Generated.dispatch svc event)).
  { unfold Generated.dispatch. apply returns_bind. intros _. cbv zeta.
    fold operation.
    destruct (negb (py_truthy operation)); [apply returns_raise|].
    destruct (py_eq_str operation "health") eqn:E1.
    { unfold Generated.handle_health. cbv zeta.
      do 3 (apply returns_bind; intros ?).
      intros s0 r s1 H. left.
      refine (returns_success_envelope false _ _ _ _ _ H). reflexivity. }
    destruct (py_eq_str operation "create_user") eqn:E2.
    { destruct (negb _); [apply returns_raise|].
      do 2 (apply returns_bind; intros ?).
      eapply returns_weaken; [|apply returns_success_envelope; reflexivity].
      intros resp H. left. exact H. }
    destruct (py_eq_str operation "get_user") eqn:E3.
    { destruct (negb _); [apply returns_raise|].
      apply returns_bind. intros [result|].
      - eapply returns_weaken; [|apply returns_success_envelope; reflexivity].
        intros a H. left. exact H.
      - eapply returns_weaken;
          [|apply (returns_error_envelope 404 _ "User not found"); reflexivity].
        intros a H. right. left. split; [exact H | reflexivity]. }
    destruct (py_eq_str operation "list_users") eqn:E4.
    { apply returns_bind; intros ?.
      eapply returns_weaken; [|apply returns_success_envelope; reflexivity].
      intros resp H. left. exact H. }
    destruct (py_eq_str operation "audit_trail") eqn:E5.
    { apply returns_bind; intros ?.
      eapply returns_weaken; [|apply returns_success_envelope; reflexivity].
      intros resp H. left. exact H. }
    intros s0 r s1 H. inversion H; subst r s1; clear H. right. right. split.
    - split; [reflexivity|]. split; [reflexivity|]. eexists. reflexivity.
    - cbn [forallb Generated.supported_operations].
      rewrite E1, E2, E3, E4, E5. reflexivity. }
  unfold Generated.lambda_handler.
  destruct (Generated.dispatch svc event s) as [[r|e] s1] eqn:H.
  - split; [reflexivity|]. exact (Hd _ _ _ H).
  - split; [reflexivity|]. split; [reflexivity|]. eexists. reflexivity.
Qed.

(** ** The encrypt and decrypt operations compose *)

Lemma substring_skip_app (s t : string) :
  substring (String.length s) (String.length t) (s ++ t) = t.
Proof.
  induction s as [|c s IH]; cbn [String.length String.append].
  - induction t as [|c t IH]; [reflexivity|].
    cbn [String.length substring]. rewrite IH. reflexivity.
  - cbn [substring]. exact IH.
Qed.

Lemma string_length_app (s t : string) :
  String.length (s ++ t) = String.length s + String.length t.
Proof.
  induction s as [|c s IH]; cbn [String.length String.append Nat.add];
    [reflexivity | rewrite IH; reflexivity].
Qed.

Lemma endswith_app (s t : string) : endswith (s ++ t) t = true.
Proof.
  unfold endswith. rewrite string_length_app.
  replace (String.length s + String.length t - String.length t)
    with (String.length s) by lia.
  rewrite substring_skip_app, String.eqb_refl.
  rewrite andb_true_r. apply Nat.leb_le. lia.
Qed.

Lemma dict_get_map_value {V W} (g : V -> W) (d : list (string * V)) k :
  dict_get (map (fun kv : string * V => (fst kv, g (snd kv))) d) k
  = option_map g (dict_get d k).
Proof.
  induction d as [|[k0 v0] d IH]; cbn [map dict_get fst snd]; [reflexivity|].
  destruct (String.eqb k0 k); [reflexivity | exact IH].
Qed.

(** [decrypt_field] on what [encrypt_field] returned, with the metadata
    the handlers keep *)
Lemma decrypt_encrypted_result svc (LAW : lawful svc) name v s s1 d :
  (Pkg.classify_pii_level name = 2 \/ Pkg.classify_pii_level name = 3)%Z ->
  v <> "" ->
  Pkg.encrypt_field svc name (VStr v) s = (Ok (VDict d), s1) ->
  exists text,
    dict_get d "value" = Some (VStr text)
    /\ forall s', app_keys_cache s' = app_keys_cache s1 ->
         fst (Pkg.decrypt_field svc name (VStr text)
                (Some (Pkg.field_metadata d)) s')
         = Ok (VStr v).
Proof.
  intros [Hl|Hl] Hv H.
  - apply encrypt_field_level2_ok in H; try assumption.
    destruct H as (pt & blob & Hpt & Hk & Hd & ->). inversion Hd; subst d; clear Hd.
    eexists. split; [reflexivity|].
    intros s' _. unfold Pkg.decrypt_field.
    change (is_none_or_empty (VStr (b64encode svc blob)))
      with (String.eqb (b64encode svc blob) "").
    rewrite (b64encode_blob_nonempty svc LAW _ _ _ Hk). simpl.
    unfold bind, lift. rewrite (b64_inverse svc LAW).
    unfold Pkg.kms_decrypt_call, bind, emit, lift. simpl.
    rewrite (kms_inverse svc LAW _ _ _ Hk), (utf8_inverse svc LAW _ _ Hpt).
    reflexivity.
  - apply encrypt_field_level3_ok in H; try assumption.
    destruct H as (keys & version & key_text & key & pt & blob & pre
                   & Hcache & Hver & Hkey & Henc & Hok & Hpt & Hk & Hd & _).
    inversion Hd; subst d; clear Hd.
    eexists. split; [reflexivity|].
    intros s' Hs'. unfold Pkg.decrypt_field.
    change (is_none_or_empty (VStr (b64encode svc blob)))
      with (String.eqb (b64encode svc blob) "").
    rewrite (b64encode_blob_nonempty svc LAW _ _ _ Hk). simpl.
    unfold bind at 1. unfold lift at 1. rewrite (b64_inverse svc LAW).
    unfold bind at 1.
    unfold Pkg.kms_decrypt_call, bind at 1, emit, lift. simpl.
    rewrite (kms_inverse svc LAW _ _ _ Hk).
    erewrite bind_run.
    2:{ apply get_app_cipher_for_version_run with (keys := keys) (key_text := key_text);
        try eassumption. simpl. rewrite Hs'. exact Hcache. }
    unfold Pkg.cipher_decrypt, bind, emit, lift. simpl.
    rewrite (fernet_inverse svc LAW _ _ Hok), (utf8_inverse svc LAW _ _ Hpt).
    reflexivity.
Qed.

(** X25.  What the loop of the [encrypt] operation writes for a level-2 or
    level-3 field is what the loop of the [decrypt] operation needs: the
    value stored under [<name>_encrypted], handed with the returned metadata
    to one step of the decrypt loop, puts the original value back under
    [<name>].  The field name must not itself contain the suffix (stripping
    [_encrypted] from [<name>_encrypted] must give [<name>]). *)
Theorem encrypt_and_decrypt_entries_compose :
  forall (svc : services) (LAW : lawful svc) (name v : string)
         (acc er : Pkg.encrypted_data) (s s1 : state),
    (Pkg.classify_pii_level name = 2 \/ Pkg.classify_pii_level name = 3)%Z ->
    v <> "" ->
    replace (name ++ "_encrypted") "_encrypted" "" = name ->
    Pkg.encrypt_entry svc acc (name, VStr v) s = (Ok er, s1) ->
    exists c,
      dict_get (Pkg.ed_fields er) (name ++ "_encrypted") = Some c
      /\ forall (s' : state) (out : dict),
          app_keys_cache s' = app_keys_cache s1 ->
          fst (Pkg.decrypt_entry svc
                 (VDict (map (fun kv : string * dict => (fst kv, VDict (snd kv)))
                             (Pkg.ed_metadata er)))
                 out ((name ++ "_encrypted")%string, c) s')
          = Ok (dict_set out name (VStr v)).
Proof.
  intros svc LAW name v acc er s s1 Hl Hv Hname H.
  assert (Hrec : (2 <= Pkg.recorded_level svc name (VStr v))%Z).
  { unfold Pkg.recorded_level. cbn [py_str].
    rewrite (string_eqb_empty_false _ Hv). destruct Hl as [-> | ->]; lia. }
  destruct (encrypt_entry_keeps_field_metadata svc acc name (VStr v) s er s1 H
              eq_refl Hrec) as (d & He & Hmd & Hfield).
  cbn [py_str] in He.
  destruct (decrypt_encrypted_result svc LAW name v s s1 d Hl Hv He)
    as (text & Hvalue & Hround).
  exists (VStr text). split; [rewrite Hfield; exact Hvalue|].
  intros s' out Hs'. unfold Pkg.decrypt_entry. cbn [is_none].
  rewrite endswith_app. cbv zeta. rewrite Hname.
  unfold Pkg.py_get_or, dict_get_or. rewrite dict_get_map_value, Hmd.
  cbn [option_map]. unfold bind at 1, ret at 1. cbn [Pkg.as_metadata].
  unfold bind.
  specialize (Hround s' Hs').
  match goal with
  | |- context [Pkg.decrypt_field ?a ?b ?c ?m ?e] =>
      destruct (Pkg.decrypt_field a b c m e) as [r sx] eqn:E
  end.
  assert (Hr : fst (r, sx) = Ok (VStr v)) by (rewrite <- E; exact Hround).
  cbn [fst] in Hr. subst r. reflexivity.
Qed.

Lemma encrypt_and_decrypt_entries_compose_witness :
  exists c,
    dict_get (Pkg.ed_fields Scenario.encrypted_ssn_entry) "ssn_encrypted" = Some c
    /\ forall (s' : state) (out : dict),
        app_keys_cache s' = app_keys_cache Demo.after_ssn ->
        fst (Pkg.decrypt_entry Demo.env
               (VDict (map (fun kv : string * dict => (fst kv, VDict (snd kv)))
                           (Pkg.ed_metadata Scenario.encrypted_ssn_entry)))
               out ("ssn_encrypted", c) s')
        = Ok (dict_set out "ssn" (VStr Demo.ssn)).
Proof.
  apply (encrypt_and_decrypt_entries_compose Demo.env demo_lawful "ssn" Demo.ssn
           Pkg.empty_result Scenario.encrypted_ssn_entry Demo.start Demo.after_ssn).
  - right. reflexivity.
  - discriminate.
  - reflexivity.
  - vm_compute. reflexivity.
Defined.

(** ** The credentials [get_db_connection] needs *)

Lemma get_db_credentials_fetch svc s creds :
  db_credentials_cache s = None ->
  get_secret_value svc Pkg.db_credentials_secret = Ok creds ->
  Pkg.get_db_credentials svc s
  = (Ok creds,
     set_db_credentials_cache (Some creds)
       (set_trace (trace s ++ [GetSecretValue Pkg.db_credentials_secret]) s)).
Proof.
  intros Hc Hs. unfold Pkg.get_db_credentials. rewrite Hc.
  unfold bind, emit, lift. cbn. rewrite Hs. reflexivity.
Qed.

Ltac first_missing :=
  split; [cbn; auto 10|];
  split; [assumption|];
  split; [unfold dict_mem; cbn [find];
          repeat match goal with E : dict_get _ _ = _ |- _ => rewrite E; clear E end;
          reflexivity|];
  split; reflexivity.

(** X26.  [get_db_connection] reads the five entries [host], [port], [database],
    [username] and [password] of the credentials secret before it connects:
    when one of them is missing it raises [KeyError] for the first missing
    one, in that order, and no connection is attempted.  The layout that
    [generate-keys.py] prints for the secret, which names the database
    [dbname], is refused in this way. *)
Theorem get_db_connection_needs_the_five_credentials :
  forall (svc : services) (s : state) (creds : dict),
    db_credentials_cache s = None ->
    get_secret_value svc Pkg.db_credentials_secret = Ok (VDict creds) ->
    forallb (dict_mem creds) ["host"; "port"; "database"; "username"; "password"]
    = false ->
    exists missing s1,
      Pkg.get_db_connection svc s = (Err (KeyError missing), s1)
      /\ In missing ["host"; "port"; "database"; "username"; "password"]
      /\ dict_get creds missing = None
      /\ find (fun key => negb (dict_mem creds key))
              ["host"; "port"; "database"; "username"; "password"]
         = Some missing
      /\ trace s1 = trace s ++ [GetSecretValue Pkg.db_credentials_secret]
      /\ database s1 = database s.
Proof.
  intros svc s creds Hc Hs Hmissing.
  unfold Pkg.get_db_connection. unfold bind at 1.
  rewrite (get_db_credentials_fetch svc s (VDict creds) Hc Hs).
  unfold dict_mem in Hmissing. cbn [forallb] in Hmissing.
  unfold bind, lift. cbn [py_getitem].
  destruct (dict_get creds "host") eqn:E1.
  2:{ eexists. eexists. split; [reflexivity|]. first_missing. }
  destruct (dict_get creds "port") eqn:E2.
  2:{ eexists. eexists. split; [reflexivity|]. first_missing. }
  destruct (dict_get creds "database") eqn:E3.
  2:{ eexists. eexists. split; [reflexivity|]. first_missing. }
  destruct (dict_get creds "username") eqn:E4.
  2:{ eexists. eexists. split; [reflexivity|]. first_missing. }
  destruct (dict_get creds "password") eqn:E5.
  2:{ eexists. eexists. split; [reflexivity|]. first_missing. }
  discriminate Hmissing.
Qed.

Lemma get_db_connection_needs_the_five_credentials_witness :
  exists missing s1,
    Pkg.get_db_connection Scenario.env_with_printed_secrets Demo.start
    = (Err (KeyError missing), s1)
    /\ In missing ["host"; "port"; "database"; "username"; "password"]
    /\ dict_get (Infrastructure.db_credentials_json "secret") missing = None
    /\ find (fun key => negb (dict_mem (Infrastructure.db_credentials_json "secret") key))
            ["host"; "port"; "database"; "username"; "password"]
       = Some missing
    /\ trace s1 = trace Demo.start ++ [GetSecretValue Pkg.db_credentials_secret]
    /\ database s1 = database Demo.start.
Proof.
  apply (get_db_connection_needs_the_five_credentials
           Scenario.env_with_printed_secrets Demo.start
           (Infrastructure.db_credentials_json "secret")); reflexivity.
Defined.

(** The layout printed for the key secret, on the other hand, is the one
    the engine reads: version 1 is current and its key is found. *)
Example printed_key_secret_is_accepted :
  fst (Pkg.get_current_app_cipher Scenario.env_with_printed_secrets Demo.start)
  = Ok (list_byte_of_string "key-one")
  /\ fst (Pkg.get_db_connection Scenario.env_with_printed_secrets Demo.start)
     = Err (KeyError "database").
Proof. split; vm_compute; reflexivity. Qed.

(** * The retries of the backend *)

Lemma invoke_loop_step invoke retry_attempts attempt rest c :
  Backend.failed (invoke (Backend.invocations c)) = true ->
  (attempt =? retry_attempts - 1)%Z = false ->
  Backend.invoke_loop invoke retry_attempts (attempt :: rest) c
  = Backend.invoke_loop invoke retry_attempts rest
      (Backend.sleep (2 ^ attempt) (Backend.invoked c)).
Proof.
  intros Hf Hlast. cbn [Backend.invoke_loop].
  destruct (invoke (Backend.invocations c)); [discriminate Hf | |];
    rewrite Hlast; reflexivity.
Qed.

Lemma invoke_loop_last invoke retry_attempts attempt rest c :
  Backend.failed (invoke (Backend.invocations c)) = true ->
  (attempt =? retry_attempts - 1)%Z = true ->
  exists e,
    Backend.invoke_loop invoke retry_attempts (attempt :: rest) c
    = (Err e, Backend.invoked c)
    /\ exn_type e = "Exception".
Proof.
  intros Hf Hlast. cbn [Backend.invoke_loop].
  destruct (invoke (Backend.invocations c)); [discriminate Hf | |];
    rewrite Hlast; eexists; split; reflexivity.
Qed.

Ltac counters_agree :=
  repeat match goal with H : _ |- _ => clear H end; lia.

Lemma invoke_loop_run invoke retry_attempts :
  forall (m a : nat) (c : Backend.client),
    Z.of_nat (a + m) = retry_attempts ->
    (forall k r,
        k < m ->
        (forall j, j < k -> Backend.failed (invoke (Backend.invocations c + j)) = true) ->
        invoke (Backend.invocations c + k) = Backend.Returned r ->
        Backend.invoke_loop invoke retry_attempts
          (map Z.of_nat (seq a m)) c
        = (Ok r,
           Backend.mkClient (Backend.invocations c + k + 1)
             (Backend.slept c
                ++ map (fun j => (2 ^ Z.of_nat j)%Z) (seq a k))))
    /\ (0 < m ->
        (forall j, j < m -> Backend.failed (invoke (Backend.invocations c + j)) = true) ->
        exists e,
          Backend.invoke_loop invoke retry_attempts
            (map Z.of_nat (seq a m)) c
          = (Err e,
             Backend.mkClient (Backend.invocations c + m)
               (Backend.slept c
                  ++ map (fun j => (2 ^ Z.of_nat j)%Z) (seq a (m - 1))))
          /\ exn_type e = "Exception").
Proof.
  induction m as [|m IH]; intros a c Hn.
  { split; [intros k r Hk; lia | intros Hm; lia]. }
  cbn [seq map]. split.
  - intros k r Hk Hfail Hret. destruct k as [|k].
    + cbn [Backend.invoke_loop]. rewrite Nat.add_0_r in Hret. rewrite Hret.
      unfold Backend.invoked. cbn [seq map]. rewrite app_nil_r.
      replace (Backend.invocations c + 0 + 1) with (S (Backend.invocations c))
        by counters_agree.
      reflexivity.
    + rewrite invoke_loop_step.
      * destruct (IH (S a) (Backend.sleep (2 ^ Z.of_nat a) (Backend.invoked c)))
          as (H1 & _); [lia|].
        cbn [Backend.sleep Backend.invoked Backend.invocations Backend.slept] in H1.
        rewrite (H1 k r).
        { cbn [seq map]. rewrite <- app_assoc. cbn [app].
          replace (S (Backend.invocations c) + k + 1)
            with (Backend.invocations c + S k + 1) by counters_agree.
          reflexivity. }
        { lia. }
        { intros j Hj. replace (S (Backend.invocations c) + j)
            with (Backend.invocations c + S j) by lia. apply Hfail. lia. }
        { replace (S (Backend.invocations c) + k)
            with (Backend.invocations c + S k) by lia. exact Hret. }
      * specialize (Hfail 0). rewrite Nat.add_0_r in Hfail. apply Hfail. lia.
      * apply Z.eqb_neq. lia.
  - intros _ Hfail.
    assert (H0 : Backend.failed (invoke (Backend.invocations c)) = true).
    { specialize (Hfail 0). rewrite Nat.add_0_r in Hfail. apply Hfail. lia. }
    destruct m as [|m].
    + destruct (invoke_loop_last invoke retry_attempts (Z.of_nat a) [] c H0)
        as (e & He & Ht).
      { apply Z.eqb_eq. lia. }
      exists e. cbn [seq map] in *. rewrite He. split; [|exact Ht].
      unfold Backend.invoked. cbn [Nat.sub seq map]. rewrite app_nil_r.
      replace (Backend.invocations c + 1) with (S (Backend.invocations c))
        by counters_agree.
      reflexivity.
    + rewrite invoke_loop_step; [|exact H0 | apply Z.eqb_neq; lia].
      destruct (IH (S a) (Backend.sleep (2 ^ Z.of_nat a) (Backend.invoked c)))
        as (_ & H2); [lia|].
      cbn [Backend.sleep Backend.invoked Backend.invocations Backend.slept] in H2.
      destruct H2 as (e & He & Ht); [lia | |].
      { intros j Hj. replace (S (Backend.invocations c) + j)
          with (Backend.invocations c + S j) by lia. apply Hfail. lia. }
      exists e. rewrite He. split; [|exact Ht].
      replace (S (S m) - 1) with (S (S m - 1)) by counters_agree.
      cbn [seq map]. rewrite <- app_assoc. cbn [app].
      replace (S (Backend.invocations c) + S m)
        with (Backend.invocations c + S (S m)) by counters_agree.
      reflexivity.
Qed.

(** X27.  [_invoke_lambda] stops at the first invocation that returns: when the
    first [k] invocations fail and the next one returns, with
    [k < retry_attempts], it returns that answer after [k + 1] invocations,
    having slept 1, 2, 4, ..., [2^(k-1)] seconds between them.  When the
    first [retry_attempts] invocations all fail it raises [Exception] after
    exactly [retry_attempts] invocations, never sleeping after the last.
    With [retry_attempts <= 0] it invokes nothing and returns [None]. *)
Theorem invoke_lambda_retries_with_exponential_backoff :
  forall (invoke : nat -> Backend.attempt_outcome) (retry_attempts : Z),
    (forall k r,
        (Z.of_nat k < retry_attempts)%Z ->
        (forall j, j < k -> Backend.failed (invoke j) = true) ->
        invoke k = Backend.Returned r ->
        Backend._invoke_lambda invoke retry_attempts (Backend.mkClient 0 [])
        = (Ok r, Backend.mkClient (k + 1) (Backend.backoff k)))
    /\ ((0 < retry_attempts)%Z ->
        (forall j, (Z.of_nat j < retry_attempts)%Z ->
                   Backend.failed (invoke j) = true) ->
        exists e,
          Backend._invoke_lambda invoke retry_attempts (Backend.mkClient 0 [])
          = (Err e,
             Backend.mkClient (Z.to_nat retry_attempts)
                              (Backend.backoff (Z.to_nat retry_attempts - 1)))
          /\ exn_type e = "Exception")
    /\ ((retry_attempts <= 0)%Z ->
        Backend._invoke_lambda invoke retry_attempts (Backend.mkClient 0 [])
        = (Ok VNone, Backend.mkClient 0 [])).
Proof.
  intros invoke n. unfold Backend._invoke_lambda, Backend.range, Backend.backoff.
  pose proof (invoke_loop_run invoke n (Z.to_nat n) 0 (Backend.mkClient 0 [])) as H.
  cbn [Backend.invocations Backend.slept Nat.add app] in H.
  split; [|split].
  - intros k r Hk Hfail Hret.
    destruct H as (H1 & _); [lia|].
    apply (H1 k r); [lia | exact Hfail | exact Hret].
  - intros Hpos Hfail.
    destruct H as (_ & H2); [lia|].
    apply H2; [lia|]. intros j Hj. apply Hfail. lia.
  - intros Hle. replace (Z.to_nat n) with 0 by lia. reflexivity.
Qed.

Lemma invoke_lambda_retries_with_exponential_backoff_witness :
  Backend._invoke_lambda Scenario.flaky_lambda 3 (Backend.mkClient 0 [])
  = (Ok (VDict [("statusCode", VInt 200)]), Backend.mkClient 3 [1%Z; 2%Z]).
Proof.
  refine (proj1 (invoke_lambda_retries_with_exponential_backoff
                   Scenario.flaky_lambda 3)
                2 (VDict [("statusCode", VInt 200)]) _ _ _).
  - reflexivity.
  - intros [|[|j]] Hj; [reflexivity | reflexivity | lia].
  - reflexivity.
Defined.

(** ** Level 2: one envelope call *)

Lemma decrypt_field_level2_ok svc name c md p s s1 :
  c <> "" ->
  dict_get md "level" = Some (VInt 2) ->
  Pkg.decrypt_field svc name (VStr c) (Some md) s = (Ok p, s1) ->
  exists blob pt text,
    b64decode svc c = Ok blob
    /\ kms_decrypt svc blob = Ok pt
    /\ utf8_decode svc pt = Ok text
    /\ p = VStr text
    /\ s1 = set_trace (trace s ++ [KmsDecrypt blob]) s.
Proof.
  intros Hc Hl. unfold Pkg.decrypt_field.
  change (is_none_or_empty (VStr c)) with (String.eqb c "").
  rewrite (string_eqb_empty_false _ Hc).
  assert (Hml : Pkg.metadata_level (Some md) = Some (VInt 2)).
  { destruct md; [discriminate|]. exact Hl. }
  rewrite Hml. simpl. intros H.
  apply bind_ok_inv in H. destruct H as (blob & sa & Hb & H).
  apply lift_ok_inv in Hb. destruct Hb as [Hb ->].
  apply bind_ok_inv in H. destruct H as (pt & sb & Hk & H).
  apply kms_decrypt_call_ok in Hk. destruct Hk as [Hk ->].
  apply bind_ok_inv in H. destruct H as (text & sc & Ht & H).
  apply lift_ok_inv in Ht. destruct Ht as [Ht ->].
  inversion H; subst p s1.
  exists blob, pt, text. repeat split; assumption.
Qed.

(** X28.  For a field classified at level 2 and a non-empty value, a successful
    [encrypt_field] has made exactly one call, to the envelope service under
    [alias/pii-level2] on the UTF-8 bytes of the value, and returns base64
    of its ciphertext with no key version; a successful [decrypt_field] on
    metadata recording level 2 has made exactly one call, the envelope
    decryption of the base64-decoded value.  Neither touches the local
    cipher, the key secret or the key cache. *)
Theorem level2_is_one_envelope_call :
  forall (svc : services) (name v : string) (s : state),
    Pkg.classify_pii_level name = 2%Z ->
    v <> "" ->
    (forall r s1,
        Pkg.encrypt_field svc name (VStr v) s = (Ok r, s1) ->
        exists pt blob,
          utf8_encode svc v = Ok pt
          /\ kms_encrypt svc Pkg.level2_kms_alias pt = Ok blob
          /\ r = VDict [("value", VStr (b64encode svc blob));
                        ("encrypted", VBool true);
                        ("level", VInt 2); ("field_name", VStr name);
                        ("method", VStr "kms_only");
                        ("kms_key", VStr Pkg.level2_kms_alias)]
          /\ s1 = set_trace (trace s ++ [KmsEncrypt Pkg.level2_kms_alias pt]) s)
    /\ (forall c md p s' s2,
           c <> "" ->
           dict_get md "level" = Some (VInt 2) ->
           Pkg.decrypt_field svc name (VStr c) (Some md) s' = (Ok p, s2) ->
           exists blob pt text,
             b64decode svc c = Ok blob
             /\ kms_decrypt svc blob = Ok pt
             /\ utf8_decode svc pt = Ok text
             /\ p = VStr text
             /\ s2 = set_trace (trace s' ++ [KmsDecrypt blob]) s').
Proof.
  intros svc name v s Hl Hv. split.
  - intros r s1 H. exact (encrypt_field_level2_ok svc name v s r s1 Hl Hv H).
  - intros c md p s' s2 Hc Hml H.
    exact (decrypt_field_level2_ok svc name c md p s' s2 Hc Hml H).
Qed.

Lemma level2_is_one_envelope_call_witness :
  exists pt blob,
    utf8_encode Demo.env "1 Main St" = Ok pt
    /\ kms_encrypt Demo.env Pkg.level2_kms_alias pt = Ok blob
    /\ Scenario.address_entry
       = VDict [("value", VStr (b64encode Demo.env blob));
                ("encrypted", VBool true);
                ("level", VInt 2); ("field_name", VStr "address");
                ("method", VStr "kms_only");
                ("kms_key", VStr Pkg.level2_kms_alias)]
    /\ snd Scenario.encrypted_address
       = set_trace (trace Demo.start ++ [KmsEncrypt Pkg.level2_kms_alias pt])
                   Demo.start.
Proof.
  refine (proj1 (level2_is_one_envelope_call Demo.env "address" "1 Main St"
                   Demo.start _ _)
                Scenario.address_entry (snd Scenario.encrypted_address) _).
  - reflexivity.
  - discriminate.
  - vm_compute. reflexivity.
Defined.

(** ** Two input fields for one column *)

Lemma execute_insert_user_distinct svc conn columns values s r s1 :
  execute_insert_user svc conn columns values s = (Ok r, s1) ->
  has_duplicate columns = false.
Proof.
  unfold execute_insert_user. intros H.
  apply bind_ok_inv in H. destruct H as (u & sa & _ & H).
  destruct (negb (forallb _ columns)); [discriminate|].
  destruct (has_duplicate columns); [discriminate|reflexivity].
Qed.

Lemma store_encrypted_user_body_distinct svc conn ed s user_id s1 :
  Pkg.store_encrypted_user_body svc conn ed s = (Ok user_id, s1) ->
  has_duplicate (map fst (Pkg.insert_columns (Pkg.ed_fields ed))) = false.
Proof.
  unfold Pkg.store_encrypted_user_body. cbv zeta.
  destruct (Pkg.insert_columns (Pkg.ed_fields ed)) as [|c cs] eqn:Hi.
  - intros _. reflexivity.
  - intros H. apply bind_ok_inv in H. destruct H as (r & sa & Hins & _).
    exact (execute_insert_user_distinct _ _ _ _ _ _ _ Hins).
Qed.

Lemma store_encrypted_user_distinct svc ed s user_id s1 :
  Pkg.store_encrypted_user svc ed s = (Ok user_id, s1) ->
  has_duplicate (map fst (Pkg.insert_columns (Pkg.ed_fields ed))) = false.
Proof.
  unfold Pkg.store_encrypted_user, Pkg.get_connection.
  destruct (Pkg.get_db_connection svc s) as [[conn|e] sa] eqn:Hc; [|discriminate].
  unfold try_finally, try_except.
  destruct (Pkg.store_encrypted_user_body svc conn ed sa)
    as [[uid|e] sb] eqn:Hb.
  - intros _. exact (store_encrypted_user_body_distinct _ _ _ _ _ _ Hb).
  - destruct ((rollback conn;;; raise e)%py sb) as [[u|e'] sc] eqn:Hr.
    + unfold bind, raise in Hr. destruct (rollback conn sb) as [[?|?] ?];
        discriminate.
    + rewrite close_run. discriminate.
Qed.

Lemma insert_columns_has_column k v c fields :
  In (k, v) fields ->
  dict_get Pkg.field_mapping k = Some c ->
  is_none v = false ->
  has_string c (map fst (Pkg.insert_columns fields)) = true.
Proof.
  intros Hin Hk Hv. induction fields as [|[k0 v0] rest IH]; [destruct Hin|].
  cbn [Pkg.insert_columns]. destruct Hin as [E|Hin].
  - inversion E; subst k0 v0. rewrite Hk, Hv.
    cbn [map fst]. unfold has_string. cbn [existsb].
    rewrite String.eqb_refl. reflexivity.
  - specialize (IH Hin).
    destruct (dict_get Pkg.field_mapping k0) as [c0|]; [|exact IH].
    destruct (is_none v0); [exact IH|].
    cbn [map fst]. unfold has_string in *. cbn [existsb].
    rewrite IH. apply orb_true_r.
Qed.

Lemma both_date_fields_give_one_column_twice x y fields :
  In ("dob_encrypted", x) fields ->
  In ("date_of_birth_encrypted", y) fields ->
  is_none x = false ->
  is_none y = false ->
  has_duplicate (map fst (Pkg.insert_columns fields)) = true.
Proof.
  intros Hx Hy Nx Ny. induction fields as [|[k0 v0] rest IH]; [destruct Hx|].
  cbn [Pkg.insert_columns]. destruct Hx as [Ex|Hx]; destruct Hy as [Ey|Hy].
  - rewrite Ex in Ey. discriminate Ey.
  - inversion Ex; subst k0 v0.
    change (dict_get Pkg.field_mapping "dob_encrypted") with (Some "dob_encrypted").
    rewrite Nx. cbn [map fst has_duplicate].
    rewrite (insert_columns_has_column _ _ _ _ Hy eq_refl Ny). reflexivity.
  - inversion Ey; subst k0 v0.
    change (dict_get Pkg.field_mapping "date_of_birth_encrypted")
      with (Some "dob_encrypted").
    rewrite Ny. cbn [map fst has_duplicate].
    rewrite (insert_columns_has_column _ _ _ _ Hx eq_refl Nx). reflexivity.
  - specialize (IH Hx Hy).
    destruct (dict_get Pkg.field_mapping k0) as [c0|]; [|exact IH].
    destruct (is_none v0); [exact IH|].
    cbn [map fst has_duplicate]. rewrite IH. apply orb_true_r.
Qed.

(** X29.  [field_mapping] sends both [dob_encrypted] and [date_of_birth_encrypted]
    to the column [dob_encrypted], so fields that hold both with a value
    make the INSERT name that column twice.  Whenever the INSERT names a
    column twice, [store_encrypted_user] raises and the committed tables
    stay as they were. *)
Theorem store_encrypted_user_rejects_a_column_given_twice :
  forall (svc : services) (ed : Pkg.encrypted_data) (s : state),
    (forall x y,
        In ("dob_encrypted", x) (Pkg.ed_fields ed) ->
        In ("date_of_birth_encrypted", y) (Pkg.ed_fields ed) ->
        is_none x = false ->
        is_none y = false ->
        has_duplicate (map fst (Pkg.insert_columns (Pkg.ed_fields ed))) = true)
    /\ (has_duplicate (map fst (Pkg.insert_columns (Pkg.ed_fields ed))) = true ->
        exists e s1,
          Pkg.store_encrypted_user svc ed s = (Err e, s1)
          /\ database s1 = database s).
Proof.
  intros svc ed s. split.
  - intros x y. apply both_date_fields_give_one_column_twice.
  - intros Hdup.
    destruct (Pkg.store_encrypted_user svc ed s) as [[uid|e] s1] eqn:H.
    + apply store_encrypted_user_distinct in H. congruence.
    + exists e, s1. split; [reflexivity|].
      exact (proj1 (store_encrypted_user_err _ _ _ _ _ H)).
Qed.

Lemma store_encrypted_user_rejects_a_column_given_twice_witness :
  exists e s1,
    Pkg.store_encrypted_user Demo.env Scenario.two_dates Demo.start = (Err e, s1)
    /\ database s1 = database Demo.start.
Proof.
  destruct (store_encrypted_user_rejects_a_column_given_twice
              Demo.env Scenario.two_dates Demo.start) as [Hdup Hraise].
  apply Hraise.
  apply (Hdup (VStr "b64-one") (VStr "b64-two")).
  - right. left. reflexivity.
  - right. right. left. reflexivity.
  - reflexivity.
  - reflexivity.
Defined.
